(** * chef: serialization of the entity graph and the resource controllers

    A shallow embedding of [chef-backend/app/models.py] (the declarative
    entities and their depth-limited serialization) and of
    [src/python/chef/controllers.py] (the generic resource controller and
    its per-resource specialisations), with the properties of the
    specification stated and proved over them. *)

From Stdlib Require Import ZArith Bool List String Ascii Lia.
From Stdlib Require Import PrimFloat SpecFloat FloatOps.
From stdpp Require Import base option list strings gmap pretty.

Set Warnings "-register-all".

Open Scope Z_scope.
Open Scope string_scope.

(** ** Exceptions and fallible computations *)

Inductive exn : Type :=
| HTTPException (status_code : Z) (detail : string)
| ValueError (msg : string)
| AttributeError (msg : string)
| TypeError (msg : string)
| OverflowError (msg : string)
| IntegrityError (msg : string)
| FlushError (msg : string)
| UnmappedInstanceError (msg : string).

Inductive result (A : Type) : Type :=
| Ok (a : A)
| Raise (e : exn).
Arguments Ok {A} a.
Arguments Raise {A} e.

Definition rbind {A B} (r : result A) (k : A -> result B) : result B :=
  match r with
  | Ok a => k a
  | Raise e => Raise e
  end.

Definition rmap {A B} (f : A -> B) (r : result A) : result B :=
  rbind r (fun a => Ok (f a)).

(** Runs the computations of a list from left to right, as a Python
    comprehension does; the first exception aborts the whole list. *)
Fixpoint sequence {A} (l : list (result A)) : result (list A) :=
  match l with
  | [] => Ok []
  | r :: t => rbind r (fun a => rmap (cons a) (sequence t))
  end.

Definition is_Ok {A} (r : result A) : bool :=
  match r with Ok _ => true | Raise _ => false end.

(** ** Python values *)

(** The entity classes of models.py. *)
Inductive cls : Type :=
| Unit | Tag | Ingredient | IngredientItem | Category | Recipe.

Definition cls_eqb (a b : cls) : bool :=
  match a, b with
  | Unit, Unit | Tag, Tag | Ingredient, Ingredient
  | IngredientItem, IngredientItem | Category, Category | Recipe, Recipe => true
  | _, _ => false
  end.

(** [cls.__name__] *)
Definition __name__ (c : cls) : string :=
  match c with
  | Unit => "Unit" | Tag => "Tag" | Ingredient => "Ingredient"
  | IngredientItem => "IngredientItem" | Category => "Category"
  | Recipe => "Recipe"
  end.

(** The values an attribute of an entity can hold: [None], the scalars of
    the column types, a relationship collection (a Python list) and a
    related entity.  [PObj c attrs] is an instance of the [Base] subclass
    [c]; [attrs] lists the attributes that resolve on it, so a name that
    is not listed raises [AttributeError] when read.  Back-references
    ([recipes] on an item) are not serialized by any [__items__] list and
    are left out of [attrs]. *)
Inductive value : Type :=
| PNone
| PBool (b : bool)
| PInt (z : Z)
| PFloat (f : float)
| PStr (s : string)
| PList (l : list value)
| PObj (c : cls) (attrs : list (string * value)).

(** The transfer structure serialization produces: [None], a float, a
    string, a list or a dict with string keys in insertion order. *)
Inductive json : Type :=
| JNone
| JFloat (f : float)
| JStr (s : string)
| JList (l : list json)
| JDict (d : list (string * json)).

Module Models.

(** [__items__] of every class (models.py, lines 83, 89, 94, 119, 135, 142). *)
Definition __items__ (c : cls) : list string :=
  match c with
  | Unit => ["name"; "grams"]
  | Tag => ["name"]
  | Ingredient => ["id"; "name"; "energy"; "fats"; "carbs"; "proteins";
                   "fibres"; "salt"; "is_liquid"; "density"]
  | IngredientItem => ["ingredient"; "amount"; "unit"; "note"]
  | Category => ["id"; "name"; "tags"]
  | Recipe => ["id"; "title"; "subtitle"; "ingredients"; "body";
               "source"; "source_name"; "tags"; "portions"]
  end.

(** [float(n)] on a Python int: the nearest double, ties to even;
    [OverflowError] (here [None]) when the int is too large. *)
Definition float_of_int (z : Z) : option float :=
  let f := SF2Prim (binary_normalize prec emax z 0 false) in
  if PrimFloat.is_infinity f then None else Some f.

(** Reads attribute [name] out of the instance attributes [attrs] and
    continues with [f]; [d] is the outcome when the name does not resolve.
    Written once as a local [fix] so that [f] can be a recursive call. *)
Definition with_attr {B} (f : value -> B) (d : B) (name : string)
  : list (string * value) -> B :=
  fix go (attrs : list (string * value)) : B :=
    match attrs with
    | [] => d
    | (k, v) :: rest => if String.eqb k name then f v else go rest
    end.

(** [getattr(obj, name)] *)
Definition getattribute (attrs : list (string * value)) (name : string)
  : result value :=
  with_attr Ok (Raise (AttributeError name)) name attrs.

(** [Base._get_attributes], with [f] applied to every value collected:
    the attributes of [__items__], in that order, skipping those in
    [exclude] and those that raise [AttributeError]. *)
Definition _get_attributes {B} (f : value -> B) (c : cls)
    (attrs : list (string * value)) (exclude : list string)
  : list (string * B) :=
  flat_map
    (fun attr =>
       if existsb (String.eqb attr) exclude then []
       else with_attr (fun v => [(attr, f v)]) [] attr attrs)
    (__items__ c).

(** Runs the values of a dict comprehension in order. *)
Definition sequence_items {A} (l : list (string * result A))
  : result (list (string * A)) :=
  sequence (map (fun kv => rmap (pair (fst kv)) (snd kv)) l).

Definition join (sep : string) (l : list string) : string :=
  String.concat sep l.

Section Serialization.

(** What the Python runtime supplies and the sources do not define:
    - [float_of_str s]: [float(s)] on a string, [None] for [ValueError];
    - [float_str f]: [str(f)] of a float (equal to its [repr]);
    - [str_repr s]: [repr(s)] of a string, with its quotes and escapes;
    - [set_iter l]: the iteration order of the set built from the
      strings [l], which the language leaves unspecified. *)
Variable float_of_str : string -> option float.
Variable float_str : float -> string.
Variable str_repr : string -> string.
Variable set_iter : list string -> list string.

(** [str(j)] ([quote = false]) and [repr(j)] ([quote = true]) of a
    serialized value: the built-in display of None, floats, strings,
    lists and dicts. *)
Fixpoint json_show (quote : bool) (j : json) : string :=
  match j with
  | JNone => "None"
  | JFloat f => float_str f
  | JStr s => if quote then str_repr s else s
  | JList l => "[" ++ join ", " (map (json_show true) l) ++ "]"
  | JDict d =>
      "{" ++ join ", "
               (map (fun kv => str_repr (fst kv) ++ ": " ++ json_show true (snd kv)) d)
          ++ "}"
  end.

(** [Base._repr]: [kwargs] arrives with every value already formatted by
    the f-string ([f"{v}"] is [str(v)]). *)
Definition _repr (c : cls) (kwargs : list (string * string)) : string :=
  let kw := set_iter (map (fun kv => fst kv ++ "=" ++ snd kv) kwargs) in
  "<" ++ __name__ c ++ " (" ++ join ", " kw ++ ")>".

(** [Base.get_dictionary] over the recursive serializer [dictify]. *)
Definition get_dictionary_with (dictify : value -> Z -> result json)
    (c : cls) (attrs : list (string * value)) (depth : Z)
    (exclude : list string) : result (list (string * json)) :=
  sequence_items (_get_attributes (fun v => dictify v depth) c attrs exclude).

(** [__repr__] of an instance of [c] over the recursive [dictify] and
    [show] ([show v] is [str(v)]): [Ingredient] and [IngredientItem]
    override it, the other classes inherit [Base.__repr__], which
    serializes the instance with the default depth 99.  The overrides
    read their attributes first ([read] is the formatted value still to
    be run) and [_repr] formats them afterwards, in keyword order. *)
Definition __repr___with (dictify : value -> Z -> result json)
    (show : value -> result string)
    (c : cls) (attrs : list (string * value)) : result string :=
  let read (name : string) (attrs : list (string * value))
    : result (result string) :=
    with_attr (fun v => Ok (show v)) (Raise (AttributeError name)) name attrs in
  match c with
  | Ingredient =>
      rbind (read "id" attrs) (fun id =>
      rbind (read "name" attrs) (fun name =>
      rbind id (fun id =>
      rbind name (fun name =>
      Ok (_repr c [("id", id); ("name", name)])))))
  | IngredientItem =>
      rbind (with_attr
               (fun ingredient =>
                  match ingredient with
                  | PObj _ attrs' => read "name" attrs'
                  | _ => Raise (AttributeError "name")
                  end)
               (Raise (AttributeError "ingredient")) "ingredient" attrs)
        (fun name =>
      rbind (read "amount" attrs) (fun amount =>
      rbind (read "unit" attrs) (fun unit =>
      rbind name (fun name =>
      rbind amount (fun amount =>
      rbind unit (fun unit =>
      Ok (_repr c [("ingredient", name); ("amount", amount); ("unit", unit)])))))))
  | _ =>
      rbind (get_dictionary_with dictify c attrs 99 []) (fun d =>
      Ok (_repr c (map (fun kv => (fst kv, json_show false (snd kv))) d)))
  end.

(** [_dictify] (models.py, lines 23-37) together with the display string
    it falls back on.  [py_show false v] is [str(v)] and [py_show true v]
    is [repr(v)]; they differ on strings only, [Base] defining
    [__repr__] alone. *)
Fixpoint _dictify (obj : value) (depth : Z) {struct obj} : result json :=
  match obj with
  | PNone => Ok JNone
  | PObj c attrs =>
      if (0 <? depth)%Z then
        rmap JDict (get_dictionary_with _dictify c attrs (depth - 1) [])
      else
        (* not a list; float(obj) raises TypeError *)
        rmap JStr (__repr___with _dictify (py_show false) c attrs)
  | PList l =>
      if (1 <? depth)%Z then
        rmap JList (sequence (map (fun o => _dictify o (depth - 1)) l))
      else
        rmap JList (sequence (map (fun o => rmap JStr (py_show false o)) l))
  | PBool b => Ok (JFloat (if b then 1%float else 0%float))
  | PInt z =>
      match float_of_int z with
      | Some f => Ok (JFloat f)
      | None => Raise (OverflowError "int too large to convert to float")
      end
  | PFloat f => Ok (JFloat f)
  | PStr s =>
      match float_of_str s with
      | Some f => Ok (JFloat f)
      | None => Ok (JStr s)
      end
  end
with py_show (quote : bool) (obj : value) {struct obj} : result string :=
  match obj with
  | PNone => Ok "None"
  | PBool b => Ok (if b then "True" else "False")
  | PInt z => Ok (pretty z)
  | PFloat f => Ok (float_str f)
  | PStr s => Ok (if quote then str_repr s else s)
  | PList l =>
      rmap (fun items => "[" ++ join ", " items ++ "]")
           (sequence (map (py_show true) l))
  | PObj c attrs => __repr___with _dictify (py_show false) c attrs
  end.

(** [str(obj)] *)
Definition py_str (obj : value) : result string := py_show false obj.

(** [Base.get_dictionary] and the [dictionary] property. *)
Definition get_dictionary (obj : value) (depth : Z) (exclude : list string)
  : result (list (string * json)) :=
  match obj with
  | PObj c attrs => get_dictionary_with _dictify c attrs depth exclude
  | _ => Raise (AttributeError "get_dictionary")
  end.

Definition dictionary (obj : value) : result (list (string * json)) :=
  get_dictionary obj 99 [].

End Serialization.

End Models.

(** ** The persistence session

    controllers.py reaches storage through a SQLAlchemy [Session]:
    [get], [query(...).filter_by(name=...).first()], [scalars(select(...))],
    [add], [delete] and [commit].  The session is a collaborator and not
    part of the sources; this module gives the committed database as an
    explicit state, with the tables, columns, defaults, constraints and
    relationships that models.py declares, and the session's operations
    as functions over it.  Foreign keys are not enforced by the store. *)

Module Session.

(** A table row: column name to value; ["id"] holds the primary key. *)
Abbreviation row := (gmap string value).

Record column : Type := Column {
  col_name : string;
  col_nullable : bool;
  col_default : value;     (* [PNone] when the column declares no default *)
  col_unique : bool
}.

(** [db.Column] declarations of every class, the primary key [id] apart
    (models.py, lines 84-85, 90, 97-108, 121-128, 136, 145-157). *)
Definition columns (c : cls) : list column :=
  match c with
  | Unit =>
      [Column "name" false PNone true;
       Column "grams" true (PInt 0) false]
  | Tag =>
      [Column "name" false PNone false]
  | Ingredient =>
      [Column "name" false PNone false;
       Column "approx_per_piece" true (PInt 0) false;
       Column "energy" true (PInt 0) false;
       Column "fats" true (PInt 0) false;
       Column "carbs" true (PInt 0) false;
       Column "proteins" true (PInt 0) false;
       Column "fibres" true (PInt 0) false;
       Column "salt" true (PInt 0) false;
       Column "is_liquid" true (PBool false) false;
       Column "density" true (PInt 1000) false]
  | IngredientItem =>
      [Column "ingredient_id" true PNone false;
       Column "amount" true (PInt 0) false;
       Column "unit_id" true PNone false;
       Column "note" true PNone false;
       Column "exclude" true (PBool false) false]
  | Category =>
      [Column "name" false PNone false]
  | Recipe =>
      [Column "title" false PNone false;
       Column "subtitle" true PNone false;
       Column "source_name" true PNone false;
       Column "source" true PNone false;
       Column "draft" true (PBool false) false;
       Column "portions" true (PInt 4) false;
       Column "body" true PNone false]
  end.

(** The association tables of models.py (lines 4-20). *)
Inductive secondary : Type :=
| ingredients      (* recipe_id, ingredient_item_id *)
| tags             (* recipe_id, tag_id *)
| category_tags.   (* category_id, tag_id *)

(** The cascade options of a relationship; ["all"] abbreviates every one
    of them except [delete-orphan]. *)
Inductive cascade_option : Type :=
| save_update | merge | refresh_expire | expunge | delete | delete_orphan.

Definition cascade_all : list cascade_option :=
  [save_update; merge; refresh_expire; expunge; delete].

Definition cascade_default : list cascade_option :=
  [save_update; merge].

Definition has_cascade (o : cascade_option) (l : list cascade_option) : bool :=
  existsb (fun o' =>
             match o, o' with
             | save_update, save_update | merge, merge
             | refresh_expire, refresh_expire | expunge, expunge
             | delete, delete | delete_orphan, delete_orphan => true
             | _, _ => false
             end) l.

Record relationship : Type := Relationship {
  rel_key : string;
  rel_target : cls;
  rel_secondary : secondary;
  rel_cascade : list cascade_option
}.

(** The many-to-many [db.relationship] collections (models.py, lines
    137-138 and 151-154). *)
Definition relationships (c : cls) : list relationship :=
  match c with
  | Category => [Relationship "tags" Tag category_tags cascade_default]
  | Recipe =>
      [Relationship "ingredients" IngredientItem ingredients cascade_all;
       Relationship "tags" Tag tags cascade_default]
  | _ => []
  end.

(** Every attribute name a class declares: what its constructor accepts
    as a keyword. *)
Definition declared (c : cls) : list string :=
  "id" :: map col_name (columns c) ++ map rel_key (relationships c)
       ++ match c with
          | IngredientItem => ["ingredient"; "unit"; "recipes"]
          | _ => []
          end.

(** The committed database. *)
Record Store : Type := mkStore {
  unit_tbl : list row;
  tag_tbl : list row;
  ingredient_tbl : list row;
  ingredient_item_tbl : list row;
  category_tbl : list row;
  recipe_tbl : list row;
  ingredients_tbl : list (Z * Z);
  tags_tbl : list (Z * Z);
  category_tags_tbl : list (Z * Z)
}.

Definition empty_store : Store := mkStore [] [] [] [] [] [] [] [] [].

Definition table (c : cls) (s : Store) : list row :=
  match c with
  | Unit => unit_tbl s
  | Tag => tag_tbl s
  | Ingredient => ingredient_tbl s
  | IngredientItem => ingredient_item_tbl s
  | Category => category_tbl s
  | Recipe => recipe_tbl s
  end.

Definition set_table (c : cls) (t : list row) (s : Store) : Store :=
  match c with
  | Unit => mkStore t (tag_tbl s) (ingredient_tbl s) (ingredient_item_tbl s)
              (category_tbl s) (recipe_tbl s) (ingredients_tbl s) (tags_tbl s)
              (category_tags_tbl s)
  | Tag => mkStore (unit_tbl s) t (ingredient_tbl s) (ingredient_item_tbl s)
              (category_tbl s) (recipe_tbl s) (ingredients_tbl s) (tags_tbl s)
              (category_tags_tbl s)
  | Ingredient => mkStore (unit_tbl s) (tag_tbl s) t (ingredient_item_tbl s)
              (category_tbl s) (recipe_tbl s) (ingredients_tbl s) (tags_tbl s)
              (category_tags_tbl s)
  | IngredientItem => mkStore (unit_tbl s) (tag_tbl s) (ingredient_tbl s) t
              (category_tbl s) (recipe_tbl s) (ingredients_tbl s) (tags_tbl s)
              (category_tags_tbl s)
  | Category => mkStore (unit_tbl s) (tag_tbl s) (ingredient_tbl s)
              (ingredient_item_tbl s) t (recipe_tbl s) (ingredients_tbl s)
              (tags_tbl s) (category_tags_tbl s)
  | Recipe => mkStore (unit_tbl s) (tag_tbl s) (ingredient_tbl s)
              (ingredient_item_tbl s) (category_tbl s) t (ingredients_tbl s)
              (tags_tbl s) (category_tags_tbl s)
  end.

Definition links (sec : secondary) (s : Store) : list (Z * Z) :=
  match sec with
  | ingredients => ingredients_tbl s
  | tags => tags_tbl s
  | category_tags => category_tags_tbl s
  end.

Definition set_links (sec : secondary) (l : list (Z * Z)) (s : Store) : Store :=
  match sec with
  | ingredients => mkStore (unit_tbl s) (tag_tbl s) (ingredient_tbl s)
              (ingredient_item_tbl s) (category_tbl s) (recipe_tbl s) l
              (tags_tbl s) (category_tags_tbl s)
  | tags => mkStore (unit_tbl s) (tag_tbl s) (ingredient_tbl s)
              (ingredient_item_tbl s) (category_tbl s) (recipe_tbl s)
              (ingredients_tbl s) l (category_tags_tbl s)
  | category_tags => mkStore (unit_tbl s) (tag_tbl s) (ingredient_tbl s)
              (ingredient_item_tbl s) (category_tbl s) (recipe_tbl s)
              (ingredients_tbl s) (tags_tbl s) l
  end.

(** Column [name] of a row, [None] (SQL NULL) when unset. *)
Definition cell (r : row) (name : string) : value :=
  default PNone (r !! name).

Definition row_id (r : row) : option Z :=
  match r !! "id" with
  | Some (PInt z) => Some z
  | _ => None
  end.

Definition has_id (id : Z) (r : row) : bool :=
  match row_id r with
  | Some z => Z.eqb z id
  | None => false
  end.

Definition is_none (v : value) : bool :=
  match v with PNone => true | _ => false end.

(** Equality of two column values as a [WHERE col = v] compares them;
    [filter_by(col=None)] is rendered as [col IS NULL]. *)
Definition value_eqb (a b : value) : bool :=
  match a, b with
  | PNone, PNone => true
  | PBool x, PBool y => Bool.eqb x y
  | PInt x, PInt y => Z.eqb x y
  | PFloat x, PFloat y => PrimFloat.eqb x y
  | PStr x, PStr y => String.eqb x y
  | _, _ => false
  end.

(** A mapped instance in memory: its class, the primary key of the row it
    was loaded from ([None] for an instance the session has not stored
    yet) and its attribute values. *)
Record instance : Type := Instance {
  i_cls : cls;
  i_key : option Z;
  i_attrs : gmap string value
}.

(** An instance together with the relationship collections assigned to
    it since it was loaded; a member is [None] where the code put the
    result of a [session.get] that found nothing. *)
Record model : Type := Model {
  m_inst : instance;
  m_rels : list (string * list (option instance))
}.

(** [cls()] *)
Definition new_model (c : cls) : model :=
  Model (Instance c None ∅) [].

(** [setattr(model, attr, value)] on a column attribute *)
Definition setattr (m : model) (attr : string) (v : value) : model :=
  Model (Instance (i_cls (m_inst m)) (i_key (m_inst m))
                  (<[attr := v]> (i_attrs (m_inst m))))
        (m_rels m).

(** [model.<key> = members] on a relationship collection *)
Definition set_collection (m : model) (key : string)
    (members : list (option instance)) : model :=
  Model (m_inst m)
        ((key, members) :: List.filter (fun kv => negb (String.eqb (fst kv) key)) (m_rels m)).

(** [session.get(cls, ident)]: the row whose primary key is [ident];
    the schemas type an id as an optional int, anything else finds
    nothing. *)
Definition get (c : cls) (ident : value) (s : Store) : option instance :=
  match ident with
  | PInt id =>
      match find (has_id id) (table c s) with
      | Some r => Some (Instance c (Some id) r)
      | None => None
      end
  | _ => None
  end.

(** [session.query(cls).filter_by(name=name).first()] *)
Definition first_by_name (c : cls) (name : value) (s : Store)
  : option instance :=
  match find (fun r => value_eqb (cell r "name") name) (table c s) with
  | Some r =>
      match row_id r with
      | Some id => Some (Instance c (Some id) r)
      | None => None
      end
  | None => None
  end.

(** The next primary key the table hands out. *)
Definition next_id (t : list row) : Z :=
  1 + fold_right Z.max 0 (omap row_id t).

(** The column values of an INSERT: an attribute that is unset or [None]
    takes the column default. *)
Definition insert_values (c : cls) (attrs : gmap string value) : row :=
  fold_right
    (fun col r =>
       <[col_name col :=
           match attrs !! col_name col with
           | Some v => if is_none v then col_default col else v
           | None => col_default col
           end]> r)
    ∅ (columns c).

(** The column values of an UPDATE of the row [old]: every attribute the
    instance carries is written, [None] included. *)
Definition update_values (c : cls) (old : row) (attrs : gmap string value) : row :=
  fold_right
    (fun col r =>
       <[col_name col :=
           match attrs !! col_name col with
           | Some v => v
           | None => cell old (col_name col)
           end]> r)
    ∅ (columns c).

(** NOT NULL, UNIQUE and PRIMARY KEY, checked on the row written against
    the other rows of its table. *)
Definition not_null_ok (c : cls) (r : row) : bool :=
  forallb (fun col => col_nullable col || negb (is_none (cell r (col_name col))))
          (columns c).

Definition unique_ok (c : cls) (r : row) (others : list row) : bool :=
  forallb
    (fun col =>
       negb (col_unique col)
       || is_none (cell r (col_name col))
       || negb (existsb (fun r' => value_eqb (cell r' (col_name col))
                                             (cell r (col_name col))) others))
    (columns c).

Definition primary_key_ok (id : Z) (others : list row) : bool :=
  negb (existsb (has_id id) others).

Definition check_row (c : cls) (id : Z) (r : row) (others : list row)
  : result unit :=
  if negb (not_null_ok c r) then
    Raise (IntegrityError "NOT NULL constraint failed")
  else if negb (primary_key_ok id others) then
    Raise (IntegrityError "UNIQUE constraint failed: id")
  else if negb (unique_ok c r others) then
    Raise (IntegrityError "UNIQUE constraint failed")
  else Ok tt.

(** Writes one instance: INSERT for an instance without a row, UPDATE of
    its row otherwise.  Returns the primary key of the row written. *)
Definition flush_instance (i : instance) (s : Store) : result (Z * Store) :=
  let c := i_cls i in
  let t := table c s in
  match i_key i with
  | None =>
      rbind (match i_attrs i !! "id" with
             | Some (PInt z) => Ok z
             | Some PNone | None => Ok (next_id t)
             | Some _ => Raise (IntegrityError "datatype mismatch")
             end) (fun id =>
      let r := <["id" := PInt id]> (insert_values c (i_attrs i)) in
      rbind (check_row c id r t) (fun _ =>
      Ok (id, set_table c (t ++ [r]) s)))
  | Some k =>
      match find (has_id k) t with
      | None => Raise (IntegrityError "row is gone")
      | Some old =>
          rbind (match i_attrs i !! "id" with
                 | Some (PInt z) => Ok z
                 | None => Ok k
                 | Some _ => Raise (IntegrityError "datatype mismatch")
                 end) (fun id =>
          let r := <["id" := PInt id]> (update_values c old (i_attrs i)) in
          rbind (check_row c id r (List.filter (fun r' => negb (has_id k r')) t)) (fun _ =>
          Ok (id, set_table c (map (fun r' => if has_id k r' then r else r') t) s)))
      end
  end.

(** The children linked to [parent] in an association table, in the
    order of the table. *)
Definition linked (sec : secondary) (parent : Z) (s : Store) : list Z :=
  map snd (List.filter (fun pc => Z.eqb (fst pc) parent) (links sec s)).

(** The parents a child is linked to (the back-reference of a
    relationship). *)
Definition linked_to (sec : secondary) (child : Z) (s : Store) : list Z :=
  map fst (List.filter (fun pc => Z.eqb (snd pc) child) (links sec s)).

Definition mem (x : Z) (l : list Z) : bool := existsb (Z.eqb x) l.

Fixpoint distinct (l : list Z) : bool :=
  match l with
  | [] => true
  | x :: t => negb (mem x t) && distinct t
  end.

(** Writes the members of a collection that have no row yet (the
    [save-update] cascade) and returns the primary keys of all members in
    order.  A [None] member cannot be flushed. *)
Fixpoint flush_members (members : list (option instance)) (s : Store)
  : result (list Z * Store) :=
  match members with
  | [] => Ok ([], s)
  | None :: _ => Raise (FlushError "Can't flush None value found in collection")
  | Some i :: rest =>
      rbind (match i_key i with
             | Some k => Ok (k, s)
             | None => flush_instance i s
             end) (fun ks =>
      rbind (flush_members rest (snd ks)) (fun r =>
      Ok (fst ks :: fst r, snd r)))
  end.

(** Removes a row of class [c], with the association rows that mention
    it as a child of [sec]. *)
Definition remove_child (c : cls) (sec : secondary) (s : Store) (id : Z) : Store :=
  set_links sec (List.filter (fun pc => negb (Z.eqb (snd pc) id)) (links sec s))
    (set_table c (List.filter (fun r => negb (has_id id r)) (table c s)) s).

(** Flushes the assignment [parent.<rel> = members]: new members are
    inserted, the association rows of the members that left the
    collection are deleted and those of the members that joined it are
    inserted (twice the same row violates the table's primary key).
    Members that left are themselves deleted only under the
    [delete-orphan] cascade. *)
Definition flush_collection (parent : Z) (rel : relationship)
    (members : list (option instance)) (s : Store) : result Store :=
  rbind (if has_cascade save_update (rel_cascade rel)
         then flush_members members s
         else Raise (FlushError "save-update cascade is off")) (fun r =>
  let ids := fst r in
  let s1 := snd r in
  let sec := rel_secondary rel in
  let old := linked sec parent s1 in
  let removed := List.filter (fun c => negb (mem c ids)) old in
  let added := List.filter (fun c => negb (mem c old)) ids in
  if negb (distinct added) then
    Raise (IntegrityError "UNIQUE constraint failed: association row")
  else
    let kept :=
      List.filter (fun pc => negb (Z.eqb (fst pc) parent && mem (snd pc) removed))
                  (links sec s1) in
    let s2 := set_links sec (kept ++ map (pair parent) added) s1 in
    Ok (if has_cascade delete_orphan (rel_cascade rel)
        then fold_left (remove_child (rel_target rel) sec) removed s2
        else s2)).

Fixpoint flush_collections (c : cls) (parent : Z)
    (rels : list (string * list (option instance))) (s : Store) : result Store :=
  match rels with
  | [] => Ok s
  | (key, members) :: rest =>
      match find (fun rel => String.eqb (rel_key rel) key) (relationships c) with
      | None => Raise (AttributeError key)
      | Some rel =>
          rbind (flush_collection parent rel members s) (flush_collections c parent rest)
      end
  end.

(** [session.add(m); session.commit()]: the instance and its assigned
    collections are written in one transaction, which is rolled back as
    a whole when a statement fails.  Returns the primary key of [m]. *)
Definition add_commit (m : model) (s : Store) : result Z * Store :=
  match rbind (flush_instance (m_inst m) s) (fun r =>
        rbind (flush_collections (i_cls (m_inst m)) (fst r) (rev (m_rels m)) (snd r))
              (fun s' => Ok (fst r, s'))) with
  | Ok (id, s') => (Ok id, s')
  | Raise e => (Raise e, s)
  end.

(** [session.delete(item); session.commit()] for the row [id] of [c].
    The association rows of the relationships the row takes part in go
    with it; a recipe's ingredient-items are deleted with the recipe (the
    [delete] cascade of [Recipe.ingredients]); the items of an ingredient
    stay, their [ingredient_id] set to NULL. *)
Definition delete_commit (c : cls) (id : Z) (s : Store) : Store :=
  let drop_row c s :=
    set_table c (List.filter (fun r => negb (has_id id r)) (table c s)) s in
  let drop_parent sec s :=
    set_links sec (List.filter (fun pc => negb (Z.eqb (fst pc) id)) (links sec s)) s in
  let drop_child sec s :=
    set_links sec (List.filter (fun pc => negb (Z.eqb (snd pc) id)) (links sec s)) s in
  match c with
  | Unit => drop_row Unit s
  | Tag => drop_child category_tags (drop_child tags (drop_row Tag s))
  | Ingredient =>
      set_table IngredientItem
        (map (fun r => if value_eqb (cell r "ingredient_id") (PInt id)
                       then <["ingredient_id" := PNone]> r else r)
             (table IngredientItem s))
        (drop_row Ingredient s)
  | IngredientItem => drop_child ingredients (drop_row IngredientItem s)
  | Category => drop_parent category_tags (drop_row Category s)
  | Recipe =>
      let items := linked ingredients id s in
      fold_left (remove_child IngredientItem ingredients) items
        (drop_parent tags (drop_parent ingredients (drop_row Recipe s)))
  end.

(** The object graph the serializer walks from a row: the columns, and
    the relationships a class lists in [__items__]. *)
Definition column_attrs (c : cls) (r : row) : list (string * value) :=
  ("id", cell r "id") :: map (fun col => (col_name col, cell r (col_name col))) (columns c).

Definition load_flat (c : cls) (r : row) : value :=
  PObj c (column_attrs c r).

Definition load_ref (c : cls) (ident : value) (s : Store) : value :=
  match get c ident s with
  | Some i => load_flat c (i_attrs i)
  | None => PNone
  end.

Definition load_item (s : Store) (r : row) : value :=
  PObj IngredientItem
    (column_attrs IngredientItem r
       ++ [("ingredient", load_ref Ingredient (cell r "ingredient_id") s);
           ("unit", load_ref Unit (cell r "unit_id") s)]).

Definition load_members (c : cls) (f : row -> value) (ids : list Z) (s : Store)
  : value :=
  PList (omap (fun id => option_map f (find (has_id id) (table c s))) ids).

Definition load (c : cls) (r : row) (s : Store) : value :=
  let id := default 0 (row_id r) in
  match c with
  | IngredientItem => load_item s r
  | Category =>
      PObj Category
        (column_attrs Category r
           ++ [("tags", load_members Tag (load_flat Tag) (linked category_tags id s) s)])
  | Recipe =>
      PObj Recipe
        (column_attrs Recipe r
           ++ [("ingredients",
                load_members IngredientItem (load_item s) (linked ingredients id s) s);
               ("tags", load_members Tag (load_flat Tag) (linked tags id s) s)])
  | _ => load_flat c r
  end.

End Session.

(** ** The controllers (controllers.py) *)

(** The transfer shapes.  [chef.schemas] is not among the sources; the
    shapes below are what controllers.py reads from them.  A schema with
    scalar fields only is the list of its fields in declaration order,
    an unset optional field holding [None]. *)
Definition fields : Type := list (string * value).

Record CreateOrUpdateCategory : Type := {
  category_fields : fields;
  category_tag_list : list fields          (* data.tags *)
}.

Record IngredientItemData : Type := {
  item_fields : fields;                (* amount, note, ... *)
  item_ingredient : fields;            (* ingredient_item.ingredient *)
  item_unit : fields                   (* ingredient_item.unit *)
}.

Record CreateOrUpdateRecipe : Type := {
  recipe_fields : fields;
  recipe_ingredients : list IngredientItemData;   (* data.ingredients *)
  recipe_tags : list fields                       (* data.tags *)
}.

(** A read schema built from the entries of [item.dictionary]: the
    dictionary it was given.  Building the schema also validates the
    entries against the field types that [chef.schemas] declares; that
    module is not among the sources and the validation is not modelled,
    so a shape returned here is the dictionary handed to the read
    schema. *)
Definition read_shape : Type := list (string * json).

(** What the runtime supplies: the four functions of the serializer, and
    [read_id], the [id] attribute of a read schema given the ["id"] entry
    of the dictionary it was built from ([None] when there is none). *)
Record runtime : Type := Runtime {
  float_of_str : string -> option float;
  float_str : float -> string;
  str_repr : string -> string;
  set_iter : list string -> list string;
  read_id : option json -> value
}.

(** Controller operations run against the store and may raise; what was
    committed before an exception stays committed. *)
Definition M (A : Type) : Type := Session.Store -> result A * Session.Store.

Definition ret {A} (a : A) : M A := fun s => (Ok a, s).

Definition raise {A} (e : exn) : M A := fun s => (Raise e, s).

Definition lift {A} (r : result A) : M A := fun s => (r, s).

Definition bind {A B} (m : M A) (k : A -> M B) : M B :=
  fun s =>
    match m s with
    | (Ok a, s') => k a s'
    | (Raise e, s') => (Raise e, s')
    end.

Notation "x <~ m ;; k" := (bind m (fun x => k))
  (at level 100, m at next level, right associativity).

(** Runs [f] over a list from left to right. *)
Fixpoint for_each {A B} (f : A -> M B) (l : list A) : M (list B) :=
  match l with
  | [] => ret []
  | a :: t => b <~ f a ;; bs <~ for_each f t ;; ret (b :: bs)
  end.

(** Python truthiness of a scalar. *)
Definition truthy (v : value) : bool :=
  match v with
  | PNone => false
  | PBool b => b
  | PInt z => negb (Z.eqb z 0)
  | PFloat f => negb (PrimFloat.eqb f 0%float)
  | PStr s => negb (String.eqb s "")
  | PList l => match l with [] => false | _ => true end
  | PObj _ _ => true
  end.

Definition lookup_field (name : string) (fs : fields) : option value :=
  option_map snd (find (fun kv => String.eqb (fst kv) name) fs).

(** [data.<name>] *)
Definition attr_of (fs : fields) (name : string) : result value :=
  match lookup_field name fs with
  | Some v => Ok v
  | None => Raise (AttributeError name)
  end.

(** [getattr(data, name, None)] *)
Definition getattr_or_none (fs : fields) (name : string) : value :=
  default PNone (lookup_field name fs).

(** [data.dict(exclude_none=True)] *)
Definition exclude_none (fs : fields) : fields :=
  List.filter (fun kv => negb (Session.is_none (snd kv))) fs.

(** [data.dict(exclude={name: True})] *)
Definition exclude (name : string) (fs : fields) : fields :=
  List.filter (fun kv => negb (String.eqb (fst kv) name)) fs.

Definition dict_get (k : string) (d : read_shape) : option json :=
  option_map snd (find (fun kv => String.eqb (fst kv) k) d).

(** [f"{self.read_schema.__class__}"]: [read_schema] is the schema class
    itself, so its [__class__] is the metaclass of the pydantic models,
    whichever controller asks. *)
Definition read_schema_class : string := "<class 'pydantic.main.ModelMetaclass'>".

Definition not_found (id : string) : exn :=
  HTTPException 404 (read_schema_class ++ " id=" ++ id ++ " not found").

(** [setattr(model, attr, value)] where [model] may be [None] *)
Definition setattr_on (m : option Session.model) (attr : string) (v : value)
  : result (option Session.model) :=
  match m with
  | Some m => Ok (Some (Session.setattr m attr v))
  | None =>
      Raise (AttributeError ("'NoneType' object has no attribute '" ++ attr ++ "'"))
  end.

(** [for attr, value in d.items(): setattr(model, attr, value)] *)
Definition setattrs (m : option Session.model) (d : fields)
  : result (option Session.model) :=
  fold_left (fun acc kv => rbind acc (fun m => setattr_on m (fst kv) (snd kv)))
            d (Ok m).

(** [session.add(item); session.commit()]; afterwards [item.id] is the
    primary key returned. *)
Definition add_and_commit (m : option Session.model) : M Z :=
  match m with
  | Some m => Session.add_commit m
  | None => raise (UnmappedInstanceError "Class 'builtins.NoneType' is not mapped")
  end.

Module Controller.
Section Generic.

Variable rt : runtime.
Context {D : Type}.

(** What a concrete controller fixes: the mapped class of its read
    schema ([self.read_schema.Meta.orm_model]), its merge routine and the
    scalar fields of its create/update shape. *)
Variable orm_model : cls.
Variable _fill_model : option Session.model -> D -> M (option Session.model).
Variable scalar_fields : D -> fields.

(** [item.dictionary] for a row of [c] *)
Definition dictionary_of (c : cls) (i : Session.instance) : M read_shape :=
  fun s =>
    (Models.dictionary (float_of_str rt) (float_str rt) (str_repr rt) (set_iter rt)
       (Session.load c (Session.i_attrs i) s), s).

(** [Controller.get_all] (lines 38-42) *)
Definition get_all : M (list read_shape) :=
  fun s =>
    for_each (fun r => dictionary_of orm_model (Session.Instance orm_model (Session.row_id r) r))
             (Session.table orm_model s) s.

(** [Controller.get_single] (lines 44-50) *)
Definition get_single (item_id : Z) : M read_shape :=
  fun s =>
    match Session.get orm_model (PInt item_id) s with
    | None => raise (not_found (pretty item_id)) s
    | Some db_item => dictionary_of orm_model db_item s
    end.

(** [Controller.delete_single] (lines 52-59) *)
Definition delete_single (item_id : Z) : M unit :=
  fun s =>
    match Session.get orm_model (PInt item_id) s with
    | None => raise (not_found (pretty item_id)) s
    | Some item => (Ok tt, Session.delete_commit orm_model item_id s)
    end.

(** [Controller.create] (lines 61-66) *)
Definition create (data : D) : M read_shape :=
  let new_model := Session.new_model orm_model in
  m <~ _fill_model (Some new_model) data ;;
  id <~ add_and_commit m ;;
  get_single id.

(** [Controller.create_or_update] (lines 68-76) *)
Definition create_or_update (data : D) : M read_shape :=
  fun s =>
    let item :=
      if truthy (getattr_or_none (scalar_fields data) "id") then
        option_map (fun i => Session.Model i [])
                   (Session.get orm_model (getattr_or_none (scalar_fields data) "id") s)
      else Some (Session.new_model orm_model) in
    (m <~ _fill_model item data ;;
     id <~ add_and_commit m ;;
     fun s' =>
       match Session.get orm_model (PInt id) s' with
       | Some i => dictionary_of orm_model i s'
       | None => raise (AttributeError "'NoneType' object has no attribute 'dictionary'") s'
       end) s.

(** [Controller.update] (lines 78-87) *)
Definition update (item_id : Z) (data : D) : M read_shape :=
  fun s =>
    match Session.get orm_model (PInt item_id) s with
    | None =>
        (id <~ lift (rbind (attr_of (scalar_fields data) "id")
                           (Models.py_str (float_of_str rt) (float_str rt)
                                          (str_repr rt) (set_iter rt))) ;;
         raise (not_found id)) s
    | Some item =>
        (m <~ _fill_model (Some (Session.Model item [])) data ;;
         id <~ add_and_commit m ;;
         get_single id) s
    end.

End Generic.

(** [Controller._fill_model] (lines 33-36), the default merge routine *)
Definition _fill_model (model : option Session.model) (data : fields)
  : M (option Session.model) :=
  lift (setattrs model (exclude_none data)).

End Controller.

(** [class TagController(Controller[Tag, Tag, Tag])] *)
Module TagController.

Definition get_single (rt : runtime) := Controller.get_single rt Tag.
Definition delete_single := @Controller.delete_single Tag.
Definition create (rt : runtime) :=
  Controller.create rt Tag Controller._fill_model.
Definition create_or_update (rt : runtime) :=
  Controller.create_or_update rt Tag Controller._fill_model (fun d => d).
Definition update (rt : runtime) :=
  Controller.update rt Tag Controller._fill_model (fun d => d).

End TagController.

(** [class IngredientsController(Controller[UpdateIngredient, Ingredient,
    UpdateIngredient])] *)
Module IngredientsController.

(** Modelled from the spec: the [ingredients_items] collection of an
    ingredient.  controllers.py reads it, and the module that declares it
    ([chef.models]) is not among the sources; models.py declares the
    forward reference [IngredientItem.ingredient] only.  It holds "every
    ingredient-item referencing this ingredient". *)
Definition ingredients_items (id : Z) (s : Session.Store) : list Session.row :=
  List.filter (fun r => Session.value_eqb (Session.cell r "ingredient_id") (PInt id))
              (Session.table IngredientItem s).

(** [item.recipes], the back-reference of [Recipe.ingredients] *)
Definition recipes (item : Session.row) (s : Session.Store) : list Session.row :=
  match Session.row_id item with
  | Some id =>
      omap (fun rid => find (Session.has_id rid) (Session.table Recipe s))
           (Session.linked_to Session.ingredients id s)
  | None => []
  end.

(** One operand of [', '.join(...)] *)
Definition join_item (v : value) : result string :=
  match v with
  | PStr t => Ok t
  | _ => Raise (TypeError "sequence item: expected str instance")
  end.

(** [IngredientsController.delete_single] (lines 96-109) *)
Definition delete_single (item_id : Z) : M unit :=
  fun s =>
    match Session.get Ingredient (PInt item_id) s with
    | None =>
        raise (AttributeError "'NoneType' object has no attribute 'ingredients_items'") s
    | Some ingredient =>
        let recipes :=
          flat_map (fun item => map (fun r => Session.cell r "title") (recipes item s))
                   (ingredients_items item_id s) in
        match recipes with
        | [] => Controller.delete_single Ingredient item_id s
        | _ =>
            (titles <~ lift (sequence (map join_item recipes)) ;;
             raise (HTTPException 400
                      ("Ingredient still attached to some recipes: "
                         ++ Models.join ", " titles))) s
        end
    end.

Definition get_single (rt : runtime) := Controller.get_single rt Ingredient.
Definition create (rt : runtime) :=
  Controller.create rt Ingredient Controller._fill_model.
Definition create_or_update (rt : runtime) :=
  Controller.create_or_update rt Ingredient Controller._fill_model (fun d => d).
Definition update (rt : runtime) :=
  Controller.update rt Ingredient Controller._fill_model (fun d => d).

End IngredientsController.

(** [class CategoriesController(Controller[CreateOrUpdateCategory,
    Category, CreateOrUpdateCategory])] *)
Module CategoriesController.

(** The body of the loop over [data.tags]: the tag of that id, or the
    400 that names it. *)
Definition resolve_tag (rt : runtime) (tag : fields) : M (option Session.instance) :=
  fun s =>
    match attr_of tag "id" with
    | Raise e => (Raise e, s)
    | Ok id =>
        match Session.get Tag id s with
        | Some item => (Ok (Some item), s)
        | None =>
            (rbind (Models.py_str (float_of_str rt) (float_str rt)
                                  (str_repr rt) (set_iter rt) id)
                   (fun id' =>
                      Raise (HTTPException 400 ("Tag id=" ++ id' ++ " not found"))), s)
        end
    end.

(** [CategoriesController._fill_model] (lines 114-125) *)
Definition _fill_model (rt : runtime) (model : option Session.model)
    (data : CreateOrUpdateCategory) : M (option Session.model) :=
  tags <~ for_each (resolve_tag rt) (category_tag_list data) ;;
  m <~ lift (setattrs model (exclude_none (category_fields data))) ;;
  match m with
  | Some m => ret (Some (Session.set_collection m "tags" tags))
  | None => raise (AttributeError "'NoneType' object has no attribute 'tags'")
  end.

Definition get_single (rt : runtime) := Controller.get_single rt Category.
Definition delete_single := @Controller.delete_single Category.
Definition create (rt : runtime) :=
  Controller.create rt Category (_fill_model rt).
Definition create_or_update (rt : runtime) :=
  Controller.create_or_update rt Category (_fill_model rt) category_fields.
Definition update (rt : runtime) :=
  Controller.update rt Category (_fill_model rt) category_fields.

End CategoriesController.

(** [class UnitsController(Controller[Unit, Unit, Unit])] *)
Module UnitsController.

(** [UnitsController.create_or_update] (lines 130-151) *)
Definition create_or_update (rt : runtime) (data : fields) : M read_shape :=
  fun s =>
    let item : result (option Session.model) :=
      if truthy (getattr_or_none data "id") then
        Ok (option_map (fun i => Session.Model i [])
                       (Session.get Unit (getattr_or_none data "id") s))
      else
        rbind (attr_of data "name") (fun name =>
        match Session.first_by_name Unit name s with
        | Some same_name => Ok (Some (Session.Model same_name []))
        | None => Ok (Some (Session.new_model Unit))
        end) in
    (item <~ lift item ;;
     item <~ lift (setattrs item (exclude "id" data)) ;;
     _ <~ add_and_commit item ;;
     fun s' =>
       match item with
       | Some m =>
           match Session.first_by_name Unit
                   (Session.cell (Session.i_attrs (Session.m_inst m)) "name") s' with
           | Some found => Controller.dictionary_of rt Unit found s'
           | None =>
               raise (AttributeError "'NoneType' object has no attribute 'dictionary'") s'
           end
       | None => raise (UnmappedInstanceError "Class 'builtins.NoneType' is not mapped") s'
       end) s.

Definition get_single (rt : runtime) := Controller.get_single rt Unit.
Definition delete_single := @Controller.delete_single Unit.
Definition create (rt : runtime) :=
  Controller.create rt Unit Controller._fill_model.
Definition update (rt : runtime) :=
  Controller.update rt Unit Controller._fill_model (fun d => d).

End UnitsController.

(** [class RecipesController(Controller[CreateOrUpdateRecipe, Recipe,
    CreateOrUpdateRecipe])] *)
Module RecipesController.

(** The declarative constructor of [c] called with keywords: it sets
    every keyword and rejects a name the class does not declare. *)
Definition set_keyword (c : cls) (acc : result Session.instance)
    (kv : string * value) : result Session.instance :=
  rbind acc (fun i =>
  if existsb (String.eqb (fst kv)) (Session.declared c) then
    Ok (Session.Instance c None (<[fst kv := snd kv]> (Session.i_attrs i)))
  else Raise (TypeError (fst kv ++ " is an invalid keyword argument"))).

Definition construct (c : cls) (kwargs : fields) : result Session.instance :=
  fold_left (set_keyword c) kwargs (Ok (Session.Instance c None ∅)).

Definition set_attr (i : Session.instance) (attr : string) (v : value)
  : Session.instance :=
  Session.Instance (Session.i_cls i) (Session.i_key i) (<[attr := v]> (Session.i_attrs i)).

(** [RecipesController._get_ingredients_and_tags] (lines 157-180): a new
    ingredient-item per payload line, its unit and ingredient upserted
    (and committed) on the way, and per payload tag the stored tag of
    that id or a new tag. *)
Definition _get_ingredients_and_tags (rt : runtime) (data : CreateOrUpdateRecipe)
  : M (list (option Session.instance) * list (option Session.instance)) :=
  updated_ingredients <~
    for_each
      (fun ingredient_item =>
         updated_item <~ lift (construct IngredientItem (item_fields ingredient_item)) ;;
         u <~ UnitsController.create_or_update rt (item_unit ingredient_item) ;;
         let updated_item := set_attr updated_item "unit_id" (read_id rt (dict_get "id" u)) in
         i <~ IngredientsController.create_or_update rt (item_ingredient ingredient_item) ;;
         let updated_item :=
           set_attr updated_item "ingredient_id" (read_id rt (dict_get "id" i)) in
         ret (Some updated_item))
      (recipe_ingredients data) ;;
  updated_tags <~
    for_each
      (fun tag =>
         if truthy (getattr_or_none tag "id") then
           fun s => (Ok (Session.get Tag (getattr_or_none tag "id") s), s)
         else
           lift (rmap Some (construct Tag tag)))
      (recipe_tags data) ;;
  ret (updated_ingredients, updated_tags).

(** [RecipesController._fill_model] (lines 182-193).  The assignments
    are pending on the model and reach the database with the commit the
    caller issues after the routine; the commits of the nested upserts
    are taken to write units and ingredients only. *)
Definition _fill_model (rt : runtime) (model : option Session.model)
    (data : CreateOrUpdateRecipe) : M (option Session.model) :=
  match model with
  | None =>
      id <~ lift (rbind (attr_of (recipe_fields data) "id")
                        (Models.py_str (float_of_str rt) (float_str rt)
                                       (str_repr rt) (set_iter rt))) ;;
      raise (not_found id)
  | Some model =>
      let model :=
        fold_left (fun m kv => Session.setattr m (fst kv) (snd kv))
                  (exclude_none (recipe_fields data)) model in
      built <~ _get_ingredients_and_tags rt data ;;
      let model := Session.set_collection model "ingredients" (fst built) in
      let model := Session.set_collection model "tags" (snd built) in
      ret (Some model)
  end.

(** [RecipesController.create_or_update] (lines 213-214) *)
Definition create_or_update (data : CreateOrUpdateRecipe) : M read_shape :=
  raise (ValueError "Not allowed on this controller!").

Definition get_single (rt : runtime) := Controller.get_single rt Recipe.
Definition delete_single := @Controller.delete_single Recipe.
Definition create (rt : runtime) :=
  Controller.create rt Recipe (_fill_model rt).
Definition update (rt : runtime) :=
  Controller.update rt Recipe (_fill_model rt) recipe_fields.

End RecipesController.

(** ** The recipe queries (controllers.py, lines 195-211) *)

Module RecipeQueries.
Import Session.

(** [filter_by] accepts the columns of the class as keywords; the query
    builder rejects any other keyword before a row is read. *)
Definition valid_filters (c : cls) (filters : fields) : bool :=
  forallb (fun kv => existsb (String.eqb (fst kv)) ("id" :: map col_name (columns c)))
          filters.

Section Queries.

Variable rt : runtime.

(** [tag.recipes] for a stored tag.  controllers.py reads the attribute;
    models.py declares the back-reference of [Recipe.tags] under the
    name ["recipes, lazy=False"] and the module the controllers import
    is not among the sources, so what reading the attribute gives, a
    list of recipes or an exception, is left open. *)
Variable tag_recipes : row -> Store -> result (list row).

(** [WHERE col = value] is evaluated by the database, with its own
    coercions between numbers, booleans and strings and its own limits
    on what it binds as a parameter.  [sql_eq col v] is the test the
    database applies to the column [col] of a row for the keyword value
    [v], and [None] when it refuses to bind [v]; a keyword value is any
    Python object. *)
Variable sql_eq : string -> value -> option (value -> bool).

(** The row satisfies [WHERE col = value] for every keyword. *)
Definition row_matches (filters : fields) (r : row) : bool :=
  forallb (fun kv =>
             match sql_eq (fst kv) (snd kv) with
             | Some test => test (cell r (fst kv))
             | None => false
             end) filters.

(** Every keyword value is bound by the database. *)
Definition bound_filters (filters : fields) : bool :=
  forallb (fun kv => match sql_eq (fst kv) (snd kv) with
                     | Some _ => true
                     | None => false
                     end) filters.

(** [cat.tags]: the stored tags the category is linked to. *)
Definition category_tag_rows (category_id : Z) (s : Store) : list row :=
  omap (fun id => find (has_id id) (table Tag s)) (linked category_tags category_id s).

(** [RecipesController.get_by_category] (lines 195-204) *)
Definition get_by_category (category_id : value) : M (list read_shape) :=
  fun s =>
    match get Category category_id s with
    | Some cat =>
        (result <~ lift (rmap (@concat row)
                           (sequence (map (fun tag => tag_recipes tag s)
                                          (category_tag_rows
                                             (default 0 (i_key cat)) s)))) ;;
         for_each (fun r => Controller.dictionary_of rt Recipe
                              (Instance Recipe (row_id r) r))
                  result) s
    | None => ret [] s
    end.

(** [RecipesController.get_all_and_filter] (lines 206-211); [None] is the
    exception of the query builder for a keyword it does not accept, or
    of the database for a value it does not bind. *)
Definition get_all_and_filter (filters : fields) : option (M (list read_shape)) :=
  if valid_filters Recipe filters && bound_filters filters then
    Some (fun s =>
            for_each (fun r => Controller.dictionary_of rt Recipe
                                 (Instance Recipe (row_id r) r))
                     (List.filter (row_matches filters) (table Recipe s)) s)
  else None.

End Queries.
End RecipeQueries.

(** ** Sample data

    A runtime and a small database that the concrete instances of the
    properties below are evaluated on. *)

Module Sample.
Import Session.

(** [int(f)] on a float, truncating; what a schema field typed [int]
    keeps of the float the serializer produced. *)
Definition int_of_float (f : float) : value :=
  match Prim2SF f with
  | S754_zero _ => PInt 0
  | S754_finite sign m e =>
      let magnitude :=
        match e with
        | Z0 => Zpos m
        | Zpos p => Z.shiftl (Zpos m) (Zpos p)
        | Zneg p => Z.shiftr (Zpos m) (Zpos p)
        end in
      PInt (if sign then - magnitude else magnitude)
  | _ => PNone
  end.

(** No string parses as a float, floats print as a placeholder, strings
    are quoted without escapes and a set iterates in insertion order. *)
Definition rt : runtime :=
  Runtime (fun _ => None)
          (fun _ => "<float>")
          (fun s => "'" ++ s ++ "'")
          (fun l => l)
          (fun entry =>
             match entry with
             | Some (JFloat f) => int_of_float f
             | _ => PNone
             end).

Definition gram : row :=
  {[ "id" := PInt 1; "name" := PStr "g"; "grams" := PInt 1 ]}.

Definition vegan : row :=
  {[ "id" := PInt 1; "name" := PStr "vegan" ]}.

Definition tomato : row :=
  {[ "id" := PInt 1; "name" := PStr "tomato"; "approx_per_piece" := PInt 0;
     "energy" := PInt 0; "fats" := PInt 0; "carbs" := PInt 0;
     "proteins" := PInt 0; "fibres" := PInt 0; "salt" := PInt 0;
     "is_liquid" := PBool false; "density" := PInt 1000 ]}.

Definition basil : row :=
  {[ "id" := PInt 2; "name" := PStr "basil"; "approx_per_piece" := PInt 0;
     "energy" := PInt 0; "fats" := PInt 0; "carbs" := PInt 0;
     "proteins" := PInt 0; "fibres" := PInt 0; "salt" := PInt 0;
     "is_liquid" := PBool false; "density" := PInt 1000 ]}.

(** 400 g tomatoes *)
Definition tomatoes : row :=
  {[ "id" := PInt 1; "ingredient_id" := PInt 1; "amount" := PInt 400;
     "unit_id" := PInt 1; "note" := PNone; "exclude" := PBool false ]}.

Definition soup : row :=
  {[ "id" := PInt 1; "title" := PStr "Soup"; "subtitle" := PNone;
     "source_name" := PNone; "source" := PNone; "draft" := PBool false;
     "portions" := PInt 4; "body" := PNone ]}.

Definition starters : row :=
  {[ "id" := PInt 1; "name" := PStr "Starters" ]}.

(** The recipe "Soup" with one ingredient-item (400 g of tomato) and the
    tag "vegan"; the ingredient basil is used by no recipe. *)
Definition kitchen : Store :=
  mkStore [gram] [vegan] [tomato; basil] [tomatoes] [starters] [soup]
          [(1, 1)] [(1, 1)] [(1, 1)].

(** The category "Starters" and the ingredient tomato as the session
    loads them, and their serializations. *)
Definition starters_attrs : list (string * value) :=
  [("id", PInt 1); ("name", PStr "Starters");
   ("tags", PList [PObj Tag [("id", PInt 1); ("name", PStr "vegan")]])].

Definition starters_at_depth_0 : list (string * json) :=
  [("id", JFloat 1%float); ("name", JStr "Starters");
   ("tags", JList [JStr "<Tag (name=vegan)>"])].

Definition tomato_attrs : list (string * value) :=
  [("id", PInt 1); ("name", PStr "tomato"); ("approx_per_piece", PInt 0);
   ("energy", PInt 0); ("fats", PInt 0); ("carbs", PInt 0); ("proteins", PInt 0);
   ("fibres", PInt 0); ("salt", PInt 0); ("is_liquid", PBool false);
   ("density", PInt 1000)].

Definition tomato_serialized : list (string * json) :=
  [("id", JFloat 1%float); ("name", JStr "tomato"); ("energy", JFloat 0%float);
   ("fats", JFloat 0%float); ("carbs", JFloat 0%float); ("proteins", JFloat 0%float);
   ("fibres", JFloat 0%float); ("salt", JFloat 0%float); ("is_liquid", JFloat 0%float);
   ("density", JFloat 1000%float)].

(** Payloads. *)
Definition five_grams : fields :=
  [("id", PNone); ("name", PNone); ("grams", PInt 5)].


Definition stale_tag : fields := [("id", PInt 7); ("name", PStr "x")].

Definition stale_unit : fields :=
  [("id", PInt 7); ("name", PStr "g"); ("grams", PNone)].

Definition vegan_tag : fields := [("id", PInt 1); ("name", PStr "vegan")].

Definition quick_tag : fields := [("id", PNone); ("name", PStr "quick")].

(** A category update that names the tag 1 and a tag 9 that is not
    stored. *)
Definition mains : CreateOrUpdateCategory :=
  {| category_fields := [("id", PNone); ("name", PStr "Mains")];
     category_tag_list := [vegan_tag; [("id", PInt 9); ("name", PStr "x")]] |}.


(** A recipe payload with one line (2 g of basil) and two tags, one of
    them new. *)
Definition pesto : CreateOrUpdateRecipe :=
  {| recipe_fields := [("id", PNone); ("title", PStr "Pesto")];
     recipe_ingredients :=
       [ {| item_fields := [("amount", PInt 2); ("note", PNone)];
            item_ingredient := [("id", PInt 2); ("name", PStr "basil")];
            item_unit := [("id", PNone); ("name", PStr "g"); ("grams", PInt 1)] |} ];
     recipe_tags := [vegan_tag; quick_tag] |}.



End Sample.

(** ** More sample data *)

Module Pantry.
Import Session.

Definition litre : row :=
  {[ "id" := PInt 2; "name" := PStr "l"; "grams" := PInt 1000 ]}.

(** The kitchen with a second unit. *)
Definition pantry : Store :=
  mkStore [Sample.gram; litre] [Sample.vegan] [Sample.tomato; Sample.basil]
          [Sample.tomatoes] [Sample.starters] [Sample.soup]
          [(1, 1)] [(1, 1)] [(1, 1)].


Definition gram_shape : read_shape :=
  [("name", JStr "g"); ("grams", JFloat 1%float)].

(** The kitchen after the tag "quick" was created. *)
Definition quick : row := {[ "id" := PInt 2; "name" := PStr "quick" ]}.

Definition kitchen_with_quick : Store :=
  set_table Tag [Sample.vegan; quick] Sample.kitchen.

(** A category update that names the stored tag only. *)
Definition salads : CreateOrUpdateCategory :=
  {| category_fields := [("id", PNone); ("name", PStr "Salads")];
     category_tag_list := [Sample.vegan_tag] |}.

Definition salads_shape : read_shape :=
  Eval vm_compute in
    match fst (CategoriesController.update Sample.rt 1 salads Sample.kitchen) with
    | Ok shape => shape
    | Raise _ => []
    end.

Definition kitchen_after_salads : Store :=
  Eval vm_compute in snd (CategoriesController.update Sample.rt 1 salads Sample.kitchen).

(** What the recipe merge routine builds from the pesto payload. *)
Definition pesto_items : list (option instance) :=
  Eval vm_compute in
    match fst (RecipesController._get_ingredients_and_tags Sample.rt Sample.pesto
                 Sample.kitchen) with
    | Ok built => fst built
    | Raise _ => []
    end.

Definition pesto_tags : list (option instance) :=
  Eval vm_compute in
    match fst (RecipesController._get_ingredients_and_tags Sample.rt Sample.pesto
                 Sample.kitchen) with
    | Ok built => snd built
    | Raise _ => []
    end.

(** The listing of the recipes of the kitchen. *)
Definition recipe_shapes : list read_shape :=
  Eval vm_compute in
    match fst (Controller.get_all Sample.rt Recipe Sample.kitchen) with
    | Ok shapes => shapes
    | Raise _ => []
    end.

(** A [tag.recipes] that does not resolve. *)
Definition no_recipes (tag : row) (s : Store) : result (list row) :=
  Raise (AttributeError "'Tag' object has no attribute 'recipes'").

(** A database that binds every scalar and compares a stored value with
    a keyword of its own type. *)
Definition sql_eq (col : string) (v : value) : option (value -> bool) :=
  match v with
  | PList _ | PObj _ _ => None
  | _ => Some (fun stored => value_eqb stored v)
  end.

(** The recipes titled "Soup". *)
Definition soup_query : M (list read_shape) :=
  fun s =>
    for_each (fun r => Controller.dictionary_of Sample.rt Recipe
                         (Instance Recipe (row_id r) r))
             (List.filter (RecipeQueries.row_matches sql_eq [("title", PStr "Soup")])
                          (table Recipe s)) s.

End Pantry.

(** ** Vocabulary of the properties *)

(** [t] occurs in [msg]. *)
Definition contains (t msg : string) : Prop :=
  exists before after, msg = before ++ t ++ after.

(** The recipe titled [title] holds an ingredient-item that references
    the ingredient [ingredient]. *)
Definition attached (s : Session.Store) (ingredient : Z) (title : value) : Prop :=
  exists item k rid recipe,
    In item (Session.ingredient_item_tbl s)
    /\ Session.cell item "ingredient_id" = PInt ingredient
    /\ Session.row_id item = Some k
    /\ In (rid, k) (Session.ingredients_tbl s)
    /\ find (Session.has_id rid) (Session.recipe_tbl s) = Some recipe
    /\ Session.cell recipe "title" = title.

(** The name of a unit row, when it is a string. *)
Definition name_of (r : Session.row) : option string :=
  match Session.cell r "name" with
  | PStr n => Some n
  | _ => None
  end.

(** The unit table satisfies what models.py declares for it: every row
    has a primary key and a name, no two rows share a primary key and no
    two rows share a name. *)
Definition units_ok (s : Session.Store) : Prop :=
  Forall (fun r => is_Some (Session.row_id r) /\ is_Some (name_of r)) (Session.unit_tbl s)
  /\ NoDup (map Session.row_id (Session.unit_tbl s))
  /\ NoDup (map name_of (Session.unit_tbl s)).



(** The row an INSERT of the attributes [attrs] stores under [id]. *)
Definition inserted_row (c : cls) (id : Z) (attrs : gmap string value) : Session.row :=
  <["id" := PInt id]> (Session.insert_values c attrs).





(** How the member [m] of a flushed collection of class [c] is stored
    under [id] in [s']: a member that had a row keeps its primary key; a
    new member was inserted under a primary key no row of [s] had. *)
Definition member_stored (c : cls) (s s' : Session.Store)
    (m : option Session.instance) (id : Z) : Prop :=
  match m with
  | None => False
  | Some i =>
      match Session.i_key i with
      | Some k => id = k
      | None =>
          (forall x, In x (Session.table c s) -> Session.has_id id x = false)
          /\ find (Session.has_id id) (Session.table c s')
             = Some (inserted_row c id (Session.i_attrs i))
      end
  end.

(** ** Measures of values and of serialized structures *)

(** How deep the containers of a value nest: 0 for a scalar, one more
    than its deepest member for a list and for an entity. *)
Fixpoint value_height (v : value) : nat :=
  match v with
  | PList l => S (fold_right Nat.max 0%nat (map value_height l))
  | PObj _ attrs =>
      S (fold_right Nat.max 0%nat (map (fun kv => value_height (snd kv)) attrs))
  | _ => 0%nat
  end.

Fixpoint json_height (j : json) : nat :=
  match j with
  | JList l => S (fold_right Nat.max 0%nat (map json_height l))
  | JDict d =>
      S (fold_right Nat.max 0%nat (map (fun kv => json_height (snd kv)) d))
  | _ => 0%nat
  end.

(** The public fields of an instance that [get_dictionary] serializes:
    those of [__items__] that are not excluded and resolve. *)
Definition public_fields (c : cls) (attrs : list (string * value))
    (exclude : list string) : list string :=
  List.filter
    (fun k => negb (existsb (String.eqb k) exclude)
              && is_Ok (Models.getattribute attrs k))
    (Models.__items__ c).

(** Every cell of the row is a scalar, as the column types make it. *)
Definition scalar_row (r : Session.row) : bool :=
  forallb (fun kv => Nat.eqb (value_height (snd kv)) 0) (map_to_list r).

Definition scalar_store (s : Session.Store) : bool :=
  forallb (fun c => forallb scalar_row (Session.table c s))
          [Unit; Tag; Ingredient; IngredientItem; Category; Recipe].

(** Every integer inside the value converts to a float. *)
Fixpoint floatable (v : value) : bool :=
  match v with
  | PInt z => match Models.float_of_int z with Some _ => true | None => false end
  | PList l => forallb floatable l
  | PObj _ attrs => forallb (fun kv => floatable (snd kv)) attrs
  | _ => true
  end.

Definition floatable_row (r : Session.row) : bool :=
  forallb (fun kv => floatable (snd kv)) (map_to_list r).

Definition floatable_store (s : Session.Store) : bool :=
  forallb (fun c => forallb floatable_row (Session.table c s))
          [Unit; Tag; Ingredient; IngredientItem; Category; Recipe].

(** * Properties *)

(** ** Fallible computations *)

Lemma rbind_Ok {A B} (r : result A) (k : A -> result B) (b : B) :
  rbind r k = Ok b -> exists a, r = Ok a /\ k a = Ok b.
Proof. destruct r as [a|e]; simpl; [eauto | discriminate]. Qed.

Lemma rmap_Ok {A B} (f : A -> B) (r : result A) (b : B) :
  rmap f r = Ok b -> exists a, r = Ok a /\ b = f a.
Proof.
  unfold rmap. intros H. apply rbind_Ok in H as (a & -> & H).
  injection H as <-. eauto.
Qed.

Lemma sequence_map_Ok {A B} (f : A -> B) (l : list (result A)) (bs : list B) :
  sequence (map (rmap f) l) = Ok bs ->
  exists xs, sequence l = Ok xs /\ bs = map f xs.
Proof.
  revert bs. induction l as [|r t IH]; simpl; intros bs H.
  - injection H as <-. exists []. auto.
  - apply rbind_Ok in H as (b & Hb & H).
    apply rmap_Ok in Hb as (a & -> & ->).
    apply rmap_Ok in H as (bs' & H & ->).
    destruct (IH _ H) as (xs & -> & ->).
    exists (a :: xs). simpl. auto.
Qed.

(** ** Serialization (models.py) *)

Module SerializationSpec.
Import Models.

Lemma with_attr_getattribute {B} (f : value -> B) (d : B) (name : string)
    (attrs : list (string * value)) :
  with_attr f d name attrs =
  match getattribute attrs name with
  | Ok v => f v
  | Raise _ => d
  end.
Proof.
  unfold getattribute.
  induction attrs as [|[k v] rest IH]; simpl; [reflexivity|].
  destruct (String.eqb k name); auto.
Qed.

(** The entry of an attribute that resolves and is not excluded. *)
Lemma _get_attributes_entry {B} (f : value -> B) (c : cls)
    (attrs : list (string * value)) (exclude : list string) (k : string) (v : value) :
  In k (__items__ c) ->
  existsb (String.eqb k) exclude = false ->
  getattribute attrs k = Ok v ->
  find (fun kv => String.eqb (fst kv) k) (_get_attributes f c attrs exclude)
  = Some (k, f v).
Proof.
  unfold _get_attributes. generalize (__items__ c) as items.
  induction items as [|a t IH]; simpl; intros Hin Hex Hget; [contradiction|].
  destruct (String.eqb a k) eqn:Hak.
  - apply String.eqb_eq in Hak. subst a.
    rewrite Hex, with_attr_getattribute, Hget. simpl.
    now rewrite String.eqb_refl.
  - assert (Hin' : In k t).
    { destruct Hin as [->|]; [|assumption]. now rewrite String.eqb_refl in Hak. }
    destruct (existsb (String.eqb a) exclude); simpl; [now apply IH|].
    rewrite with_attr_getattribute.
    destruct (getattribute attrs a); simpl; [rewrite Hak|]; now apply IH.
Qed.

(** A dict comprehension that completes holds, under each key, the value
    its first entry for that key computed. *)
Lemma sequence_items_entry {A} (l : list (string * result A))
    (d : list (string * A)) (k : string) (r : result A) :
  sequence_items l = Ok d ->
  find (fun kv => String.eqb (fst kv) k) l = Some (k, r) ->
  exists a, r = Ok a /\ find (fun kv => String.eqb (fst kv) k) d = Some (k, a).
Proof.
  unfold sequence_items. revert d.
  induction l as [|[k' r'] t IH]; simpl; intros d Hseq Hfind; [discriminate|].
  apply rbind_Ok in Hseq as ([k'' a'] & Hhead & Hseq).
  apply rmap_Ok in Hhead as (a & -> & Heq). injection Heq as -> ->.
  apply rmap_Ok in Hseq as (d' & Hseq & ->). simpl.
  destruct (String.eqb k' k) eqn:Hk.
  - injection Hfind as -> <-. eauto.
  - now apply IH.
Qed.

Section Fields.

Variable float_of_str : string -> option float.
Variable float_str : float -> string.
Variable str_repr : string -> string.
Variable set_iter : list string -> list string.

Local Abbreviation _dictify := (_dictify float_of_str float_str str_repr set_iter).
Local Abbreviation py_str := (py_str float_of_str float_str str_repr set_iter).
Local Abbreviation get_dictionary :=
  (get_dictionary float_of_str float_str str_repr set_iter).

(** Every public field of a serialized entity holds [_dictify] of the
    attribute, at the depth [get_dictionary] was given. *)
Lemma get_dictionary_field (c : cls) (attrs : list (string * value))
    (depth : Z) (exclude : list string) (d : list (string * json))
    (k : string) (v : value) :
  get_dictionary (PObj c attrs) depth exclude = Ok d ->
  In k (__items__ c) ->
  existsb (String.eqb k) exclude = false ->
  getattribute attrs k = Ok v ->
  exists j, _dictify v depth = Ok j /\ dict_get k d = Some j.
Proof.
  simpl. unfold get_dictionary_with. intros Hd Hin Hex Hget.
  pose proof (_get_attributes_entry (fun v => _dictify v depth)
                c attrs exclude k v Hin Hex Hget) as Hfind.
  destruct (sequence_items_entry _ _ _ _ Hd Hfind) as (j & Hj & Hfind').
  exists j. split; [assumption|].
  unfold dict_get. now rewrite Hfind'.
Qed.

(** C3: a collection field of a serialized entity.  With a remaining
    depth above 1 every element is serialized recursively one level
    deeper; otherwise every element is rendered as its display string and
    the field is a list of strings. *)
Theorem collection_field_by_depth (c : cls) (attrs : list (string * value))
    (depth : Z) (exclude : list string) (d : list (string * json))
    (k : string) (l : list value) :
  get_dictionary (PObj c attrs) depth exclude = Ok d ->
  In k (__items__ c) ->
  existsb (String.eqb k) exclude = false ->
  getattribute attrs k = Ok (PList l) ->
  exists js,
    dict_get k d = Some (JList js) /\
    if (1 <? depth)%Z then
      sequence (map (fun o => _dictify o (depth - 1)) l) = Ok js
    else
      exists strs, sequence (map py_str l) = Ok strs /\ js = map JStr strs.
Proof.
  intros Hd Hin Hex Hget.
  destruct (get_dictionary_field _ _ _ _ _ _ _ Hd Hin Hex Hget) as (j & Hj & Hk).
  simpl in Hj. destruct (1 <? depth)%Z.
  - apply rmap_Ok in Hj as (js & Hjs & ->). eauto.
  - apply rmap_Ok in Hj as (js & Hjs & ->).
    exists js. split; [assumption|].
    rewrite <- (map_map py_str (rmap JStr)) in Hjs.
    now apply sequence_map_Ok in Hjs.
Qed.

(** C10: a boolean field of a serialized entity is the float 1.0 or 0.0,
    whatever the depth. *)
Theorem boolean_field_is_float (c : cls) (attrs : list (string * value))
    (depth : Z) (exclude : list string) (d : list (string * json))
    (k : string) (b : bool) :
  get_dictionary (PObj c attrs) depth exclude = Ok d ->
  In k (__items__ c) ->
  existsb (String.eqb k) exclude = false ->
  getattribute attrs k = Ok (PBool b) ->
  dict_get k d = Some (JFloat (if b then 1%float else 0%float)).
Proof.
  intros Hd Hin Hex Hget.
  destruct (get_dictionary_field _ _ _ _ _ _ _ Hd Hin Hex Hget) as (j & Hj & Hk).
  simpl in Hj. injection Hj as <-. exact Hk.
Qed.

End Fields.
End SerializationSpec.
(** ** Serialization: keys, exclusion and depth (models.py) *)

Module SerializationDepth.
Import Models.

(** Induction on a value together with the members of its containers. *)
Lemma value_nested_ind (P : value -> Prop) :
  P PNone ->
  (forall b, P (PBool b)) ->
  (forall z, P (PInt z)) ->
  (forall f, P (PFloat f)) ->
  (forall s, P (PStr s)) ->
  (forall l, Forall P l -> P (PList l)) ->
  (forall c attrs, Forall (fun kv => P (snd kv)) attrs -> P (PObj c attrs)) ->
  forall v, P v.
Proof.
  intros HN HB HI HF HS HL HO.
  fix IH 1. intros [| b | z | f | s | l | c attrs].
  - exact HN.
  - apply HB.
  - apply HI.
  - apply HF.
  - apply HS.
  - apply HL. induction l as [|x t IHt]; constructor; [apply IH | exact IHt].
  - apply HO. induction attrs as [|[k x] t IHt]; constructor; [apply IH | exact IHt].
Qed.

Lemma max_member (l : list nat) (n : nat) :
  In n l -> (n <= fold_right Nat.max 0%nat l)%nat.
Proof.
  induction l as [|x t IH]; simpl; [contradiction|].
  intros [->|H]; [lia|]. specialize (IH H). lia.
Qed.

Lemma max_bound (l : list nat) (b : nat) :
  Forall (fun n => (n <= b)%nat) l -> (fold_right Nat.max 0%nat l <= b)%nat.
Proof. induction 1; simpl; lia. Qed.

(** A dict comprehension keeps the keys of its entries, in order. *)
Lemma sequence_items_keys {A} (l : list (string * result A))
    (d : list (string * A)) :
  sequence_items l = Ok d -> map fst d = map fst l.
Proof.
  unfold sequence_items. revert d.
  induction l as [|[k r] t IH]; simpl; intros d H.
  - now injection H as <-.
  - apply rbind_Ok in H as ([k' a'] & Hhead & H).
    apply rmap_Ok in Hhead as (a & -> & Heq). injection Heq as -> ->.
    apply rmap_Ok in H as (d' & H & ->). simpl. f_equal. now apply IH.
Qed.

(** Every value of a completed dict comprehension is the outcome of the
    entry at its place. *)
Lemma sequence_items_values {A} (l : list (string * result A))
    (d : list (string * A)) :
  sequence_items l = Ok d ->
  Forall2 (fun e kv => fst e = fst kv /\ snd e = Ok (snd kv)) l d.
Proof.
  unfold sequence_items. revert d.
  induction l as [|[k r] t IH]; simpl; intros d H.
  - injection H as <-. constructor.
  - apply rbind_Ok in H as ([k' a'] & Hhead & H).
    apply rmap_Ok in Hhead as (a & -> & Heq). injection Heq as -> ->.
    apply rmap_Ok in H as (d' & H & ->). constructor; [auto | now apply IH].
Qed.

Lemma sequence_values {A} (l : list (result A)) (xs : list A) :
  sequence l = Ok xs -> Forall2 (fun r x => r = Ok x) l xs.
Proof.
  revert xs. induction l as [|r t IH]; simpl; intros xs H.
  - injection H as <-. constructor.
  - apply rbind_Ok in H as (a & -> & H).
    apply rmap_Ok in H as (xs' & H & ->). constructor; [reflexivity | now apply IH].
Qed.

Lemma _get_attributes_keys {B} (f : value -> B) (c : cls)
    (attrs : list (string * value)) (exclude : list string) :
  map fst (_get_attributes f c attrs exclude) = public_fields c attrs exclude.
Proof.
  unfold _get_attributes, public_fields. generalize (__items__ c) as items.
  induction items as [|a t IH]; simpl; [reflexivity|].
  rewrite map_app, IH, SerializationSpec.with_attr_getattribute.
  destruct (existsb (String.eqb a) exclude); simpl; [reflexivity|].
  destruct (getattribute attrs a); reflexivity.
Qed.

(** Every entry [_get_attributes] collects holds [f] of an attribute of
    the instance. *)
Lemma _get_attributes_values {B} (f : value -> B) (c : cls)
    (attrs : list (string * value)) (exclude : list string) :
  Forall (fun e => exists k v, In (k, v) attrs /\ snd e = f v)
         (_get_attributes f c attrs exclude).
Proof.
  unfold _get_attributes. generalize (__items__ c) as items.
  induction items as [|a t IH]; simpl; [constructor|].
  apply List.Forall_app. split; [|exact IH].
  destruct (existsb (String.eqb a) exclude); [constructor|].
  clear IH. induction attrs as [|[k v] rest IHr]; simpl; [constructor|].
  destruct (String.eqb k a).
  - constructor; [|constructor]. exists k, v. simpl. auto.
  - eapply List.Forall_impl; [|exact IHr].
    intros e (k' & v' & Hin & He). exists k', v'. simpl. auto.
Qed.

(** [_get_attributes] depends on [f] through the attributes of the
    instance only. *)
Lemma _get_attributes_ext {B} (f g : value -> B) (c : cls)
    (attrs : list (string * value)) (exclude : list string) :
  (forall k v, In (k, v) attrs -> f v = g v) ->
  _get_attributes f c attrs exclude = _get_attributes g c attrs exclude.
Proof.
  intros Hfg. unfold _get_attributes. apply List.flat_map_ext. intros a.
  destruct (existsb (String.eqb a) exclude); [reflexivity|].
  induction attrs as [|[k v] rest IH]; simpl; [reflexivity|].
  destruct (String.eqb k a).
  - f_equal. f_equal. apply (Hfg k). simpl. auto.
  - apply IH. intros k' v' H. apply (Hfg k'). simpl. auto.
Qed.

(** Excluding attributes drops their entries and changes nothing else. *)
Lemma _get_attributes_exclude {B} (f : value -> B) (c : cls)
    (attrs : list (string * value)) (exclude : list string) :
  _get_attributes f c attrs exclude =
  List.filter (fun e => negb (existsb (String.eqb (fst e)) exclude))
              (_get_attributes f c attrs []).
Proof.
  unfold _get_attributes. generalize (__items__ c) as items.
  induction items as [|a t IH]; simpl; [reflexivity|].
  simpl in IH. rewrite List.filter_app, <- IH. f_equal.
  rewrite !SerializationSpec.with_attr_getattribute.
  destruct (getattribute attrs a); simpl.
  - destruct (existsb (String.eqb a) exclude); reflexivity.
  - destruct (existsb (String.eqb a) exclude); reflexivity.
Qed.

Lemma find_all_false_key {A} (p : A -> bool) (l : list A) :
  (forall x, In x l -> p x = false) -> find p l = None.
Proof.
  induction l as [|x l IH]; simpl; intros H; [reflexivity|].
  rewrite (H x) by auto. apply IH. auto.
Qed.

Lemma sequence_items_filter {A} (p : string -> bool)
    (l : list (string * result A)) (d : list (string * A)) :
  sequence_items l = Ok d ->
  sequence_items (List.filter (fun e => p (fst e)) l)
  = Ok (List.filter (fun e => p (fst e)) d).
Proof.
  unfold sequence_items. revert d.
  induction l as [|[k r] t IH]; simpl; intros d H.
  - now injection H as <-.
  - apply rbind_Ok in H as ([k' a'] & Hhead & H).
    apply rmap_Ok in Hhead as (a & -> & Heq). injection Heq as -> ->.
    apply rmap_Ok in H as (d' & H & ->). simpl.
    destruct (p k); simpl; [|now apply IH].
    now rewrite (IH _ H).
Qed.

Section Depth.

Variable float_of_str : string -> option float.
Variable float_str : float -> string.
Variable str_repr : string -> string.
Variable set_iter : list string -> list string.

Local Abbreviation _dictify := (_dictify float_of_str float_str str_repr set_iter).
Local Abbreviation get_dictionary :=
  (get_dictionary float_of_str float_str str_repr set_iter).
Local Abbreviation dictionary :=
  (dictionary float_of_str float_str str_repr set_iter).

Lemma get_dictionary_with_keys (dictify : value -> Z -> result json) (c : cls)
    (attrs : list (string * value)) (depth : Z) (exclude : list string)
    (d : list (string * json)) :
  get_dictionary_with dictify c attrs depth exclude = Ok d ->
  map fst d = public_fields c attrs exclude.
Proof.
  unfold get_dictionary_with. intros H.
  apply sequence_items_keys in H. now rewrite H, _get_attributes_keys.
Qed.

(** An attribute that is not among the public fields has no entry. *)
Lemma dict_get_hidden (c : cls) (attrs : list (string * value))
    (exclude : list string) (d : list (string * json)) (k : string) :
  map fst d = public_fields c attrs exclude ->
  ~ In k (__items__ c) ->
  dict_get k d = None.
Proof.
  intros Hkeys Hk. unfold dict_get.
  rewrite find_all_false_key; [reflexivity|].
  intros kv Hkv. apply not_true_is_false. intros Heq.
  apply String.eqb_eq in Heq. apply Hk.
  assert (Hin : In k (map fst d)) by (rewrite <- Heq; now apply in_map).
  rewrite Hkeys in Hin. unfold public_fields in Hin.
  now apply List.filter_In in Hin as [Hin _].
Qed.

(** X1: the keys of a serialized entity are its public fields, in the
    order of [__items__]: the names that are not excluded and resolve on
    the instance.  No other attribute of the instance is ever serialized. *)
Theorem get_dictionary_keys (c : cls) (attrs : list (string * value))
    (depth : Z) (exclude : list string) (d : list (string * json)) :
  get_dictionary (PObj c attrs) depth exclude = Ok d ->
  map fst d = public_fields c attrs exclude.
Proof. apply get_dictionary_with_keys. Qed.

(** X2: when the whole entity serializes, serializing it with an
    exclusion list gives the same dictionary without the excluded keys. *)
Theorem get_dictionary_exclude (obj : value) (depth : Z)
    (exclude : list string) (d : list (string * json)) :
  get_dictionary obj depth [] = Ok d ->
  get_dictionary obj depth exclude
  = Ok (List.filter (fun e => negb (existsb (String.eqb (fst e)) exclude)) d).
Proof.
  destruct obj as [| | | | | |c attrs]; try discriminate.
  simpl. unfold get_dictionary_with. intros H.
  rewrite _get_attributes_exclude.
  now apply (sequence_items_filter (fun k => negb (existsb (String.eqb k) exclude))).
Qed.

(** X3: the depth bounds the nesting of the result: whatever the graph,
    [_dictify] at depth [depth] returns a structure whose containers nest
    at most [depth + 1] deep (the extra level is a list of display
    strings). *)
Theorem _dictify_height (obj : value) (depth : Z) (j : json) :
  _dictify obj depth = Ok j ->
  (json_height j <= Z.to_nat depth + 1)%nat.
Proof.
  revert depth j.
  induction obj as [| b | z | f | s | l IH | c attrs IH] using value_nested_ind;
    intros depth j H; simpl in H.
  - injection H as <-. simpl. lia.
  - injection H as <-. simpl. lia.
  - destruct (float_of_int z); [|discriminate]. injection H as <-. simpl. lia.
  - injection H as <-. simpl. lia.
  - destruct (float_of_str s); injection H as <-; simpl; lia.
  - destruct (1 <? depth)%Z eqn:Hd.
    + apply Z.ltb_lt in Hd.
      apply rmap_Ok in H as (js & Hjs & ->).
      apply sequence_values in Hjs. simpl.
      enough (fold_right Nat.max 0%nat (map json_height js) <= Z.to_nat (depth - 1) + 1)%nat
        by lia.
      apply max_bound. apply List.Forall_map.
      remember (map (fun o => _dictify o (depth - 1)) l) as rs eqn:Hrs.
      revert l IH Hrs. induction Hjs as [|r x rs xs Hr Hrest IHrest];
        intros l IH Hrs; [constructor|].
      destruct l as [|o l']; [discriminate|]. injection Hrs as -> ->.
      inversion IH as [|? ? Ho Hl']; subst.
      constructor; [now apply Ho | now apply (IHrest l')].
    + apply rmap_Ok in H as (js & Hjs & ->).
      rewrite <- (map_map (py_show float_of_str float_str str_repr set_iter false)
                          (rmap JStr)) in Hjs.
      apply sequence_map_Ok in Hjs as (strs & _ & ->). simpl.
      enough (fold_right Nat.max 0%nat (map json_height (map JStr strs)) <= 0)%nat by lia.
      apply max_bound. apply List.Forall_map. apply List.Forall_map.
      apply List.Forall_forall. intros x _. simpl. lia.
  - destruct (0 <? depth)%Z eqn:Hd.
    + apply Z.ltb_lt in Hd.
      apply rmap_Ok in H as (d & Hdict & ->). unfold get_dictionary_with in Hdict.
      apply sequence_items_values in Hdict. simpl.
      enough (fold_right Nat.max 0%nat (map (fun kv => json_height (snd kv)) d)
              <= Z.to_nat (depth - 1) + 1)%nat by lia.
      apply max_bound. apply List.Forall_map.
      pose proof (_get_attributes_values (fun v => _dictify v (depth - 1)) c attrs [])
        as Hvals.
      induction Hdict as [|e kv es d' [_ He] Hrest IHrest]; [constructor|].
      inversion Hvals as [|? ? (k & v & Hin & Hv) Hvals']; subst.
      constructor; [|now apply IHrest].
      rewrite List.Forall_forall in IH. rewrite Hv in He.
      exact (IH (k, v) Hin (depth - 1) (snd kv) He).
    + apply rmap_Ok in H as (str & _ & ->). simpl. lia.
Qed.

(** Any two depths above the height of a graph serialize it alike. *)
Lemma _dictify_depth_stable (obj : value) (depth depth' : Z) :
  Z.of_nat (value_height obj) < depth ->
  Z.of_nat (value_height obj) < depth' ->
  _dictify obj depth = _dictify obj depth'.
Proof.
  revert depth depth'.
  induction obj as [| b | z | f | s | l IH | c attrs IH] using value_nested_ind;
    intros depth depth' H H'; try reflexivity.
  - change (value_height (PList l))
      with (S (fold_right Nat.max 0%nat (map value_height l))) in H, H'.
    simpl.
    replace (1 <? depth)%Z with true by (symmetry; apply Z.ltb_lt; lia).
    replace (1 <? depth')%Z with true by (symmetry; apply Z.ltb_lt; lia).
    f_equal. f_equal. apply List.map_ext_in. intros o Ho.
    rewrite List.Forall_forall in IH.
    pose proof (max_member (map value_height l) (value_height o) (in_map _ _ _ Ho)).
    apply (IH o Ho (depth - 1) (depth' - 1)); lia.
  - change (value_height (PObj c attrs))
      with (S (fold_right Nat.max 0%nat
                 (map (fun kv => value_height (snd kv)) attrs))) in H, H'.
    simpl.
    replace (0 <? depth)%Z with true by (symmetry; apply Z.ltb_lt; lia).
    replace (0 <? depth')%Z with true by (symmetry; apply Z.ltb_lt; lia).
    f_equal. unfold get_dictionary_with. f_equal.
    apply _get_attributes_ext. intros k v Hin.
    rewrite List.Forall_forall in IH.
    pose proof (max_member (map (fun kv => value_height (snd kv)) attrs)
                  (value_height v)) as Hm.
    assert (In (value_height v) (map (fun kv => value_height (snd kv)) attrs)) as Hv.
    { apply List.in_map_iff. exists (k, v). auto. }
    specialize (Hm Hv).
    apply (IH (k, v) Hin (depth - 1) (depth' - 1)); simpl; lia.
Qed.

Lemma get_dictionary_depth_stable (obj : value) (depth depth' : Z)
    (exclude : list string) :
  Z.of_nat (value_height obj) <= depth ->
  Z.of_nat (value_height obj) <= depth' ->
  get_dictionary obj depth exclude = get_dictionary obj depth' exclude.
Proof.
  destruct obj as [| | | | | |c attrs]; try reflexivity.
  intros H99 Hd.
  change (value_height (PObj c attrs))
    with (S (fold_right Nat.max 0%nat
               (map (fun kv => value_height (snd kv)) attrs))) in H99, Hd.
  simpl. unfold get_dictionary_with. f_equal.
  apply _get_attributes_ext. intros k v Hin.
  pose proof (max_member (map (fun kv => value_height (snd kv)) attrs)
                (value_height v)) as Hm.
  assert (In (value_height v) (map (fun kv => value_height (snd kv)) attrs)) as Hv.
  { apply List.in_map_iff. exists (k, v). auto. }
  specialize (Hm Hv).
  apply _dictify_depth_stable; lia.
Qed.

(** X4: the depth only matters where it runs out.  Serializing a graph
    at any two depths that reach its bottom gives the same outcome; the
    [dictionary] property, with its depth of 99, truncates no graph
    that is at most 99 containers deep. *)
Theorem dictionary_is_complete (obj : value) (depth : Z) (exclude : list string) :
  (value_height obj <= 99)%nat ->
  Z.of_nat (value_height obj) <= depth ->
  get_dictionary obj depth exclude = get_dictionary obj 99 exclude
  /\ get_dictionary obj depth [] = dictionary obj.
Proof.
  intros H99 Hd. split; apply get_dictionary_depth_stable; lia.
Qed.

(** *** The graphs the session loads *)

Lemma height_obj_bound (c : cls) (attrs : list (string * value)) (b : nat) :
  Forall (fun kv => (value_height (snd kv) <= b)%nat) attrs ->
  (value_height (PObj c attrs) <= S b)%nat.
Proof.
  intros H.
  change (value_height (PObj c attrs))
    with (S (fold_right Nat.max 0%nat (map (fun kv => value_height (snd kv)) attrs))).
  apply le_n_S. apply max_bound. now apply List.Forall_map.
Qed.

Lemma height_list_bound (l : list value) (b : nat) :
  Forall (fun v => (value_height v <= b)%nat) l ->
  (value_height (PList l) <= S b)%nat.
Proof.
  intros H.
  change (value_height (PList l))
    with (S (fold_right Nat.max 0%nat (map value_height l))).
  apply le_n_S. apply max_bound. now apply List.Forall_map.
Qed.

Lemma scalar_cell (r : Session.row) (k : string) :
  scalar_row r = true -> value_height (Session.cell r k) = 0%nat.
Proof.
  unfold scalar_row, Session.cell. rewrite forallb_forall. intros H.
  destruct (r !! k) as [v|] eqn:Hk; [|reflexivity]. simpl.
  apply Nat.eqb_eq. apply (H (k, v)).
  apply list_elem_of_In. now apply elem_of_map_to_list.
Qed.

Lemma scalar_table (s : Session.Store) (c : cls) (r : Session.row) :
  scalar_store s = true -> In r (Session.table c s) -> scalar_row r = true.
Proof.
  unfold scalar_store. rewrite forallb_forall. intros H Hin.
  assert (Hc : In c [Unit; Tag; Ingredient; IngredientItem; Category; Recipe])
    by (destruct c; simpl; auto 7).
  specialize (H c Hc). rewrite forallb_forall in H. now apply H.
Qed.

Lemma column_attrs_scalar (c : cls) (r : Session.row) :
  scalar_row r = true ->
  Forall (fun kv => (value_height (snd kv) <= 0)%nat) (Session.column_attrs c r).
Proof.
  intros H. unfold Session.column_attrs. constructor.
  - simpl. now rewrite scalar_cell.
  - apply List.Forall_map. apply List.Forall_forall. intros col _. simpl.
    now rewrite scalar_cell.
Qed.

Lemma load_flat_height (c : cls) (r : Session.row) :
  scalar_row r = true -> (value_height (Session.load_flat c r) <= 1)%nat.
Proof.
  intros H. apply height_obj_bound. now apply column_attrs_scalar.
Qed.

Lemma load_ref_height (c : cls) (ident : value) (s : Session.Store) :
  scalar_store s = true -> (value_height (Session.load_ref c ident s) <= 1)%nat.
Proof.
  intros H. unfold Session.load_ref, Session.get.
  destruct ident; simpl; try lia.
  destruct (find (Session.has_id z) (Session.table c s)) as [r|] eqn:Hf; simpl; [|lia].
  apply load_flat_height. apply find_some in Hf as [Hin _].
  now apply (scalar_table s c).
Qed.

Lemma load_item_height (s : Session.Store) (r : Session.row) :
  scalar_store s = true -> scalar_row r = true ->
  (value_height (Session.load_item s r) <= 2)%nat.
Proof.
  intros Hs Hr. apply height_obj_bound. apply List.Forall_app. split.
  - eapply List.Forall_impl; [|now apply column_attrs_scalar].
    intros kv Hkv. simpl in Hkv. lia.
  - constructor; [now apply load_ref_height|].
    constructor; [now apply load_ref_height | constructor].
Qed.

Lemma load_members_height (c : cls) (f : Session.row -> value) (ids : list Z)
    (s : Session.Store) (b : nat) :
  (forall r, In r (Session.table c s) -> (value_height (f r) <= b)%nat) ->
  (value_height (Session.load_members c f ids s) <= S b)%nat.
Proof.
  intros H. apply height_list_bound. apply List.Forall_forall. intros v Hv.
  apply list_elem_of_In in Hv. apply list_elem_of_omap in Hv as (id & _ & Hv).
  destruct (find (Session.has_id id) (Session.table c s)) as [r|] eqn:Hf;
    [|discriminate].
  injection Hv as <-. apply H. now apply find_some in Hf as [Hin _].
Qed.

(** Whatever the tables hold, the graph loaded from a row is at most
    four containers deep: a recipe, its ingredient list, an item and the
    ingredient or unit of the item. *)
Lemma load_height (c : cls) (r : Session.row) (s : Session.Store) :
  scalar_store s = true -> scalar_row r = true ->
  (value_height (Session.load c r s) <= 4)%nat.
Proof.
  intros Hs Hr.
  assert (Hcols : forall c', Forall (fun kv => (value_height (snd kv) <= 3)%nat)
                                    (Session.column_attrs c' r)).
  { intros c'. eapply List.Forall_impl; [|now apply column_attrs_scalar].
    intros kv Hkv. simpl in Hkv. lia. }
  assert (Htags : forall ids, (value_height
                     (Session.load_members Tag (Session.load_flat Tag) ids s) <= 3)%nat).
  { intros ids. etransitivity; [apply (load_members_height _ _ _ _ 1)|lia].
    intros x Hx. apply load_flat_height. now apply (scalar_table s Tag). }
  destruct c; unfold Session.load.
  - etransitivity; [now apply load_flat_height | lia].
  - etransitivity; [now apply load_flat_height | lia].
  - etransitivity; [now apply load_flat_height | lia].
  - etransitivity; [now apply load_item_height | lia].
  - apply height_obj_bound. apply List.Forall_app. split; [apply Hcols|].
    constructor; [apply Htags | constructor].
  - apply height_obj_bound. apply List.Forall_app. split; [apply Hcols|].
    constructor; [|constructor; [apply Htags | constructor]].
    apply (load_members_height _ _ _ _ 2). intros x Hx.
    apply load_item_height; [assumption|]. now apply (scalar_table s IngredientItem).
Qed.

(** X5: what the controllers return is never truncated.  For a database
    whose cells are scalars, the graph loaded from any row serializes at
    the default depth as at every depth from 4 on. *)
Theorem loaded_dictionary_is_complete (c : cls) (r : Session.row)
    (s : Session.Store) (depth : Z) :
  scalar_store s = true ->
  scalar_row r = true ->
  4 <= depth ->
  get_dictionary (Session.load c r s) depth [] = dictionary (Session.load c r s).
Proof.
  intros Hs Hr Hd. pose proof (load_height c r s Hs Hr).
  apply get_dictionary_depth_stable; lia.
Qed.


(** *** Serialization that cannot fail *)

Lemma sequence_total {A} (l : list (result A)) :
  Forall (fun r => exists a, r = Ok a) l -> exists xs, sequence l = Ok xs.
Proof.
  induction 1 as [|r l [a ->] _ [xs IH]]; simpl; [eauto|].
  rewrite IH. simpl. eauto.
Qed.

Lemma sequence_items_total {A} (l : list (string * result A)) :
  Forall (fun e => exists a, snd e = Ok a) l -> exists d, sequence_items l = Ok d.
Proof.
  intros H. unfold sequence_items. apply sequence_total.
  apply List.Forall_map. eapply List.Forall_impl; [|exact H].
  intros [k r] [a Ha]. simpl in *. subst r. simpl. eauto.
Qed.

(** Above the height of a graph the serializer falls back on no display
    string, and fails on an integer beyond the floats only. *)
Lemma _dictify_total (obj : value) (depth : Z) :
  Z.of_nat (value_height obj) < depth ->
  floatable obj = true ->
  exists j, _dictify obj depth = Ok j.
Proof.
  revert depth.
  induction obj as [| b | z | f | s | l IH | c attrs IH] using value_nested_ind;
    intros depth Hd Hf; simpl; eauto.
  - simpl in Hf. destruct (float_of_int z); [eauto | discriminate].
  - destruct (float_of_str s); eauto.
  - change (value_height (PList l))
      with (S (fold_right Nat.max 0%nat (map value_height l))) in Hd.
    replace (1 <? depth)%Z with true by (symmetry; apply Z.ltb_lt; lia).
    destruct (sequence_total (map (fun o => _dictify o (depth - 1)) l)) as [js Hjs].
    + apply List.Forall_map. rewrite List.Forall_forall in IH |- *.
      intros o Ho.
      pose proof (max_member (map value_height l) (value_height o) (in_map _ _ _ Ho)).
      apply (IH o Ho); [lia|].
      simpl in Hf. rewrite forallb_forall in Hf. now apply Hf.
    + rewrite Hjs. simpl. eauto.
  - change (value_height (PObj c attrs))
      with (S (fold_right Nat.max 0%nat
                 (map (fun kv => value_height (snd kv)) attrs))) in Hd.
    replace (0 <? depth)%Z with true by (symmetry; apply Z.ltb_lt; lia).
    unfold get_dictionary_with.
    destruct (sequence_items_total
                (_get_attributes (fun v => _dictify v (depth - 1)) c attrs []))
      as [d Hdict].
    + eapply List.Forall_impl;
        [|exact (_get_attributes_values (fun v => _dictify v (depth - 1)) c attrs [])].
      intros e (k & v & Hin & ->). rewrite List.Forall_forall in IH.
      assert (In (value_height v) (map (fun kv => value_height (snd kv)) attrs)) as Hv.
      { apply List.in_map_iff. exists (k, v). auto. }
      pose proof (max_member _ _ Hv).
      apply (IH (k, v) Hin); [simpl; lia|].
      simpl in Hf. rewrite forallb_forall in Hf. exact (Hf (k, v) Hin).
    + rewrite Hdict. simpl. eauto.
Qed.

Lemma floatable_cell (r : Session.row) (k : string) :
  floatable_row r = true -> floatable (Session.cell r k) = true.
Proof.
  unfold floatable_row, Session.cell. rewrite forallb_forall. intros H.
  destruct (r !! k) as [v|] eqn:Hk; [|reflexivity]. simpl.
  apply (H (k, v)). apply list_elem_of_In. now apply elem_of_map_to_list.
Qed.

Lemma floatable_table (s : Session.Store) (c : cls) (r : Session.row) :
  floatable_store s = true -> In r (Session.table c s) -> floatable_row r = true.
Proof.
  unfold floatable_store. rewrite forallb_forall. intros H Hin.
  assert (Hc : In c [Unit; Tag; Ingredient; IngredientItem; Category; Recipe])
    by (destruct c; simpl; auto 7).
  specialize (H c Hc). rewrite forallb_forall in H. now apply H.
Qed.

Lemma column_attrs_floatable (c : cls) (r : Session.row) :
  floatable_row r = true ->
  forallb (fun kv => floatable (snd kv)) (Session.column_attrs c r) = true.
Proof.
  intros H. unfold Session.column_attrs. simpl. rewrite floatable_cell by assumption.
  simpl. apply forallb_forall. intros kv Hkv.
  apply List.in_map_iff in Hkv as (col & <- & _). simpl. now apply floatable_cell.
Qed.

Lemma load_flat_floatable (c : cls) (r : Session.row) :
  floatable_row r = true -> floatable (Session.load_flat c r) = true.
Proof. intros H. exact (column_attrs_floatable c r H). Qed.

Lemma load_ref_floatable (c : cls) (ident : value) (s : Session.Store) :
  floatable_store s = true -> floatable (Session.load_ref c ident s) = true.
Proof.
  intros H. unfold Session.load_ref, Session.get.
  destruct ident; try reflexivity.
  destruct (find (Session.has_id z) (Session.table c s)) as [r|] eqn:Hf;
    [|reflexivity].
  apply load_flat_floatable. apply find_some in Hf as [Hin _].
  now apply (floatable_table s c).
Qed.

Lemma load_item_floatable (s : Session.Store) (r : Session.row) :
  floatable_store s = true -> floatable_row r = true ->
  floatable (Session.load_item s r) = true.
Proof.
  intros Hs Hr. unfold Session.load_item.
  change (forallb (fun kv => floatable (snd kv))
            (Session.column_attrs IngredientItem r
               ++ [("ingredient", Session.load_ref Ingredient
                                    (Session.cell r "ingredient_id") s);
                   ("unit", Session.load_ref Unit (Session.cell r "unit_id") s)])
          = true).
  rewrite forallb_app, column_attrs_floatable by assumption.
  cbn [forallb snd andb]. now rewrite !load_ref_floatable.
Qed.

Lemma load_members_floatable (c : cls) (f : Session.row -> value) (ids : list Z)
    (s : Session.Store) :
  (forall r, In r (Session.table c s) -> floatable (f r) = true) ->
  floatable (Session.load_members c f ids s) = true.
Proof.
  intros H. unfold Session.load_members.
  change (forallb floatable
            (omap (fun id => option_map f
                               (find (Session.has_id id) (Session.table c s))) ids)
          = true).
  apply forallb_forall. intros v Hv.
  apply list_elem_of_In in Hv. apply list_elem_of_omap in Hv as (id & _ & Hv).
  destruct (find (Session.has_id id) (Session.table c s)) as [r|] eqn:Hf;
    [|discriminate].
  injection Hv as <-. apply H. now apply find_some in Hf as [Hin _].
Qed.

Lemma load_floatable (c : cls) (r : Session.row) (s : Session.Store) :
  floatable_store s = true -> floatable_row r = true ->
  floatable (Session.load c r s) = true.
Proof.
  intros Hs Hr.
  assert (Htags : forall ids,
             floatable (Session.load_members Tag (Session.load_flat Tag) ids s) = true).
  { intros ids. apply load_members_floatable. intros x Hx.
    apply load_flat_floatable. now apply (floatable_table s Tag). }
  destruct c; unfold Session.load; try (now apply load_flat_floatable).
  - now apply load_item_floatable.
  - change (forallb (fun kv => floatable (snd kv))
              (Session.column_attrs Category r
                 ++ [("tags", Session.load_members Tag (Session.load_flat Tag)
                                (Session.linked Session.category_tags
                                   (default 0 (Session.row_id r)) s) s)])
            = true).
    rewrite forallb_app, column_attrs_floatable by assumption.
    cbn [forallb snd andb]. now rewrite Htags.
  - change (forallb (fun kv => floatable (snd kv))
              (Session.column_attrs Recipe r
                 ++ [("ingredients",
                      Session.load_members IngredientItem (Session.load_item s)
                        (Session.linked Session.ingredients
                           (default 0 (Session.row_id r)) s) s);
                     ("tags", Session.load_members Tag (Session.load_flat Tag)
                                (Session.linked Session.tags
                                   (default 0 (Session.row_id r)) s) s)])
            = true).
    rewrite forallb_app, column_attrs_floatable by assumption.
    cbn [forallb snd andb]. rewrite Htags, andb_true_r. apply load_members_floatable.
    intros x Hx. apply load_item_floatable; [assumption|].
    now apply (floatable_table s IngredientItem).
Qed.

(** X22: serializing cannot fail on a well-typed database.  Where every
    cell is a scalar and every integer converts to a float, the
    [dictionary] property of the graph loaded from any row of any class
    returns a dictionary: no attribute is missing where a display string
    reads it, and no conversion raises. *)
Theorem loaded_dictionary_succeeds (c : cls) (r : Session.row)
    (s : Session.Store) :
  scalar_store s = true ->
  floatable_store s = true ->
  scalar_row r = true ->
  floatable_row r = true ->
  exists d, dictionary (Session.load c r s) = Ok d.
Proof.
  intros Hs Hf Hr Hfr.
  pose proof (load_height c r s Hs Hr) as Hh.
  pose proof (load_floatable c r s Hf Hfr) as Hfl.
  destruct (_dictify_total (Session.load c r s) 100) as [j Hj]; [lia|assumption|].
  unfold dictionary, get_dictionary.
  destruct (Session.load c r s) as [| | | | | |c' attrs] eqn:Hload;
    try (destruct c; discriminate).
  simpl in Hj. apply rmap_Ok in Hj as (d & Hd & _).
  replace (100 - 1) with 99 in Hd by lia. eauto.
Qed.

End Depth.
End SerializationDepth.

(** ** The controllers (controllers.py) *)

Module ControllerSpec.
Import Session.

(** C4: create-or-update on the recipe controller raises on every input
    and every database, which it returns as it found it. *)
Theorem recipes_create_or_update_disabled (data : CreateOrUpdateRecipe) (s : Store) :
  RecipesController.create_or_update data s
  = (Raise (ValueError "Not allowed on this controller!"), s).
Proof. reflexivity. Qed.

(** C6: what the controllers answer for the id 7 on an empty database.
    The 404 detail starts with the display of the schema metaclass, the
    same text for every resource; [update] puts the id of the payload
    (here [None]) where the addressed id belongs; deleting a missing
    ingredient raises [AttributeError] before any 404 is built. *)
Theorem missing_id_answers (rt : runtime) :
  TagController.get_single rt 7 empty_store
  = (Raise (HTTPException 404 "<class 'pydantic.main.ModelMetaclass'> id=7 not found"),
     empty_store)
  /\ UnitsController.get_single rt 7 empty_store
     = TagController.get_single rt 7 empty_store
  /\ UnitsController.update rt 7 [("id", PNone); ("name", PNone); ("grams", PInt 5)]
       empty_store
     = (Raise (HTTPException 404
                 "<class 'pydantic.main.ModelMetaclass'> id=None not found"),
        empty_store)
  /\ IngredientsController.delete_single 7 empty_store
     = (Raise (AttributeError "'NoneType' object has no attribute 'ingredients_items'"),
        empty_store).
Proof. repeat split; reflexivity. Qed.

(** *** The merge routines *)

Lemma setattrs_raise (e : exn) (d : fields) :
  fold_left (fun acc kv => rbind acc (fun m => setattr_on m (fst kv) (snd kv)))
            d (Raise e) = Raise e.
Proof. induction d as [|kv d IH]; simpl; auto. Qed.

(** Assigning onto [None] fails at the first attribute. *)
Lemma setattrs_None (k : string) (v : value) (d : fields) :
  setattrs None ((k, v) :: d)
  = Raise (AttributeError ("'NoneType' object has no attribute '" ++ k ++ "'")).
Proof. unfold setattrs. simpl. apply setattrs_raise. Qed.

Lemma setattrs_Some_cons (m : model) (k : string) (v : value) (d : fields) :
  setattrs (Some m) ((k, v) :: d) = setattrs (Some (setattr m k v)) d.
Proof. reflexivity. Qed.

Lemma lookup_field_cons (name k : string) (v : value) (d : fields) :
  lookup_field name ((k, v) :: d)
  = if String.eqb k name then Some v else lookup_field name d.
Proof. unfold lookup_field. simpl. destruct (String.eqb k name); reflexivity. Qed.

Lemma lookup_field_None (name : string) (d : fields) :
  ~ In name (map fst d) -> lookup_field name d = None.
Proof.
  induction d as [|[k v] d IH]; simpl; intros Hn; [reflexivity|].
  rewrite lookup_field_cons.
  destruct (String.eqb k name) eqn:Hk.
  - apply String.eqb_eq in Hk. tauto.
  - apply IH. tauto.
Qed.

(** A truthy field survives [exclude_none]. *)
Lemma exclude_none_truthy (name : string) (d : fields) :
  truthy (getattr_or_none d name) = true ->
  exists k v rest, exclude_none d = (k, v) :: rest.
Proof.
  unfold getattr_or_none.
  induction d as [|[k v] d IH]; simpl; intros H; [discriminate|].
  destruct (is_none v) eqn:Hv; simpl; [|eauto].
  rewrite lookup_field_cons in H.
  destruct (String.eqb k name); [|auto].
  destruct v; simpl in *; discriminate.
Qed.

(** C8, as the code has it: create-or-update with a truthy id that
    finds no entity raises [AttributeError] when the first field is
    assigned onto the missing entity ([UnmappedInstanceError] on adding
    it when the unit payload has no field but the id), and the database
    is left as it was: nothing is created. *)
Theorem create_or_update_unresolved_id (rt : runtime) (data : fields) (s : Store) :
  truthy (getattr_or_none data "id") = true ->
  (forall c : cls,
      get c (getattr_or_none data "id") s = None ->
      exists attr,
        Controller.create_or_update rt c Controller._fill_model (fun d => d) data s
        = (Raise (AttributeError ("'NoneType' object has no attribute '" ++ attr ++ "'")),
           s))
  /\ (get Unit (getattr_or_none data "id") s = None ->
      exists msg,
        UnitsController.create_or_update rt data s = (Raise (AttributeError msg), s)
        \/ UnitsController.create_or_update rt data s
           = (Raise (UnmappedInstanceError msg), s)).
Proof.
  intros Hid. split.
  - intros c Hget.
    destruct (exclude_none_truthy _ _ Hid) as (k & v & rest & Hd).
    exists k. unfold Controller.create_or_update.
    rewrite Hid, Hget. simpl.
    unfold bind, Controller._fill_model, lift. rewrite Hd, setattrs_None. reflexivity.
  - intros Hget. unfold UnitsController.create_or_update.
    rewrite Hid, Hget. simpl. unfold bind, lift.
    destruct (exclude "id" data) as [|[k v] rest] eqn:Hd.
    + eexists. right. reflexivity.
    + eexists. left. rewrite setattrs_None. reflexivity.
Qed.

(** The default merge routine.  Every field the input holds with a
    value other than [None] is assigned that value; every other
    attribute of the entity, and the entity's identity and collections,
    stay as they were.  The database is not touched by the routine. *)
Lemma default_merge_overwrites_present_fields (m : model) (data : fields) (s : Store) :
  NoDup (map fst data) ->
  exists m',
    Controller._fill_model (Some m) data s = (Ok (Some m'), s)
    /\ i_cls (m_inst m') = i_cls (m_inst m)
    /\ i_key (m_inst m') = i_key (m_inst m)
    /\ m_rels m' = m_rels m
    /\ forall attr,
         i_attrs (m_inst m') !! attr
         = match lookup_field attr data with
           | Some v => if is_none v then i_attrs (m_inst m) !! attr else Some v
           | None => i_attrs (m_inst m) !! attr
           end.
Proof.
  unfold Controller._fill_model, lift. revert m.
  induction data as [|[k v] data IH]; intros m Hnd.
  - exists m. simpl. auto.
  - inversion Hnd as [|? ? Hk Hnd']; subst.
    assert (Hstep :
      exists m0, setattrs (Some m) (exclude_none ((k, v) :: data))
                 = setattrs (Some m0) (exclude_none data)
                 /\ i_cls (m_inst m0) = i_cls (m_inst m)
                 /\ i_key (m_inst m0) = i_key (m_inst m)
                 /\ m_rels m0 = m_rels m
                 /\ i_attrs (m_inst m0)
                    = if is_none v then i_attrs (m_inst m)
                      else <[k := v]> (i_attrs (m_inst m))).
    { simpl. destruct (is_none v); simpl.
      - exists m. auto.
      - exists (setattr m k v). rewrite setattrs_Some_cons. auto. }
    destruct Hstep as (m0 & -> & Hc & Hkey & Hrels & Hattrs).
    destruct (IH m0 Hnd') as (m' & Hm' & Hc' & Hkey' & Hrels' & Hattrs').
    exists m'. repeat split; try congruence.
    intros attr. rewrite Hattrs', lookup_field_cons, Hattrs.
    destruct (String.eqb k attr) eqn:Hka.
    + apply String.eqb_eq in Hka. subst attr.
      rewrite list_elem_of_In in Hk.
      rewrite (lookup_field_None k data Hk).
      destruct (is_none v); [reflexivity|]. apply lookup_insert_eq.
    + apply String.eqb_neq in Hka.
      destruct (is_none v); [reflexivity|].
      rewrite lookup_insert_ne by assumption. reflexivity.
Qed.

(** *** Category tags *)

Lemma for_each_first_failure {A B} (f : A -> M B) (s : Store) (e : exn)
    (pre : list A) (x : A) (post : list A) :
  Forall (fun a => exists b, f a s = (Ok b, s)) pre ->
  f x s = (Raise e, s) ->
  for_each f (pre ++ x :: post) s = (Raise e, s).
Proof.
  intros Hpre Hx. induction Hpre as [|a pre (b & Hb) _ IH]; simpl.
  - unfold bind. now rewrite Hx.
  - unfold bind at 1. rewrite Hb. unfold bind at 1. now rewrite IH.
Qed.

(** C9: updating an existing category with a tag id that finds no tag
    raises the 400 that names the first such id, and the database is
    exactly as before the call: no field and no tag link was written. *)
Theorem category_update_unknown_tag (rt : runtime) (s : Store) (item_id : Z)
    (data : CreateOrUpdateCategory) (pre : list fields) (tag : fields)
    (post : list fields) (z : Z) :
  get Category (PInt item_id) s <> None ->
  category_tag_list data = (pre ++ tag :: post)%list ->
  Forall (fun t => exists id, attr_of t "id" = Ok id /\ get Tag id s <> None) pre ->
  attr_of tag "id" = Ok (PInt z) ->
  get Tag (PInt z) s = None ->
  CategoriesController.update rt item_id data s
  = (Raise (HTTPException 400 ("Tag id=" ++ pretty z ++ " not found")), s).
Proof.
  intros Hcat Htags Hpre Hid Hmissing.
  unfold CategoriesController.update, Controller.update.
  destruct (get Category (PInt item_id) s) as [item|]; [|congruence].
  unfold CategoriesController._fill_model.
  unfold bind at 1. unfold bind at 1.
  rewrite Htags, (for_each_first_failure _ s
                    (HTTPException 400 ("Tag id=" ++ pretty z ++ " not found"))).
  - reflexivity.
  - eapply Forall_impl; [exact Hpre|]. simpl.
    intros t (id & Ht & Hfound). unfold CategoriesController.resolve_tag.
    rewrite Ht. destruct (get Tag id s); [eauto | congruence].
  - unfold CategoriesController.resolve_tag. rewrite Hid, Hmissing. reflexivity.
Qed.

(** *** The referential guard of ingredients *)

Lemma append_assoc (a b c : string) : (a ++ b) ++ c = a ++ b ++ c.
Proof.
  induction a as [|ch a IH]; [reflexivity|].
  change (String ch ((a ++ b) ++ c) = String ch (a ++ b ++ c)).
  now rewrite IH.
Qed.

Lemma append_nil_r (a : string) : a ++ "" = a.
Proof.
  induction a as [|ch a IH]; [reflexivity|].
  change (String ch (a ++ "") = String ch a). now rewrite IH.
Qed.

Lemma contains_join (sep t : string) (l : list string) :
  In t l -> contains t (Models.join sep l).
Proof.
  unfold Models.join.
  induction l as [|x l IH]; intros Hin; [contradiction|].
  destruct Hin as [->|Hin].
  - destruct l as [|y l]; simpl.
    + exists "", "". change (t = t ++ ""). now rewrite append_nil_r.
    + exists "", (sep ++ String.concat sep (y :: l)). reflexivity.
  - destruct l as [|y l]; [contradiction|].
    destruct (IH Hin) as (before & after & Heq).
    exists (x ++ sep ++ before), after.
    change (String.concat sep (x :: y :: l))
      with (x ++ sep ++ String.concat sep (y :: l)).
    rewrite Heq, !append_assoc. reflexivity.
Qed.

Lemma value_eqb_PInt (v : value) (z : Z) :
  value_eqb v (PInt z) = true <-> v = PInt z.
Proof.
  destruct v; simpl; split; try discriminate; intros H.
  - apply Z.eqb_eq in H. now subst.
  - injection H as ->. apply Z.eqb_refl.
Qed.

(** The titles the guard collects are those of the attached recipes. *)
Lemma guard_titles (s : Store) (item_id : Z) (title : value) :
  In title
     (flat_map (fun item => map (fun r => cell r "title")
                                (IngredientsController.recipes item s))
               (IngredientsController.ingredients_items item_id s))
  <-> attached s item_id title.
Proof.
  unfold attached, IngredientsController.ingredients_items,
    IngredientsController.recipes, linked_to.
  rewrite in_flat_map. split.
  - intros (item & Hitem & Htitle).
    apply filter_In in Hitem as [Hitem Href]. apply value_eqb_PInt in Href.
    apply in_map_iff in Htitle as (recipe & <- & Hrecipe).
    destruct (row_id item) as [k|] eqn:Hk; [|contradiction].
    apply list_elem_of_In, list_elem_of_omap in Hrecipe as (rid & Hrid & Hfind).
    apply list_elem_of_In, in_map_iff in Hrid as ([rid' k'] & <- & Hlink).
    apply filter_In in Hlink as [Hlink Hk']. simpl in *.
    apply Z.eqb_eq in Hk'. subst k'.
    exists item, k, rid', recipe. auto 8.
  - intros (item & k & rid & recipe & Hitem & Href & Hk & Hlink & Hfind & <-).
    exists item. split.
    + apply filter_In. split; [assumption|]. now apply value_eqb_PInt.
    + apply in_map_iff. exists recipe. split; [reflexivity|].
      rewrite Hk. apply list_elem_of_In, list_elem_of_omap.
      exists rid. split; [|assumption].
      apply list_elem_of_In, in_map_iff. exists (rid, k). split; [reflexivity|].
      apply filter_In. split; [assumption|]. simpl. apply Z.eqb_refl.
Qed.

Lemma join_items_strings (titles : list value) :
  (forall t, In t titles -> exists str, t = PStr str) ->
  exists strs,
    sequence (map IngredientsController.join_item titles) = Ok strs
    /\ titles = map PStr strs.
Proof.
  induction titles as [|t titles IH]; intros Hstr.
  - exists []. auto.
  - destruct (Hstr t (or_introl eq_refl)) as (str & ->).
    destruct IH as (strs & Hseq & ->); [intros; apply Hstr; now right|].
    exists (str :: strs). simpl. now rewrite Hseq.
Qed.

Lemma find_filter_negb {A} (p : A -> bool) (l : list A) :
  find p (List.filter (fun x => negb (p x)) l) = None.
Proof.
  induction l as [|x l IH]; simpl; [reflexivity|].
  destruct (p x) eqn:Hp; simpl; [assumption|]. now rewrite Hp.
Qed.

(** C5: deleting an ingredient that exists.  While a recipe holds an
    item that references it, the delete raises a 400 whose detail
    contains the title of every such recipe, and the database is
    unchanged; when no recipe does, the delete succeeds and the
    ingredient is gone. *)
Theorem ingredient_delete_guard (s : Store) (item_id : Z) :
  get Ingredient (PInt item_id) s <> None ->
  ((exists title, attached s item_id title) ->
   (forall title, attached s item_id title -> exists str, title = PStr str) ->
   exists detail,
     IngredientsController.delete_single item_id s
     = (Raise (HTTPException 400 detail), s)
     /\ forall title, attached s item_id (PStr title) -> contains title detail)
  /\ ((forall title, ~ attached s item_id title) ->
      exists s',
        IngredientsController.delete_single item_id s = (Ok tt, s')
        /\ get Ingredient (PInt item_id) s' = None).
Proof.
  intros Hexists. unfold IngredientsController.delete_single.
  destruct (get Ingredient (PInt item_id) s) as [ingredient|] eqn:Hget; [|congruence].
  pose proof (guard_titles s item_id) as Htitles.
  set (titles := flat_map _ _) in *. split.
  - intros (title & Hatt) Hstr.
    destruct (join_items_strings titles) as (strs & Hseq & Heq).
    { intros t Ht. apply Hstr, Htitles, Ht. }
    destruct titles as [|t0 titles'] eqn:Hnonempty.
    { apply Htitles in Hatt. contradiction. }
    rewrite <- Hnonempty in *. clear Hnonempty.
    exists ("Ingredient still attached to some recipes: " ++ Models.join ", " strs).
    split.
    + unfold bind, lift, raise. rewrite Hseq. reflexivity.
    + intros t Ht. apply Htitles in Ht. rewrite Heq in Ht.
      apply in_map_iff in Ht as (str & Hstr' & Hin). injection Hstr' as ->.
      destruct (contains_join ", " t strs Hin) as (before & after & ->).
      exists ("Ingredient still attached to some recipes: " ++ before), after.
      now rewrite append_assoc.
  - intros Hnone.
    destruct titles as [|t0 titles'].
    + unfold Controller.delete_single. rewrite Hget.
      eexists. split; [reflexivity|].
      unfold get, delete_commit. simpl. now rewrite find_filter_negb.
    + exfalso. apply (Hnone t0), Htitles. now left.
Qed.

End ControllerSpec.

(** ** Units: partial update and natural-key upsert *)

Module UnitSpec.
Import Session.
Import ControllerSpec.

Lemma find_split {A} (p : A -> bool) (l : list A) (x : A) :
  find p l = Some x ->
  exists before after,
    l = (before ++ x :: after)%list /\ p x = true
    /\ forall y, In y before -> p y = false.
Proof.
  induction l as [|a l IH]; simpl; [discriminate|].
  destruct (p a) eqn:Hp; intros H.
  - injection H as ->. exists [], l. simpl. tauto.
  - destruct (IH H) as (before & after & -> & Hx & Hbefore).
    exists (a :: before), after. simpl. repeat split; auto.
    intros y [->|Hy]; auto.
Qed.

Lemma find_middle {A} (p : A -> bool) (before after : list A) (x : A) :
  (forall y, In y before -> p y = false) -> p x = true ->
  find p (before ++ x :: after) = Some x.
Proof.
  intros Hbefore Hx. induction before as [|a before IH]; simpl.
  - now rewrite Hx.
  - rewrite (Hbefore a) by now left. apply IH. intros. apply Hbefore. now right.
Qed.

Lemma filter_none {A} (p : A -> bool) (l : list A) :
  (forall y, In y l -> p y = false) -> List.filter p l = [].
Proof.
  induction l as [|a l IH]; simpl; intros H; [reflexivity|].
  rewrite (H a) by now left. apply IH. intros. apply H. now right.
Qed.

Lemma filter_all {A} (p : A -> bool) (l : list A) :
  (forall y, In y l -> p y = true) -> List.filter p l = l.
Proof.
  induction l as [|a l IH]; simpl; intros H; [reflexivity|].
  rewrite (H a) by now left. f_equal. apply IH. intros. apply H. now right.
Qed.

Lemma has_id_row_id (k : Z) (r : row) : has_id k r = true <-> row_id r = Some k.
Proof.
  unfold has_id. destruct (row_id r) as [z|]; split; try discriminate.
  - intros H. apply Z.eqb_eq in H. now subst.
  - intros H. injection H as ->. apply Z.eqb_refl.
Qed.

Lemma has_id_false (k : Z) (r : row) : row_id r <> Some k -> has_id k r = false.
Proof.
  intros H. destruct (has_id k r) eqn:E; [|reflexivity].
  apply has_id_row_id in E. contradiction.
Qed.

Lemma row_id_lookup (r : row) (k : Z) : row_id r = Some k -> r !! "id" = Some (PInt k).
Proof.
  unfold row_id. destruct (r !! "id") as [[]|]; try discriminate.
  now intros [= ->].
Qed.

Lemma named_name_of (n : string) (r : row) :
  value_eqb (cell r "name") (PStr n) = true <-> name_of r = Some n.
Proof.
  unfold name_of. destruct (cell r "name"); simpl; split; try discriminate.
  - intros H. apply String.eqb_eq in H. now subst.
  - intros [= ->]. apply String.eqb_refl.
Qed.

Lemma named_false (n : string) (r : row) :
  name_of r <> Some n -> value_eqb (cell r "name") (PStr n) = false.
Proof.
  intros H. destruct (value_eqb (cell r "name") (PStr n)) eqn:E; [|reflexivity].
  apply named_name_of in E. contradiction.
Qed.

(** A row written to the unit table passes the constraints when it has a
    name and no other row shares its primary key or its name. *)
Lemma check_row_Unit (k : Z) (r : row) (others : list row) (n : string) :
  cell r "name" = PStr n ->
  (forall x, In x others ->
             has_id k x = false /\ value_eqb (cell x "name") (PStr n) = false) ->
  check_row Unit k r others = Ok tt.
Proof.
  intros Hname Hothers. unfold check_row, not_null_ok, primary_key_ok, unique_ok.
  simpl. rewrite Hname. simpl.
  assert (H1 : existsb (has_id k) others = false).
  { apply not_true_is_false. intros H. apply existsb_exists in H as (x & Hx & Hid).
    destruct (Hothers x Hx). congruence. }
  assert (H2 : existsb (fun r' => value_eqb (cell r' "name") (PStr n)) others = false).
  { apply not_true_is_false. intros H. apply existsb_exists in H as (x & Hx & Hid).
    destruct (Hothers x Hx). congruence. }
  rewrite H1, H2. reflexivity.
Qed.

Lemma units_ok_middle (s : Store) (before after : list row) (r : row) :
  units_ok s ->
  unit_tbl s = (before ++ r :: after)%list ->
  exists k n,
    row_id r = Some k /\ name_of r = Some n
    /\ forall x, In x (before ++ after) ->
                 has_id k x = false /\ value_eqb (cell x "name") (PStr n) = false.
Proof.
  intros (Hall & Hids & Hnames) Ht. rewrite Ht in *.
  apply Forall_app in Hall as [_ Hall]. apply Forall_cons in Hall as [[[k Hk] [n Hn]] _].
  exists k, n. split; [assumption|]. split; [assumption|].
  rewrite map_app in Hids, Hnames. simpl in Hids, Hnames.
  apply NoDup_app in Hids as (_ & Hid1 & Hid2).
  apply NoDup_app in Hnames as (_ & Hn1 & Hn2).
  apply NoDup_cons in Hid2 as [Hid2 _]. apply NoDup_cons in Hn2 as [Hn2 _].
  intros x Hx. apply in_app_or in Hx. split.
  - apply has_id_false. intros Hxk. destruct Hx as [Hx|Hx].
    + apply (Hid1 (Some k)).
      * apply list_elem_of_In, in_map_iff. eauto.
      * rewrite Hk. left.
    + apply Hid2. rewrite Hk. apply list_elem_of_In, in_map_iff. eauto.
  - apply named_false. intros Hxn. destruct Hx as [Hx|Hx].
    + apply (Hn1 (Some n)).
      * apply list_elem_of_In, in_map_iff. eauto.
      * rewrite Hn. left.
    + apply Hn2. rewrite Hn. apply list_elem_of_In, in_map_iff. eauto.
Qed.



Lemma max_id_bound (l : list Z) (z : Z) : In z l -> (z <= fold_right Z.max 0 l)%Z.
Proof.
  induction l as [|a l IH]; simpl; intros H; [contradiction|].
  destruct H as [->|H]; [lia|]. specialize (IH H). lia.
Qed.

(** The primary key handed out is in use by no row. *)
Lemma next_id_fresh (t : list row) (x : row) : In x t -> has_id (next_id t) x = false.
Proof.
  intros Hx. apply has_id_false. intros Hid.
  assert (Hin : In (next_id t) (omap row_id t)).
  { apply list_elem_of_In, list_elem_of_omap. exists x. split; [|assumption].
    now apply list_elem_of_In. }
  apply max_id_bound in Hin. unfold next_id in Hin. lia.
Qed.

Lemma replace_middle (k : Z) (before after : list row) (r r' : row) :
  has_id k r = true ->
  (forall x, In x (before ++ after) -> has_id k x = false) ->
  map (fun x => if has_id k x then r' else x) (before ++ r :: after)
  = (before ++ r' :: after)%list
  /\ List.filter (fun x => negb (has_id k x)) (before ++ r :: after)
     = (before ++ after)%list.
Proof.
  intros Hr Hothers.
  assert (Hb : forall x, In x before -> has_id k x = false)
    by (intros; apply Hothers, in_or_app; now left).
  assert (Ha : forall x, In x after -> has_id k x = false)
    by (intros; apply Hothers, in_or_app; now right).
  split.
  - rewrite map_app. simpl. rewrite Hr. f_equal; [|f_equal].
    + rewrite <- (map_id before) at 2. apply map_ext_in.
      intros x Hx. now rewrite Hb.
    + rewrite <- (map_id after) at 2. apply map_ext_in.
      intros x Hx. now rewrite Ha.
  - rewrite List.filter_app. simpl. rewrite Hr. simpl. f_equal.
    + apply filter_all. intros x Hx. now rewrite Hb.
    + apply filter_all. intros x Hx. now rewrite Ha.
Qed.

(** Committing an update of the unit [k] that keeps a name [n] no other
    unit has: the row is replaced in place. *)
Lemma commit_unit_update (s : Store) (before after : list row) (r : row)
    (k : Z) (n : string) (attrs : gmap string value) :
  unit_tbl s = (before ++ r :: after)%list ->
  row_id r = Some k ->
  (forall x, In x (before ++ after) ->
             has_id k x = false /\ value_eqb (cell x "name") (PStr n) = false) ->
  attrs !! "id" = Some (PInt k) ->
  cell (update_values Unit r attrs) "name" = PStr n ->
  Session.add_commit (Model (Instance Unit (Some k) attrs) []) s
  = (Ok k, set_table Unit
             (before ++ <["id" := PInt k]> (update_values Unit r attrs) :: after) s).
Proof.
  intros Ht Hk Hothers Hid Hname.
  assert (Hr : has_id k r = true) by now apply has_id_row_id.
  destruct (replace_middle k before after r
              (<["id" := PInt k]> (update_values Unit r attrs)) Hr) as [Hmap Hfilter].
  { intros x Hx. now destruct (Hothers x Hx). }
  unfold Session.add_commit, flush_instance. simpl. rewrite Ht.
  rewrite find_middle; [|intros; apply Hothers, in_or_app; now left|assumption].
  rewrite Hid. simpl. rewrite Hfilter, Hmap.
  rewrite (check_row_Unit k _ (before ++ after) n); [reflexivity| |assumption].
  unfold cell in *. rewrite lookup_insert_ne by discriminate. exact Hname.
Qed.


Lemma float_of_int_0 : Models.float_of_int 0 = Some 0%float.
Proof. vm_compute. reflexivity. Qed.

Lemma unit_dictionary (rt : runtime) (key : option Z) (r : row) (s : Store)
    (n : string) :
  cell r "name" = PStr n ->
  (cell r "grams" = PNone \/ cell r "grams" = PInt 0 \/ exists f, cell r "grams" = PFloat f) ->
  exists d,
    Controller.dictionary_of rt Unit (Instance Unit key r) s = (Ok d, s)
    /\ dict_get "id" d = None.
Proof.
  intros Hname Hgrams.
  unfold Controller.dictionary_of, load, load_flat, column_attrs, Models.dictionary,
    Models.get_dictionary, Models.get_dictionary_with, Models._get_attributes.
  simpl. rewrite Hname.
  assert (Hn : exists jn, Models._dictify (float_of_str rt) (float_str rt)
                           (str_repr rt) (set_iter rt) (PStr n) 99 = Ok jn).
  { simpl. destruct (float_of_str rt n); eauto. }
  assert (Hg : exists jg, Models._dictify (float_of_str rt) (float_str rt)
                           (str_repr rt) (set_iter rt) (cell r "grams") 99 = Ok jg).
  { destruct Hgrams as [->|[->|[f ->]]]; [simpl; eauto| |simpl; eauto].
    exists (JFloat 0%float). vm_compute. reflexivity. }
  destruct Hn as (jn & ->), Hg as (jg & ->).
  eexists. split; reflexivity.
Qed.

Section Upsert.
Variable rt : runtime.
Variable n : string.
Variable grams : option float.

Local Abbreviation g := (match grams with Some f => PFloat f | None => PNone end).
Local Abbreviation data := [("id", PNone); ("name", PStr n); ("grams", g)].


End Upsert.


Lemma unit_partial_update (rt : runtime) (s : Store) (item_id : Z) (r : row)
    (g : value) :
  units_ok s ->
  find (has_id item_id) (unit_tbl s) = Some r ->
  is_none g = false ->
  exists before after r',
    unit_tbl s = (before ++ r :: after)%list
    /\ UnitsController.update rt item_id
         [("id", PNone); ("name", PNone); ("grams", g)] s
       = Controller.get_single rt Unit item_id
           (set_table Unit (before ++ r' :: after) s)
    /\ find (has_id item_id) (before ++ r' :: after) = Some r'
    /\ cell r' "name" = cell r "name"
    /\ cell r' "grams" = g.
Proof.
  intros Hok Hfind Hg.
  destruct (find_split _ _ _ Hfind) as (before & after & Ht & Hr & Hbefore).
  destruct (units_ok_middle s before after r Hok Ht) as (k & n & Hk & Hn & Hothers).
  assert (k = item_id) as ->.
  { apply has_id_row_id in Hr. congruence. }
  assert (Hname : cell r "name" = PStr n).
  { unfold name_of in Hn. destruct (cell r "name"); congruence. }
  set (attrs := <["grams" := g]> r).
  set (r' := <["id" := PInt item_id]> (update_values Unit r attrs)).
  assert (Hr'_name : cell (update_values Unit r attrs) "name" = PStr n).
  { unfold update_values, cell. simpl. rewrite lookup_insert_eq.
    unfold attrs. rewrite lookup_insert_ne by discriminate.
    unfold cell in Hname. destruct (r !! "name"); simpl in *; assumption. }
  exists before, after, r'. split; [assumption|].
  split; [|split; [|split]].
  - unfold UnitsController.update, Controller.update, get. simpl.
    rewrite Hfind. unfold bind, Controller._fill_model, lift. simpl.
    rewrite Hg. simpl.
    change (Session.add_commit _ s)
      with (Session.add_commit (Model (Instance Unit (Some item_id) attrs) []) s).
    rewrite (commit_unit_update s before after r item_id n attrs Ht Hk Hothers);
      [reflexivity| |assumption].
    unfold attrs. rewrite lookup_insert_ne by discriminate. now apply row_id_lookup.
  - apply find_middle.
    + intros y Hy. apply Hothers, in_or_app. now left.
    + apply has_id_row_id. unfold row_id, r'. now rewrite lookup_insert_eq.
  - rewrite Hname. unfold r', cell in *.
    now rewrite lookup_insert_ne by discriminate.
  - unfold cell, r', update_values. simpl.
    rewrite !lookup_insert_ne by discriminate. rewrite lookup_insert_eq.
    unfold attrs. now rewrite lookup_insert_eq.
Qed.

(** C7: the default merge routine and the partial update of a unit.
    The routine assigns every field the input holds with a value other
    than [None] and leaves every other attribute as it was; updating an
    existing unit with nothing but [grams] (id and name [None]) commits
    a row with the name it had and the new grams, in place of the old
    row and with nothing else in the database changed. *)
Theorem default_merge_partial_update (rt : runtime) (m : model) (data : fields)
    (s : Store) (item_id : Z) (r : row) (g : value) :
  NoDup (map fst data) ->
  units_ok s ->
  find (has_id item_id) (unit_tbl s) = Some r ->
  is_none g = false ->
  (exists m',
      Controller._fill_model (Some m) data s = (Ok (Some m'), s)
      /\ i_cls (m_inst m') = i_cls (m_inst m)
      /\ i_key (m_inst m') = i_key (m_inst m)
      /\ m_rels m' = m_rels m
      /\ forall attr,
           i_attrs (m_inst m') !! attr
           = match lookup_field attr data with
             | Some v => if is_none v then i_attrs (m_inst m) !! attr else Some v
             | None => i_attrs (m_inst m) !! attr
             end)
  /\ (exists before after r',
        unit_tbl s = (before ++ r :: after)%list
        /\ UnitsController.update rt item_id
             [("id", PNone); ("name", PNone); ("grams", g)] s
           = Controller.get_single rt Unit item_id
               (set_table Unit (before ++ r' :: after) s)
        /\ find (has_id item_id) (before ++ r' :: after) = Some r'
        /\ cell r' "name" = cell r "name"
        /\ cell r' "grams" = g).
Proof.
  intros Hnodup Hok Hfind Hg. split.
  - now apply default_merge_overwrites_present_fields.
  - now apply unit_partial_update.
Qed.

End UnitSpec.

(** ** Recipes: the aggregate write *)

Module RecipeSpec.
Import Session.
Import ControllerSpec UnitSpec SerializationDepth.

(** *** Running a controller operation *)

Lemma bind_Ok {A B} (m : M A) (k : A -> M B) (s s' : Store) (b : B) :
  bind m k s = (Ok b, s') ->
  exists a s1, m s = (Ok a, s1) /\ k a s1 = (Ok b, s').
Proof.
  unfold bind. destruct (m s) as [[a|e] s1]; intros H; [eauto | discriminate].
Qed.

Lemma for_each_Ok {A B} (f : A -> M B) (R : Store -> Store -> Prop)
    (P : A -> B -> Prop) :
  (forall s, R s s) ->
  (forall s1 s2 s3, R s1 s2 -> R s2 s3 -> R s1 s3) ->
  (forall a s b s', f a s = (Ok b, s') -> R s s' /\ P a b) ->
  forall l s bs s',
    for_each f l s = (Ok bs, s') -> R s s' /\ Forall2 P l bs.
Proof.
  intros Hrefl Htrans Hf. induction l as [|a l IH]; simpl; intros s bs s' H.
  - injection H as <- <-. auto.
  - apply bind_Ok in H as (b & s1 & Ha & H).
    apply bind_Ok in H as (bs' & s2 & Hl & H). injection H as <- <-.
    destruct (Hf _ _ _ _ Ha) as [HR HP]. destruct (IH _ _ _ Hl) as [HR' HP'].
    split; [eapply Htrans; eassumption | constructor; assumption].
Qed.

(** *** What a commit writes *)

Lemma set_table_same (c : cls) (s : Store) : set_table c (table c s) s = s.
Proof. destruct s, c; reflexivity. Qed.

Lemma set_table_twice (c : cls) (t t' : list row) (s : Store) :
  set_table c t' (set_table c t s) = set_table c t' s.
Proof. destruct c; reflexivity. Qed.

Lemma table_set_table (c : cls) (t : list row) (s : Store) :
  table c (set_table c t s) = t.
Proof. destruct c; reflexivity. Qed.

Lemma check_row_primary_key (c : cls) (id : Z) (r : row) (others : list row) :
  check_row c id r others = Ok tt ->
  forall x, In x others -> has_id id x = false.
Proof.
  unfold check_row, primary_key_ok. intros H x Hx.
  destruct (negb (not_null_ok c r)); [discriminate|].
  destruct (existsb (has_id id) others) eqn:E; [discriminate|].
  destruct (has_id id x) eqn:Hid; [|reflexivity].
  assert (existsb (has_id id) others = true) by (rewrite existsb_exists; exists x; auto).
  congruence.
Qed.

(** An instance is written to the table of its class and nowhere else. *)
Lemma flush_instance_frame (i : instance) (s s' : Store) (id : Z) :
  flush_instance i s = Ok (id, s') -> exists t, s' = set_table (i_cls i) t s.
Proof.
  unfold flush_instance. destruct (i_key i) as [k|].
  - destruct (find (has_id k) (table (i_cls i) s)); [|discriminate].
    intros H. apply rbind_Ok in H as (z & _ & H).
    apply rbind_Ok in H as (u & _ & H). injection H as <- <-. eauto.
  - intros H. apply rbind_Ok in H as (z & _ & H).
    apply rbind_Ok in H as (u & _ & H). injection H as <- <-. eauto.
Qed.

(** A new instance is appended to its table under a primary key no row
    had. *)
Lemma flush_instance_insert (i : instance) (s s' : Store) (id : Z) :
  i_key i = None ->
  flush_instance i s = Ok (id, s') ->
  s' = set_table (i_cls i)
         (table (i_cls i) s ++ [inserted_row (i_cls i) id (i_attrs i)]) s
  /\ forall x, In x (table (i_cls i) s) -> has_id id x = false.
Proof.
  unfold flush_instance. intros -> H.
  apply rbind_Ok in H as (z & _ & H).
  apply rbind_Ok in H as ([] & Hcheck & H). injection H as <- <-.
  split; [reflexivity|]. exact (check_row_primary_key _ _ _ _ Hcheck).
Qed.


Lemma row_id_inserted_row (c : cls) (id : Z) (attrs : gmap string value) :
  has_id id (inserted_row c id attrs) = true.
Proof.
  apply has_id_row_id. unfold row_id, inserted_row. now rewrite lookup_insert_eq.
Qed.

(** The members of a collection are written to the table of their class,
    new rows appended in order. *)
Lemma flush_members_spec (c : cls) (members : list (option instance)) :
  Forall (fun m => forall i, m = Some i -> i_cls i = c) members ->
  forall s ids s',
    flush_members members s = Ok (ids, s') ->
    exists news,
      s' = set_table c (table c s ++ news) s
      /\ Forall2 (member_stored c s s') members ids.
Proof.
  induction 1 as [|m members Hm _ IH]; simpl; intros s ids s' H.
  - injection H as <- <-. exists []. rewrite app_nil_r, set_table_same. auto.
  - destruct m as [i|]; [|discriminate].
    specialize (Hm i eq_refl).
    apply rbind_Ok in H as ([k sa] & Hhead & H).
    apply rbind_Ok in H as ([ids' s''] & Hrest & H). simpl in *.
    injection H as <- <-.
    destruct (IH _ _ _ Hrest) as (news & Hs' & Hall).
    destruct (i_key i) as [k0|] eqn:Hkey.
    + injection Hhead as <- <-. exists news. split; [assumption|].
      constructor; [|assumption]. simpl. now rewrite Hkey.
    + destruct (flush_instance_insert i s sa k Hkey Hhead) as [Hsa Hfresh].
      rewrite Hm in Hsa, Hfresh.
      assert (Htable : table c sa = (table c s ++ [inserted_row c k (i_attrs i)])%list).
      { rewrite Hsa. apply table_set_table. }
      exists (inserted_row c k (i_attrs i) :: news). split.
      * rewrite Hs', Htable, Hsa, set_table_twice, <- app_assoc. reflexivity.
      * constructor.
        -- simpl. rewrite Hkey. split; [assumption|].
           rewrite Hs', table_set_table, Htable, <- app_assoc. simpl.
           apply find_middle; [assumption | apply row_id_inserted_row].
        -- eapply Forall2_impl; [exact Hall|].
           intros [j|] id; simpl; [|auto].
           destruct (i_key j); [auto|]. intros [Hf Hfind]. split; [|assumption].
           intros x Hx. apply Hf. rewrite Htable. apply in_or_app. now left.
Qed.

Lemma mem_In (x : Z) (l : list Z) : mem x l = true <-> In x l.
Proof.
  unfold mem. rewrite existsb_exists. split.
  - intros (y & Hy & Heq). apply Z.eqb_eq in Heq. now subst.
  - intros H. exists x. split; [assumption | apply Z.eqb_refl].
Qed.

Lemma linked_In (sec : secondary) (parent x : Z) (s : Store) :
  In x (linked sec parent s) <-> In (parent, x) (links sec s).
Proof.
  unfold linked. rewrite in_map_iff. split.
  - intros ([p c] & <- & H). apply filter_In in H as [H Hp]. simpl in *.
    apply Z.eqb_eq in Hp. now subst.
  - intros H. exists (parent, x). split; [reflexivity|].
    apply filter_In. split; [assumption|]. simpl. apply Z.eqb_refl.
Qed.

Lemma links_set_links (sec : secondary) (l : list (Z * Z)) (s : Store) :
  links sec (set_links sec l s) = l.
Proof. destruct sec; reflexivity. Qed.

Lemma table_set_links (c : cls) (sec : secondary) (l : list (Z * Z)) (s : Store) :
  table c (set_links sec l s) = table c s.
Proof. destruct c, sec; reflexivity. Qed.

(** Flushing a collection assignment under a cascade without
    [delete-orphan]: the parent ends up linked to exactly the members
    assigned, and the only rows written are the new members. *)
Lemma flush_collection_spec (parent : Z) (rel : relationship)
    (members : list (option instance)) (s s' : Store) :
  has_cascade save_update (rel_cascade rel) = true ->
  has_cascade delete_orphan (rel_cascade rel) = false ->
  Forall (fun m => forall i, m = Some i -> i_cls i = rel_target rel) members ->
  flush_collection parent rel members s = Ok s' ->
  exists ids news links',
    s' = set_links (rel_secondary rel) links'
           (set_table (rel_target rel) (table (rel_target rel) s ++ news) s)
    /\ Forall2 (member_stored (rel_target rel) s s') members ids
    /\ forall x, In x (linked (rel_secondary rel) parent s') <-> In x ids.
Proof.
  intros Hsave Horphan Hcls. unfold flush_collection. rewrite Hsave, Horphan.
  intros H. apply rbind_Ok in H as ([ids s1] & Hmembers & H). simpl in H.
  destruct (negb (distinct _)); [discriminate|]. injection H as <-.
  destruct (flush_members_spec _ _ Hcls _ _ _ Hmembers) as (news & Hs1 & Hall).
  set (sec := rel_secondary rel) in *.
  set (old := linked sec parent s1).
  set (removed := List.filter (fun c => negb (mem c ids)) old).
  set (added := List.filter (fun c => negb (mem c old)) ids).
  set (kept := List.filter _ (links sec s1)).
  exists ids, news, (kept ++ map (pair parent) added)%list.
  split; [now rewrite Hs1|]. split.
  - eapply Forall2_impl; [exact Hall|].
    intros [j|] id; simpl; [|auto]. destruct (i_key j); [auto|].
    now rewrite table_set_links.
  - intros x. rewrite linked_In, links_set_links, in_app_iff. split.
    + intros [Hkept|Hadded].
      * apply filter_In in Hkept as [Hlink Hkeep]. simpl in Hkeep.
        rewrite Z.eqb_refl in Hkeep. simpl in Hkeep.
        destruct (mem x ids) eqn:Hx; [now apply mem_In|].
        assert (Hrem : In x removed).
        { apply filter_In. split; [now apply linked_In | now rewrite Hx]. }
        apply mem_In in Hrem. rewrite Hrem in Hkeep. discriminate.
      * apply in_map_iff in Hadded as (y & Heq & Hy). injection Heq as ->.
        now apply filter_In in Hy as [Hy _].
    + intros Hx. destruct (mem x old) eqn:Hold.
      * left. apply filter_In. split; [now apply linked_In, mem_In|].
        simpl. rewrite Z.eqb_refl. simpl.
        destruct (mem x removed) eqn:Hrem; [|reflexivity].
        apply mem_In, filter_In in Hrem as [_ Hrem].
        apply mem_In in Hx. rewrite Hx in Hrem. discriminate.
      * right. apply in_map_iff. exists x. split; [reflexivity|].
        apply filter_In. split; [assumption | now rewrite Hold].
Qed.

(** *** What the nested upserts write *)


Lemma dictionary_of_state (rt : runtime) (c : cls) (i : instance) (s : Store) :
  snd (Controller.dictionary_of rt c i s) = s.
Proof. reflexivity. Qed.


Lemma get_cls (c : cls) (ident : value) (s : Store) (i : instance) :
  get c ident s = Some i -> i_cls i = c.
Proof.
  unfold get. destruct ident; try discriminate.
  destruct (find _ _); [|discriminate]. now intros [= <-].
Qed.








Lemma for_each_pure {A B} (f : A -> M B) :
  (forall a s, snd (f a s) = s) ->
  forall l s bs s',
    for_each f l s = (Ok bs, s') ->
    s' = s /\ Forall2 (fun a b => f a s = (Ok b, s)) l bs.
Proof.
  intros Hf. induction l as [|a l IH]; simpl; intros s bs s' H.
  - injection H as <- <-. auto.
  - apply bind_Ok in H as (b & s1 & Ha & H).
    apply bind_Ok in H as (bs' & s2 & Hl & H). injection H as <- <-.
    assert (s1 = s) as -> by (rewrite <- (Hf a s), Ha; reflexivity).
    destruct (IH _ _ _ Hl) as [-> HP]. auto.
Qed.


Lemma get_single_state (rt : runtime) (c : cls) (id : Z) (s : Store) :
  snd (Controller.get_single rt c id s) = s.
Proof. unfold Controller.get_single. destruct (get c (PInt id) s); reflexivity. Qed.

(** No read shape of a unit has an ["id"] entry. *)
Lemma unit_dictionary_has_no_id (rt : runtime) (i : instance) (s s' : Store)
    (d : read_shape) :
  Controller.dictionary_of rt Unit i s = (Ok d, s') -> dict_get "id" d = None.
Proof.
  unfold Controller.dictionary_of. intros H. injection H as H _.
  unfold Models.dictionary, Models.get_dictionary in H. simpl in H.
  apply get_dictionary_with_keys in H.
  apply (dict_get_hidden _ _ _ _ _ H). simpl. intros [|[|[]]]; discriminate.
Qed.

Lemma units_upsert_has_no_id (rt : runtime) (data : fields) (s s' : Store)
    (d : read_shape) :
  UnitsController.create_or_update rt data s = (Ok d, s') -> dict_get "id" d = None.
Proof.
  unfold UnitsController.create_or_update. intros H.
  apply bind_Ok in H as (item & s1 & _ & H).
  apply bind_Ok in H as (item' & s2 & _ & H).
  apply bind_Ok in H as (id & s3 & _ & H).
  destruct item' as [m|]; [|discriminate].
  destruct (first_by_name Unit _ s3) as [found|]; [|discriminate].
  now apply unit_dictionary_has_no_id in H.
Qed.






Lemma Forall2_Forall_r {A B} (P : A -> B -> Prop) (Q : B -> Prop)
    (la : list A) (lb : list B) :
  (forall a b, P a b -> Q b) -> Forall2 P la lb -> Forall Q lb.
Proof. intros HQ HP. induction HP; constructor; eauto. Qed.



End RecipeSpec.
(** ** Controllers: deletes, the generic writes and the queries *)

Module ControllerMore.
Import Session.
Import ControllerSpec UnitSpec RecipeSpec SerializationDepth.

(** *** Deletes *)

Lemma filter_twice {A} (p q : A -> bool) (l : list A) :
  List.filter p (List.filter q l) = List.filter (fun x => q x && p x) l.
Proof.
  induction l as [|x l IH]; simpl; [reflexivity|].
  destruct (q x); simpl; [destruct (p x)|]; now rewrite IH.
Qed.

(** What deleting recipe items one by one leaves of the tables. *)
Lemma remove_children_spec (items : list Z) (s : Store) :
  ingredient_item_tbl (fold_left (remove_child IngredientItem ingredients) items s)
  = List.filter (fun r => forallb (fun k => negb (has_id k r)) items)
                (ingredient_item_tbl s)
  /\ ingredients_tbl (fold_left (remove_child IngredientItem ingredients) items s)
     = List.filter (fun pc => negb (mem (snd pc) items)) (ingredients_tbl s)
  /\ (forall c, c <> IngredientItem ->
                table c (fold_left (remove_child IngredientItem ingredients) items s)
                = table c s)
  /\ tags_tbl (fold_left (remove_child IngredientItem ingredients) items s)
     = tags_tbl s
  /\ category_tags_tbl (fold_left (remove_child IngredientItem ingredients) items s)
     = category_tags_tbl s.
Proof.
  revert s. induction items as [|k items IH]; intros s.
  - cbn [fold_left]. split; [|split; [|split; [|split]]]; try reflexivity.
    + symmetry. now apply filter_all.
    + symmetry. now apply filter_all.
  - cbn [fold_left].
    destruct (IH (remove_child IngredientItem ingredients s k))
      as (Hrows & Hlinks & Hother & Htags & Hcat).
    rewrite Hrows, Hlinks, Htags, Hcat.
    split; [|split; [|split; [|split]]]; try reflexivity.
    + cbn [remove_child ingredient_item_tbl set_links set_table table].
      rewrite filter_twice. apply List.filter_ext. intros r.
      reflexivity.
    + cbn [remove_child ingredients_tbl set_links set_table links].
      rewrite filter_twice. apply List.filter_ext. intros [p x].
      cbn [mem existsb snd]. now rewrite negb_orb.
    + intros c Hc. rewrite (Hother c Hc). destruct c; try reflexivity.
      now contradiction Hc.
Qed.

Lemma table_delete_commit (c : cls) (id : Z) (s : Store) :
  table c (delete_commit c id s)
  = List.filter (fun r => negb (has_id id r)) (table c s).
Proof.
  destruct c; try reflexivity.
  unfold delete_commit.
  match goal with
  | |- table Recipe (fold_left _ ?items ?s0) = _ =>
      destruct (remove_children_spec items s0) as (_ & _ & Hother & _)
  end.
  now rewrite (Hother Recipe).
Qed.

Lemma find_filter_other (k id : Z) (l : list row) :
  k <> id ->
  find (has_id k) (List.filter (fun r => negb (has_id id r)) l) = find (has_id k) l.
Proof.
  intros Hk. induction l as [|r l IH]; simpl; [reflexivity|].
  destruct (has_id id r) eqn:Hid; simpl.
  - destruct (has_id k r) eqn:Hkr; [|exact IH].
    apply has_id_row_id in Hid, Hkr. congruence.
  - now rewrite IH.
Qed.

(** X7: a delete that succeeds removes the row for good and no other
    row of the table: reading or deleting the id again raises 404 and
    every other id resolves as before. *)
Theorem delete_single_round_trip (rt : runtime) (c : cls) (item_id : Z)
    (s s' : Store) :
  Controller.delete_single c item_id s = (Ok tt, s') ->
  Controller.get_single rt c item_id s' = (Raise (not_found (pretty item_id)), s')
  /\ Controller.delete_single c item_id s' = (Raise (not_found (pretty item_id)), s')
  /\ forall k, k <> item_id -> get c (PInt k) s' = get c (PInt k) s.
Proof.
  unfold Controller.delete_single at 1.
  destruct (get c (PInt item_id) s) as [item|]; [|discriminate].
  intros H. injection H as <-.
  assert (Hgone : get c (PInt item_id) (delete_commit c item_id s) = None).
  { unfold get. rewrite table_delete_commit.
    now rewrite (find_filter_negb (has_id item_id)). }
  split; [|split].
  - unfold Controller.get_single. now rewrite Hgone.
  - unfold Controller.delete_single. now rewrite Hgone.
  - intros k Hk. unfold get. rewrite table_delete_commit.
    now rewrite find_filter_other.
Qed.

Lemma find_all_false {A} (p : A -> bool) (l : list A) :
  (forall x, In x l -> p x = false) -> find p l = None.
Proof.
  induction l as [|x l IH]; simpl; intros H; [reflexivity|].
  rewrite (H x) by auto. apply IH. auto.
Qed.

(** X8: deleting a recipe takes its ingredient-items with it (the
    [delete] cascade of [Recipe.ingredients]) and nothing else: the
    recipe keeps no link, every item it held is gone together with the
    links that mention it, every other item stays, and no tag, ingredient
    or unit row is touched. *)
Theorem recipe_delete_cascades (item_id : Z) (s s' : Store) :
  RecipesController.delete_single item_id s = (Ok tt, s') ->
  linked ingredients item_id s' = []
  /\ linked tags item_id s' = []
  /\ (forall k, In k (linked ingredients item_id s) ->
                get IngredientItem (PInt k) s' = None
                /\ linked_to ingredients k s' = [])
  /\ (forall r, In r (ingredient_item_tbl s) ->
                (forall k, In k (linked ingredients item_id s) -> has_id k r = false) ->
                In r (ingredient_item_tbl s'))
  /\ tag_tbl s' = tag_tbl s
  /\ ingredient_tbl s' = ingredient_tbl s
  /\ unit_tbl s' = unit_tbl s.
Proof.
  unfold RecipesController.delete_single, Controller.delete_single.
  destruct (get Recipe (PInt item_id) s) as [item|]; [|discriminate].
  intros H. injection H as <-.
  set (s0 := mkStore (unit_tbl s) (tag_tbl s) (ingredient_tbl s)
               (ingredient_item_tbl s) (category_tbl s)
               (List.filter (fun r => negb (has_id item_id r)) (recipe_tbl s))
               (List.filter (fun pc => negb (Z.eqb (fst pc) item_id)) (ingredients_tbl s))
               (List.filter (fun pc => negb (Z.eqb (fst pc) item_id)) (tags_tbl s))
               (category_tags_tbl s)).
  change (delete_commit Recipe item_id s)
    with (fold_left (remove_child IngredientItem ingredients)
                    (linked ingredients item_id s) s0).
  destruct (remove_children_spec (linked ingredients item_id s) s0)
    as (Hrows & Hlinks & Hother & Htags & _).
  split; [|split; [|split; [|split; [|split; [|split]]]]].
  - unfold linked at 1. cbn [links]. rewrite Hlinks.
    cbn [ingredients_tbl s0].
    rewrite (filter_none (fun pc => Z.eqb (fst pc) item_id)); [reflexivity|].
    intros pc Hpc. apply List.filter_In in Hpc as [Hpc _].
    apply List.filter_In in Hpc as [_ Hpc]. now apply negb_true_iff in Hpc.
  - unfold linked at 1. cbn [links]. rewrite Htags.
    cbn [tags_tbl s0].
    rewrite (filter_none (fun pc => Z.eqb (fst pc) item_id)); [reflexivity|].
    intros pc Hpc. apply List.filter_In in Hpc as [_ Hpc].
    now apply negb_true_iff in Hpc.
  - intros k Hk. split.
    + unfold get. cbn [table]. rewrite Hrows.
      rewrite find_all_false; [reflexivity|].
      intros r Hr. apply List.filter_In in Hr as [_ Hr].
      rewrite forallb_forall in Hr. specialize (Hr k Hk).
      now apply negb_true_iff in Hr.
    + unfold linked_to. cbn [links]. rewrite Hlinks.
      rewrite (filter_none (fun pc => Z.eqb (snd pc) k)); [reflexivity|].
      intros pc Hpc. apply List.filter_In in Hpc as [_ Hpc].
      apply negb_true_iff in Hpc. apply Z.eqb_neq. intros Heq.
      rewrite Heq in Hpc. apply mem_In in Hk. congruence.
  - intros r Hr Hfree. rewrite Hrows. apply List.filter_In. split; [exact Hr|].
    apply forallb_forall. intros k Hk. now rewrite (Hfree k Hk).
  - exact (Hother Tag ltac:(discriminate)).
  - exact (Hother Ingredient ltac:(discriminate)).
  - exact (Hother Unit ltac:(discriminate)).
Qed.

(** *** The generic writes *)

Lemma setattrs_Some_key (m : model) (d : fields) :
  exists m',
    setattrs (Some m) d = Ok (Some m')
    /\ m_rels m' = m_rels m
    /\ i_cls (m_inst m') = i_cls (m_inst m)
    /\ i_key (m_inst m') = i_key (m_inst m).
Proof.
  revert m. induction d as [|[k v] d IH]; intros m.
  - exists m. auto.
  - rewrite setattrs_Some_cons.
    destruct (IH (setattr m k v)) as (m' & -> & Hr & Hc & Hk).
    exists m'. auto.
Qed.

Lemma find_exists {A} (p : A -> bool) (l : list A) (x : A) :
  In x l -> p x = true -> exists y, find p l = Some y.
Proof.
  intros Hin Hp. destruct (find p l) as [y|] eqn:Hf; [eauto|].
  pose proof (find_none _ _ Hf x Hin). congruence.
Qed.

Lemma has_id_insert (id : Z) (r : row) : has_id id (<["id" := PInt id]> r) = true.
Proof.
  unfold has_id, row_id. rewrite lookup_insert_eq. apply Z.eqb_refl.
Qed.

(** A commit that succeeds leaves a row under the primary key it
    returns. *)
Lemma add_commit_stored (m : model) (s s' : Store) (id : Z) :
  m_rels m = [] ->
  Session.add_commit m s = (Ok id, s') ->
  exists r, get (i_cls (m_inst m)) (PInt id) s'
            = Some (Instance (i_cls (m_inst m)) (Some id) r).
Proof.
  unfold Session.add_commit. intros ->. simpl.
  destruct (flush_instance (m_inst m) s) as [[id' s1]|e] eqn:Hflush; simpl;
    [|discriminate].
  intros H. injection H as <- <-.
  enough (exists r, find (has_id id') (table (i_cls (m_inst m)) s1) = Some r)
    as [r Hr] by (exists r; unfold get; now rewrite Hr).
  unfold flush_instance in Hflush.
  destruct (i_key (m_inst m)) as [k|].
  - destruct (find (has_id k) (table (i_cls (m_inst m)) s)) as [old|] eqn:Hold;
      [|discriminate].
    apply rbind_Ok in Hflush as (z & _ & Hflush).
    apply rbind_Ok in Hflush as ([] & _ & Hflush). injection Hflush as <- <-.
    rewrite table_set_table.
    apply find_some in Hold as [Hin Hk].
    apply (find_exists _ _ (<["id" := PInt z]>
                              (update_values (i_cls (m_inst m)) old (i_attrs (m_inst m))))).
    + apply List.in_map_iff. exists old. rewrite Hk. auto.
    + apply has_id_insert.
  - apply rbind_Ok in Hflush as (z & _ & Hflush).
    apply rbind_Ok in Hflush as ([] & _ & Hflush). injection Hflush as <- <-.
    rewrite table_set_table.
    apply (find_exists _ _ (<["id" := PInt z]>
                              (insert_values (i_cls (m_inst m)) (i_attrs (m_inst m))))).
    + apply List.in_or_app. right. simpl. auto.
    + apply has_id_insert.
Qed.

(** X9: a create through the default merge routine that succeeds
    appends exactly one row to the table of its class, under a primary
    key no row had, touches no other table, and returns what reading the
    new id returns. *)
Theorem create_appends_fresh_row (rt : runtime) (c : cls) (data : fields)
    (s s' : Store) (shape : read_shape) :
  Controller.create rt c Controller._fill_model data s = (Ok shape, s') ->
  exists id r,
    s' = set_table c (table c s ++ [r]) s
    /\ row_id r = Some id
    /\ (forall x, In x (table c s) -> has_id id x = false)
    /\ Controller.get_single rt c id s' = (Ok shape, s').
Proof.
  unfold Controller.create. intros H.
  apply bind_Ok in H as (m & s1 & Hfill & H).
  apply bind_Ok in H as (id & s2 & Hcommit & H).
  unfold Controller._fill_model, lift in Hfill.
  destruct (setattrs_Some_key (new_model c) (exclude_none data))
    as (m' & Hset & Hrels & Hcls & Hkey).
  rewrite Hset in Hfill. injection Hfill as <- <-.
  simpl in Hrels, Hcls, Hkey.
  unfold add_and_commit, Session.add_commit in Hcommit. rewrite Hrels in Hcommit.
  simpl in Hcommit.
  destruct (flush_instance (m_inst m') s) as [[id' s1]|e] eqn:Hflush;
    simpl in Hcommit; [|discriminate].
  injection Hcommit as <- <-.
  apply flush_instance_insert in Hflush as [Hs1 Hfresh]; [|exact Hkey].
  rewrite Hcls in Hs1, Hfresh.
  assert (s' = s1) as ->.
  { rewrite <- (get_single_state rt c id' s1), H. reflexivity. }
  exists id', (inserted_row c id' (i_attrs (m_inst m'))).
  split; [exact Hs1|]. split; [|split; [exact Hfresh | exact H]].
  pose proof (row_id_inserted_row c id' (i_attrs (m_inst m'))) as Hid.
  now apply has_id_row_id in Hid.
Qed.

(** X10: create-or-update with a payload whose id is falsy (absent,
    [None] or 0) is the create operation, on every database and whatever
    the outcome. *)
Theorem create_or_update_without_id_creates (rt : runtime) (c : cls)
    (data : fields) (s : Store) :
  truthy (getattr_or_none data "id") = false ->
  Controller.create_or_update rt c Controller._fill_model (fun d => d) data s
  = Controller.create rt c Controller._fill_model data s.
Proof.
  intros Hid. unfold Controller.create_or_update, Controller.create. rewrite Hid.
  unfold bind, Controller._fill_model, lift.
  destruct (setattrs_Some_key (new_model c) (exclude_none data))
    as (m' & -> & Hrels & Hcls & _).
  simpl in Hrels, Hcls. unfold add_and_commit.
  destruct (Session.add_commit m' s) as [[id|e] s1] eqn:Hcommit; [|reflexivity].
  destruct (add_commit_stored m' s s1 id Hrels Hcommit) as [r Hr].
  rewrite Hcls in Hr. unfold Controller.get_single. now rewrite Hr.
Qed.

(** X11: create-or-update with a payload whose id resolves is the update
    of that id, on every database and whatever the outcome. *)
Theorem create_or_update_with_id_updates (rt : runtime) (c : cls)
    (data : fields) (item_id : Z) (s : Store) :
  getattr_or_none data "id" = PInt item_id ->
  item_id <> 0 ->
  get c (PInt item_id) s <> None ->
  Controller.create_or_update rt c Controller._fill_model (fun d => d) data s
  = Controller.update rt c Controller._fill_model (fun d => d) item_id data s.
Proof.
  intros Hid Hnz Hget. unfold Controller.create_or_update, Controller.update.
  rewrite Hid. simpl truthy.
  replace (negb (item_id =? 0)%Z) with true
    by (symmetry; apply negb_true_iff; now apply Z.eqb_neq).
  destruct (get c (PInt item_id) s) as [item|] eqn:Hitem; [|contradiction].
  simpl option_map. unfold bind, Controller._fill_model, lift.
  destruct (setattrs_Some_key (Model item []) (exclude_none data))
    as (m' & -> & Hrels & Hcls & _).
  simpl in Hrels, Hcls. rewrite (get_cls _ _ _ _ Hitem) in Hcls.
  unfold add_and_commit.
  destruct (Session.add_commit m' s) as [[id|e] s1] eqn:Hcommit; [|reflexivity].
  destruct (add_commit_stored m' s s1 id Hrels Hcommit) as [r Hr].
  rewrite Hcls in Hr. unfold Controller.get_single. now rewrite Hr.
Qed.

(** *** Listing *)

Lemma for_each_map_pure {A B C} (f : A -> M C) (g : B -> M C) (h : A -> B)
    (l : list A) (s : Store) :
  (forall a, snd (f a s) = s) ->
  (forall a, In a l -> f a s = g (h a) s) ->
  for_each f l s = for_each g (map h l) s.
Proof.
  intros Hpure. induction l as [|a l IH]; intros Hfg; [reflexivity|].
  simpl. unfold bind. rewrite <- (Hfg a) by (simpl; auto).
  pose proof (Hpure a) as Ha.
  destruct (f a s) as [[b|e] s1]; simpl in Ha; subst s1; [|reflexivity].
  rewrite IH; [reflexivity|]. intros a' Ha'. apply Hfg. simpl. auto.
Qed.

Lemma find_unique_id (l : list row) (r : row) (k : Z) :
  NoDup (map row_id l) -> In r l -> row_id r = Some k ->
  find (has_id k) l = Some r.
Proof.
  induction l as [|x l IH]; simpl; intros Hnd Hin Hk; [contradiction|].
  apply NoDup_cons in Hnd as [Hx Hnd].
  destruct Hin as [->|Hin].
  - now rewrite (proj2 (has_id_row_id k r) Hk).
  - destruct (has_id k x) eqn:Hkx; [|now apply IH].
    exfalso. apply Hx. apply has_id_row_id in Hkx. rewrite Hkx, <- Hk.
    apply list_elem_of_In. now apply in_map.
Qed.

(** X12: when every row of the table has a primary key of its own, the
    listing is the single read of every stored id, in table order:
    [get_all] returns what [get_single] returns id by id, and fails
    where the first of them fails. *)
Theorem get_all_reads_every_id (rt : runtime) (c : cls) (s : Store) :
  Forall (fun r => is_Some (row_id r)) (table c s) ->
  NoDup (map row_id (table c s)) ->
  Controller.get_all rt c s
  = for_each (Controller.get_single rt c) (omap row_id (table c s)) s.
Proof.
  intros Hids Hnd. unfold Controller.get_all.
  assert (Hmap : omap row_id (table c s)
                 = map (fun r => default 0 (row_id r)) (table c s)).
  { clear Hnd. revert Hids. generalize (table c s) as l.
    induction l as [|r l IH]; intros Hids; [reflexivity|].
    apply Forall_cons in Hids as [[k Hk] Hl].
    cbn [omap list_omap map]. rewrite Hk. simpl. f_equal. now apply IH. }
  rewrite Hmap. apply for_each_map_pure; [reflexivity|].
  intros r Hr. rewrite List.Forall_forall in Hids.
  destruct (Hids r Hr) as [k Hk]. rewrite Hk. simpl.
  unfold Controller.get_single, get.
  now rewrite (find_unique_id _ r k Hnd Hr Hk).
Qed.

(** *** Categories *)

Lemma resolve_tag_state (rt : runtime) (tag : fields) (s : Store) :
  snd (CategoriesController.resolve_tag rt tag s) = s.
Proof.
  unfold CategoriesController.resolve_tag.
  destruct (attr_of tag "id") as [id|e]; [|reflexivity].
  destruct (get Tag id s); reflexivity.
Qed.

Lemma resolve_tag_Ok (rt : runtime) (tag : fields) (s s' : Store)
    (m : option instance) :
  CategoriesController.resolve_tag rt tag s = (Ok m, s') ->
  exists id r,
    attr_of tag "id" = Ok (PInt id)
    /\ get Tag (PInt id) s = Some (Instance Tag (Some id) r)
    /\ m = Some (Instance Tag (Some id) r).
Proof.
  unfold CategoriesController.resolve_tag.
  destruct (attr_of tag "id") as [id|e]; [|discriminate].
  destruct (get Tag id s) as [item|] eqn:Hget.
  - intros H. injection H as <- <-.
    unfold get in Hget. destruct id; try discriminate.
    destruct (find (has_id z) (table Tag s)) as [r|] eqn:Hfind; [|discriminate].
    injection Hget as <-. exists z, r. repeat split.
    unfold get. now rewrite Hfind.
  - destruct (Models.py_str _ _ _ _ id); discriminate.
Qed.

(** Members that all have a row are flushed without a write. *)
Lemma flush_members_keyed (members : list (option instance)) (ids : list Z)
    (s : Store) :
  Forall2 (fun m id => exists i, m = Some i /\ i_key i = Some id) members ids ->
  flush_members members s = Ok (ids, s).
Proof.
  induction 1 as [|m id members ids (i & -> & Hk) _ IH]; [reflexivity|].
  simpl. rewrite Hk. simpl. rewrite IH. reflexivity.
Qed.

Lemma category_write (rt : runtime) (data : CreateOrUpdateCategory) (m0 : model)
    (s s' : Store) (shape : read_shape) :
  m_rels m0 = [] ->
  i_cls (m_inst m0) = Category ->
  (m <~ CategoriesController._fill_model rt (Some m0) data ;;
   id <~ add_and_commit m ;;
   Controller.get_single rt Category id) s = (Ok shape, s') ->
  exists rid tag_ids,
    Controller.get_single rt Category rid s' = (Ok shape, s')
    /\ Forall2 (fun tag id => attr_of tag "id" = Ok (PInt id)
                              /\ get Tag (PInt id) s <> None)
               (category_tag_list data) tag_ids
    /\ (forall x, In x (linked category_tags rid s') <-> In x tag_ids)
    /\ tag_tbl s' = tag_tbl s
    /\ tags_tbl s' = tags_tbl s.
Proof.
  intros Hrels Hcls H.
  apply bind_Ok in H as (m & s1 & Hfill & H).
  apply bind_Ok in H as (rid & s2 & Hcommit & Hread).
  assert (s' = s2) as ->
    by (rewrite <- (get_single_state rt Category rid s2), Hread; reflexivity).
  (* the merge routine *)
  unfold CategoriesController._fill_model in Hfill.
  apply bind_Ok in Hfill as (members & s0 & Hresolve & Hfill).
  apply (for_each_pure _ (resolve_tag_state rt)) in Hresolve as [-> Hmembers].
  apply bind_Ok in Hfill as (m1 & s0 & Hset & Hfill).
  destruct (setattrs_Some_key m0 (exclude_none (category_fields data)))
    as (m1' & Hset' & Hrels1 & Hcls1 & _).
  unfold lift in Hset. rewrite Hset' in Hset. injection Hset as <- <-.
  injection Hfill as <- <-.
  rewrite Hrels in Hrels1. rewrite Hcls in Hcls1.
  assert (Hkeys : exists tag_ids,
             Forall2 (fun tag id => attr_of tag "id" = Ok (PInt id)
                                    /\ get Tag (PInt id) s <> None)
                     (category_tag_list data) tag_ids
             /\ Forall2 (fun m id => exists i, m = Some i /\ i_key i = Some id
                                               /\ i_cls i = Tag)
                        members tag_ids).
  { clear -Hmembers. induction Hmembers as [|tag m tags members Hm _ IH].
    - exists []. split; constructor.
    - destruct IH as (ids & H1 & H2).
      apply resolve_tag_Ok in Hm as (id & r & Hattr & Hget & ->).
      exists (id :: ids). split; constructor; auto.
      + split; [assumption|]. now rewrite Hget.
      + eauto. }
  destruct Hkeys as (tag_ids & Hpayload & Hkeyed).
  exists rid, tag_ids. split; [assumption|]. split; [assumption|].
  (* the commit *)
  unfold add_and_commit, Session.add_commit in Hcommit.
  destruct (rbind _ _) as [[rid' s2']|e] eqn:Hflush in Hcommit; [|discriminate].
  injection Hcommit as -> ->.
  apply rbind_Ok in Hflush as ([rid' sa] & Hroot & Hflush).
  apply rbind_Ok in Hflush as (sc & Hcols & Hret). injection Hret as -> ->.
  simpl fst in *. simpl snd in *.
  unfold set_collection in Hcols, Hroot. simpl in Hcols, Hroot.
  rewrite Hrels1 in Hcols. rewrite Hcls1 in Hcols. simpl in Hcols.
  apply rbind_Ok in Hcols as (sb & Hcol & Hret). injection Hret as ->.
  destruct (flush_instance_frame _ _ _ _ Hroot) as (tr & Hsa).
  rewrite Hcls1 in Hsa.
  pose proof Hcol as Hcol'.
  apply flush_collection_spec in Hcol'
    as (ids & news & links' & _ & Hstored & Hlinked); [|reflexivity|reflexivity|].
  2:{ clear -Hkeyed.
      induction Hkeyed as [|m id ? ? (i & -> & _ & Hc) _ IH]; constructor;
        [intros j [= <-]; exact Hc | exact IH]. }
  assert (ids = tag_ids) as ->.
  { clear -Hstored Hkeyed. revert ids Hstored.
    induction Hkeyed as [|m id members tag_ids (i & -> & Hk & _) _ IH];
      intros ids Hstored; inversion Hstored as [|? id' ? ids' Hm Hrest]; subst;
      [reflexivity|].
    simpl in Hm. rewrite Hk in Hm. subst id'. f_equal. now apply IH. }
  split; [exact Hlinked|].
  unfold flush_collection in Hcol. simpl in Hcol.
  rewrite (flush_members_keyed members tag_ids) in Hcol.
  2:{ eapply Forall2_impl; [exact Hkeyed|]. intros m id (i & -> & Hk & _). eauto. }
  simpl in Hcol. destruct (negb (distinct _)); [discriminate|].
  injection Hcol as <-. rewrite Hsa. split; reflexivity.
Qed.

(** X13: a category create or update that succeeds links the category
    to exactly the tags the payload names by id, each of them stored
    before the call, and writes no tag: no tag row is created, renamed
    or removed and the tags of the recipes are as before. *)
Theorem category_write_links_payload_tags (rt : runtime)
    (data : CreateOrUpdateCategory) (item_id : Z) (s s' : Store)
    (shape : read_shape) :
  CategoriesController.update rt item_id data s = (Ok shape, s')
  \/ CategoriesController.create rt data s = (Ok shape, s') ->
  exists rid tag_ids,
    Controller.get_single rt Category rid s' = (Ok shape, s')
    /\ Forall2 (fun tag id => attr_of tag "id" = Ok (PInt id)
                              /\ get Tag (PInt id) s <> None)
               (category_tag_list data) tag_ids
    /\ (forall x, In x (linked category_tags rid s') <-> In x tag_ids)
    /\ tag_tbl s' = tag_tbl s
    /\ tags_tbl s' = tags_tbl s.
Proof.
  intros [Hupdate|Hcreate].
  - unfold CategoriesController.update, Controller.update in Hupdate.
    destruct (get Category (PInt item_id) s) as [item|] eqn:Hget.
    + apply (category_write rt data (Model item [])); [reflexivity| |assumption].
      exact (get_cls _ _ _ _ Hget).
    + apply bind_Ok in Hupdate as (id & s1 & _ & Hraise). discriminate.
  - apply (category_write rt data (new_model Category)); [reflexivity|reflexivity|].
    exact Hcreate.
Qed.

(** *** Constraints *)

Lemma check_row_Unit_taken (k : Z) (r r2 : row) (others : list row) (n : string) :
  cell r "name" = PStr n ->
  (forall x, In x others -> has_id k x = false) ->
  In r2 others -> cell r2 "name" = PStr n ->
  check_row Unit k r others = Raise (IntegrityError "UNIQUE constraint failed").
Proof.
  intros Hname Hids Hin Hname2.
  unfold check_row, not_null_ok, primary_key_ok, unique_ok.
  simpl. rewrite Hname. simpl.
  assert (H1 : existsb (has_id k) others = false).
  { apply not_true_is_false. intros H. apply existsb_exists in H as (x & Hx & Hid).
    rewrite (Hids x Hx) in Hid. discriminate. }
  assert (H2 : existsb (fun r' => value_eqb (cell r' "name") (PStr n)) others = true).
  { apply existsb_exists. exists r2. split; [assumption|]. rewrite Hname2. simpl.
    apply String.eqb_refl. }
  rewrite H1, H2. reflexivity.
Qed.

(** X14: the name of a unit stays unique.  Where another unit has the
    name, renaming a unit through the id path of the upsert and creating
    a unit of that name are both refused with an integrity error, and
    the database is left as it was. *)
Theorem unit_name_stays_unique (rt : runtime) (s : Store) (item_id : Z)
    (r r2 : row) (n : string) (g : value) :
  item_id <> 0 ->
  find (has_id item_id) (unit_tbl s) = Some r ->
  In r2 (unit_tbl s) ->
  has_id item_id r2 = false ->
  cell r2 "name" = PStr n ->
  UnitsController.create_or_update rt
    [("id", PInt item_id); ("name", PStr n); ("grams", g)] s
  = (Raise (IntegrityError "UNIQUE constraint failed"), s)
  /\ UnitsController.create rt [("id", PNone); ("name", PStr n); ("grams", g)] s
     = (Raise (IntegrityError "UNIQUE constraint failed"), s).
Proof.
  intros Hnz Hfind Hin Hother Hname. split.
  - unfold UnitsController.create_or_update.
    change (getattr_or_none [("id", PInt item_id); ("name", PStr n); ("grams", g)] "id")
      with (PInt item_id).
    simpl truthy.
    replace (negb (item_id =? 0)%Z) with true
      by (symmetry; apply negb_true_iff; now apply Z.eqb_neq).
    unfold get. cbn [table]. rewrite Hfind. simpl option_map.
    unfold bind, lift. simpl.
    unfold Session.add_commit, flush_instance. simpl. rewrite Hfind.
    pose proof (find_some _ _ Hfind) as [_ Hid].
    apply has_id_row_id, row_id_lookup in Hid.
    rewrite !lookup_insert_ne by discriminate. rewrite Hid. simpl.
    rewrite (check_row_Unit_taken item_id _ r2 _ n); [reflexivity| | | |assumption].
    + unfold cell. rewrite lookup_insert_ne by discriminate.
      unfold update_values. simpl. rewrite lookup_insert_eq.
      rewrite lookup_insert_ne by discriminate. now rewrite lookup_insert_eq.
    + intros x Hx. apply List.filter_In in Hx as [_ Hx]. now apply negb_true_iff in Hx.
    + apply List.filter_In. split; [assumption|]. now rewrite Hother.
  - unfold UnitsController.create, Controller.create, Controller._fill_model.
    unfold bind, lift.
    assert (Hcommit : forall attrs,
               attrs !! "id" = None -> attrs !! "name" = Some (PStr n) ->
               Session.add_commit (Model (Instance Unit None attrs) []) s
               = (Raise (IntegrityError "UNIQUE constraint failed"), s)).
    { intros attrs Hid Hn. unfold Session.add_commit, flush_instance. simpl.
      rewrite Hid. simpl.
      rewrite (check_row_Unit_taken _ _ r2 _ n); [reflexivity| | | |assumption].
      - unfold cell. rewrite lookup_insert_ne by discriminate.
        unfold insert_values. simpl. rewrite lookup_insert_eq. now rewrite Hn.
      - intros x Hx. now apply next_id_fresh.
      - assumption. }
    destruct g; simpl; unfold setattr, new_model; simpl; rewrite Hcommit;
      try reflexivity;
      rewrite ?lookup_insert_ne by discriminate;
      try (now rewrite lookup_insert_eq); apply lookup_empty.
Qed.

(** X15: the name of a unit, a tag and an ingredient is mandatory.  A
    create whose payload gives no name (absent or [None]) is refused
    with an integrity error and stores nothing. *)
Theorem create_without_name_is_refused (rt : runtime) (c : cls) (data : fields)
    (s : Store) :
  In c [Unit; Tag; Ingredient] ->
  (forall v, In ("name", v) data -> v = PNone) ->
  exists msg,
    Controller.create rt c Controller._fill_model data s
    = (Raise (IntegrityError msg), s).
Proof.
  intros Hc Hname.
  unfold Controller.create, Controller._fill_model, bind, lift.
  destruct (setattrs_Some_key (new_model c) (exclude_none data))
    as (m' & Hset & Hrels & Hcls & Hkey).
  assert (Hattr : i_attrs (m_inst m') !! "name" = None).
  { assert (Hgen : forall d m m1,
               (forall v, In ("name", v) d -> False) ->
               setattrs (Some m) d = Ok (Some m1) ->
               i_attrs (m_inst m1) !! "name" = i_attrs (m_inst m) !! "name").
    { induction d as [|[k v] d IH]; intros m m1 Hd Hs.
      - injection Hs as <-. reflexivity.
      - rewrite setattrs_Some_cons in Hs.
        assert (Hd' : forall v', In ("name", v') d -> False)
          by (intros v' Hv'; apply (Hd v'); simpl; auto).
        rewrite (IH _ _ Hd' Hs).
        simpl. apply lookup_insert_ne. intros ->. apply (Hd v). simpl. auto. }
    assert (Hfree : forall v, In ("name", v) (exclude_none data) -> False).
    { intros v Hv. apply List.filter_In in Hv as [Hv Hnn].
      rewrite (Hname v Hv) in Hnn. discriminate. }
    rewrite (Hgen _ _ _ Hfree Hset). apply lookup_empty. }
  rewrite Hset. simpl in Hrels, Hcls, Hkey.
  unfold add_and_commit, Session.add_commit, flush_instance.
  rewrite Hrels, Hkey, Hcls.
  assert (Hnull : forall id,
             check_row c id (<["id" := PInt id]> (insert_values c (i_attrs (m_inst m'))))
                       (table c s)
             = Raise (IntegrityError "NOT NULL constraint failed")).
  { intros id. unfold check_row.
    replace (not_null_ok c _) with false; [reflexivity|].
    symmetry. unfold not_null_ok, cell.
    destruct Hc as [<-|[<-|[<-|[]]]]; simpl;
      rewrite lookup_insert_ne by discriminate;
      unfold insert_values; cbn [fold_right columns col_name];
      rewrite lookup_insert_eq, Hattr; reflexivity. }
  destruct (i_attrs (m_inst m') !! "id") as [[]|]; simpl;
    rewrite ?Hnull; simpl; eauto.
Qed.

(** *** Units in read shapes *)

(** X16: no read shape of a unit carries the primary key of the unit:
    [Unit.__items__] lists the name and the grams only, so what the
    upsert and the single read return has no ["id"] entry. *)
Theorem unit_shape_has_no_id (rt : runtime) (data : fields) (item_id : Z)
    (s s' : Store) (d : read_shape) :
  UnitsController.create_or_update rt data s = (Ok d, s')
  \/ UnitsController.get_single rt item_id s = (Ok d, s') ->
  dict_get "id" d = None.
Proof.
  intros [H|H].
  - now apply units_upsert_has_no_id in H.
  - unfold UnitsController.get_single, Controller.get_single in H.
    destruct (get Unit (PInt item_id) s) as [i|]; [|discriminate].
    now apply unit_dictionary_has_no_id in H.
Qed.

(** X17: every ingredient-item a recipe write builds gets the same
    [unit_id], whichever unit its payload line names: the id the read
    schema holds when its dictionary has no ["id"] entry. *)
Theorem built_items_share_unit_id (rt : runtime) (data : CreateOrUpdateRecipe)
    (s s1 : Store) (ui ut : list (option instance)) :
  RecipesController._get_ingredients_and_tags rt data s = (Ok (ui, ut), s1) ->
  Forall (fun m => exists i, m = Some i
                             /\ i_attrs i !! "unit_id" = Some (read_id rt None))
         ui.
Proof.
  unfold RecipesController._get_ingredients_and_tags. intros H.
  apply bind_Ok in H as (ui' & s2 & Hitems & H).
  apply bind_Ok in H as (ut' & s3 & _ & H). injection H as <- _ _.
  apply (for_each_Ok _ (fun _ _ => True)
           (fun (_ : IngredientItemData) m =>
              exists i, m = Some i
                        /\ i_attrs i !! "unit_id" = Some (read_id rt None)))
    in Hitems as [_ Hitems]; [|auto|auto|].
  - eapply Forall2_Forall_r; [|exact Hitems]. auto.
  - intros line sa m sb Hline. split; [exact I|].
    apply bind_Ok in Hline as (inst & sc & _ & Hline).
    apply bind_Ok in Hline as (u & sd & Hu & Hline).
    apply bind_Ok in Hline as (i & se & _ & Hline).
    injection Hline as <- _.
    apply units_upsert_has_no_id in Hu. rewrite Hu.
    eexists. split; [reflexivity|]. simpl.
    rewrite lookup_insert_ne by discriminate. apply lookup_insert_eq.
Qed.

(** *** The recipe queries *)

(** X18: recipes by category never answers 404.  For an id that is not
    an integer, an id no category has and a category without stored
    tags the answer is the empty list, and [tag.recipes] is not read. *)
Theorem get_by_category_without_tags (rt : runtime)
    (tag_recipes : row -> Store -> result (list row)) (category_id : value)
    (s : Store) :
  (forall k, category_id = PInt k ->
             get Category (PInt k) s = None
             \/ RecipeQueries.category_tag_rows k s = []) ->
  RecipeQueries.get_by_category rt tag_recipes category_id s = (Ok [], s).
Proof.
  intros H. unfold RecipeQueries.get_by_category.
  destruct (get Category category_id s) as [cat|] eqn:Hget; [|reflexivity].
  unfold get in Hget. destruct category_id as [| | k | | | |]; try discriminate.
  destruct (H k eq_refl) as [Hnone|Htags].
  - unfold get in Hnone. rewrite Hnone in Hget. discriminate.
  - destruct (find (has_id k) (table Category s)); [|discriminate].
    injection Hget as <-. simpl. now rewrite Htags.
Qed.

(** X19: filtering the recipes by nothing is the listing: without a
    keyword the query is accepted and returns, on every database, what
    [get_all] returns. *)
Theorem get_all_and_filter_without_filters (rt : runtime)
    (sql_eq : string -> value -> option (value -> bool)) :
  exists query,
    RecipeQueries.get_all_and_filter rt sql_eq [] = Some query
    /\ forall s, query s = Controller.get_all rt Recipe s.
Proof.
  eexists. split; [reflexivity|]. intros s. simpl.
  unfold Controller.get_all. f_equal.
  apply filter_all. reflexivity.
Qed.

Lemma for_each_filter {A B} (f : A -> M B) (p : A -> bool) (l : list A)
    (bs : list B) (s : Store) :
  (forall a s0, snd (f a s0) = s0) ->
  Forall2 (fun a b => f a s = (Ok b, s)) l bs ->
  for_each f (List.filter p l) s
  = (Ok (map snd (List.filter (fun ab => p (fst ab)) (combine l bs))), s).
Proof.
  intros Hpure. induction 1 as [|a b l bs Hab _ IH]; [reflexivity|].
  simpl. destruct (p a); [|exact IH].
  simpl. unfold bind. rewrite Hab, IH. reflexivity.
Qed.

(** X20: filtering selects from the listing.  Where the listing
    succeeds, every query the query builder and the database accept
    succeeds too and returns, in table order, the shapes of the listing
    whose rows pass the database's test for every keyword. *)
Theorem get_all_and_filter_selects (rt : runtime)
    (sql_eq : string -> value -> option (value -> bool)) (filters : fields)
    (query : M (list read_shape)) (s s' : Store) (shapes : list read_shape) :
  RecipeQueries.get_all_and_filter rt sql_eq filters = Some query ->
  Controller.get_all rt Recipe s = (Ok shapes, s') ->
  query s
  = (Ok (map snd (List.filter
                    (fun rb => RecipeQueries.row_matches sql_eq filters (fst rb))
                    (combine (recipe_tbl s) shapes))), s).
Proof.
  unfold RecipeQueries.get_all_and_filter. intros Hquery Hall.
  destruct (RecipeQueries.valid_filters Recipe filters
            && RecipeQueries.bound_filters sql_eq filters); [|discriminate].
  injection Hquery as <-.
  unfold Controller.get_all in Hall.
  apply for_each_pure in Hall as [_ Hall]; [|reflexivity].
  now apply for_each_filter.
Qed.

(** *** The unit upsert by id *)

(** X21: unlike the default merge routine, the unit upsert assigns the
    fields of the payload that hold [None] too.  By id, a payload
    without a name is refused by the NOT NULL constraint, and a payload
    without grams sets the stored grams to NULL, in place, which the
    returned shape shows. *)
Theorem unit_upsert_by_id_writes_none (rt : runtime) (s : Store) (item_id : Z)
    (r : row) (n : string) :
  units_ok s ->
  item_id <> 0 ->
  find (has_id item_id) (unit_tbl s) = Some r ->
  name_of r = Some n ->
  (forall g,
      UnitsController.create_or_update rt
        [("id", PInt item_id); ("name", PNone); ("grams", g)] s
      = (Raise (IntegrityError "NOT NULL constraint failed"), s))
  /\ exists d s' r',
       UnitsController.create_or_update rt
         [("id", PInt item_id); ("name", PStr n); ("grams", PNone)] s
       = (Ok d, s')
       /\ find (has_id item_id) (unit_tbl s') = Some r'
       /\ cell r' "grams" = PNone
       /\ dict_get "grams" d = Some JNone
       /\ length (unit_tbl s') = length (unit_tbl s).
Proof.
  intros Hok Hnz Hfind Hn.
  assert (Htruthy : negb (item_id =? 0)%Z = true)
    by (apply negb_true_iff; now apply Z.eqb_neq).
  pose proof (find_some _ _ Hfind) as [_ Hr].
  pose proof (proj1 (has_id_row_id _ _) Hr) as Hk.
  pose proof (row_id_lookup _ _ Hk) as Hid.
  split.
  - intros g. unfold UnitsController.create_or_update.
    change (getattr_or_none [("id", PInt item_id); ("name", PNone); ("grams", g)] "id")
      with (PInt item_id).
    simpl truthy. rewrite Htruthy.
    unfold get. cbn [table]. rewrite Hfind. simpl option_map.
    unfold bind, lift. simpl.
    unfold Session.add_commit, flush_instance. simpl. rewrite Hfind.
    rewrite !lookup_insert_ne by discriminate. rewrite Hid. simpl.
    unfold check_row.
    replace (not_null_ok Unit _) with false; [reflexivity|].
    symmetry. unfold not_null_ok, cell. simpl.
    rewrite lookup_insert_ne by discriminate.
    unfold update_values. simpl. rewrite lookup_insert_eq.
    rewrite lookup_insert_ne by discriminate. now rewrite lookup_insert_eq.
  - destruct (find_split _ _ _ Hfind) as (before & after & Ht & _ & Hbefore).
    destruct (units_ok_middle s before after r Hok Ht) as (k' & n' & Hk' & Hn' & Hothers).
    assert (k' = item_id) as -> by congruence.
    assert (n' = n) as -> by congruence.
    set (attrs := <["grams" := PNone]> (<["name" := PStr n]> r)).
    set (r' := <["id" := PInt item_id]> (update_values Unit r attrs)).
    set (s' := set_table Unit (before ++ r' :: after) s).
    assert (Hname' : cell r' "name" = PStr n).
    { unfold r', cell. rewrite lookup_insert_ne by discriminate.
      unfold update_values. simpl. rewrite lookup_insert_eq.
      unfold attrs. rewrite lookup_insert_ne by discriminate.
      now rewrite lookup_insert_eq. }
    assert (Hgrams' : cell r' "grams" = PNone).
    { unfold r', cell. rewrite lookup_insert_ne by discriminate.
      unfold update_values. simpl. rewrite lookup_insert_ne by discriminate.
      rewrite lookup_insert_eq. unfold attrs. now rewrite lookup_insert_eq. }
    assert (Hid' : row_id r' = Some item_id).
    { unfold r', row_id. now rewrite lookup_insert_eq. }
    destruct (unit_dictionary rt (Some item_id) r' s' n Hname' (or_introl Hgrams'))
      as (d & Hd & _).
    exists d, s', r'.
    assert (Hfind' : find (has_id item_id) (unit_tbl s') = Some r').
    { unfold s'. cbn [unit_tbl set_table]. apply find_middle.
      - intros y Hy. apply Hothers, in_or_app. now left.
      - now apply has_id_row_id. }
    split; [|split; [exact Hfind'|split; [exact Hgrams'|split]]].
    + unfold UnitsController.create_or_update.
      change (getattr_or_none [("id", PInt item_id); ("name", PStr n); ("grams", PNone)] "id")
        with (PInt item_id).
      simpl truthy. rewrite Htruthy.
      unfold get. cbn [table]. rewrite Hfind. simpl option_map.
      unfold bind, lift. simpl.
      change (Session.add_commit _ s)
        with (Session.add_commit (Model (Instance Unit (Some item_id) attrs) []) s).
      rewrite (commit_unit_update s before after r item_id n attrs Ht Hk Hothers).
      * fold r'. fold s'. unfold first_by_name. cbn [table].
        assert (Hattrs : cell attrs "name" = PStr n).
        { unfold attrs, cell. rewrite lookup_insert_ne by discriminate.
          now rewrite lookup_insert_eq. }
        fold attrs. rewrite Hattrs.
        unfold s' at 1. cbn [unit_tbl set_table].
        rewrite (find_middle (fun r0 => value_eqb (cell r0 "name") (PStr n))
                   before after r').
        -- rewrite Hid'. exact Hd.
        -- intros y Hy. apply Hothers, in_or_app. now left.
        -- rewrite Hname'. simpl. apply String.eqb_refl.
      * unfold attrs. now rewrite !lookup_insert_ne by discriminate.
      * unfold r', cell in Hname'. now rewrite lookup_insert_ne in Hname' by discriminate.
    + unfold Controller.dictionary_of in Hd. injection Hd as Hd.
      unfold Models.dictionary in Hd.
      destruct (SerializationSpec.get_dictionary_field _ _ _ _ Unit
                  (column_attrs Unit r') 99 [] d "grams" PNone Hd)
        as (j & Hj & Hget).
      * simpl. auto.
      * reflexivity.
      * unfold column_attrs. simpl. now rewrite Hgrams'.
      * simpl in Hj. injection Hj as <-. exact Hget.
    + unfold s'. cbn [unit_tbl set_table]. rewrite Ht.
      rewrite !length_app. reflexivity.
Qed.

(** *** Operations that cannot fail *)

(** X23: creating a tag with a name cannot fail.  On every database the
    create stores one new row that holds the name and returns the shape
    of that row; tag names need not be unique. *)
Theorem tag_create_succeeds (rt : runtime) (n : string) (s : Store) :
  exists id,
    TagController.create rt [("id", PNone); ("name", PStr n)] s
    = (Ok [("name",
            match float_of_str rt n with Some f => JFloat f | None => JStr n end)],
       set_table Tag (tag_tbl s ++ [{[ "id" := PInt id; "name" := PStr n ]}]) s)
    /\ forall x, In x (tag_tbl s) -> has_id id x = false.
Proof.
  set (id := next_id (tag_tbl s)).
  set (r := <["id" := PInt id]> (insert_values Tag (<["name" := PStr n]> ∅))).
  assert (Hr : r = {[ "id" := PInt id; "name" := PStr n ]}).
  { unfold r, insert_values. cbn [fold_right columns col_name col_default].
    rewrite (lookup_insert_eq (M := gmap string)). reflexivity. }
  assert (Hfresh : forall x, In x (tag_tbl s) -> has_id id x = false)
    by (intros x Hx; now apply next_id_fresh).
  assert (Hcommit : Session.add_commit (Model (Instance Tag None (<["name" := PStr n]> ∅)) []) s
                    = (Ok id, set_table Tag (tag_tbl s ++ [r]) s)).
  { unfold Session.add_commit, flush_instance. simpl.
    rewrite lookup_insert_ne by discriminate. rewrite lookup_empty. simpl.
    fold id. fold r. unfold check_row.
    replace (not_null_ok Tag r) with true.
    2:{ unfold not_null_ok, cell, r, insert_values. simpl.
        rewrite lookup_insert_ne by discriminate.
        rewrite lookup_insert_eq. simpl. now rewrite lookup_insert_eq. }
    replace (primary_key_ok id (tag_tbl s)) with true.
    2:{ symmetry. unfold primary_key_ok. apply negb_true_iff.
        apply not_true_is_false. intros H.
        apply existsb_exists in H as (x & Hx & Hid).
        rewrite (Hfresh x Hx) in Hid. discriminate. }
    reflexivity. }
  exists id. rewrite <- Hr.
  split; [|exact Hfresh].
  unfold TagController.create, Controller.create, Controller._fill_model.
  unfold bind, lift. simpl.
  change (Session.add_commit _ s)
    with (Session.add_commit (Model (Instance Tag None (<["name" := PStr n]> ∅)) []) s).
  rewrite Hcommit.
  unfold Controller.get_single, get. cbn [table tag_tbl set_table].
  rewrite (find_middle (has_id id) (tag_tbl s) []);
    [|exact Hfresh|apply has_id_insert].
  unfold Controller.dictionary_of, Models.dictionary, Models.get_dictionary.
  unfold load, load_flat, column_attrs, Models.get_dictionary_with,
    Models._get_attributes.
  assert (Hcell : cell r "name" = PStr n).
  { rewrite Hr. reflexivity. }
  simpl. rewrite Hcell. simpl.
  destruct (float_of_str rt n); reflexivity.
Qed.

End ControllerMore.

(** ** Concrete instances *)

Module SerializationWitness.
Import Models.

(** Serialized with depth 0 the tags of a category are display strings. *)
Lemma collection_field_by_depth_witness :
  get_dictionary (float_of_str Sample.rt) (float_str Sample.rt) (str_repr Sample.rt)
    (set_iter Sample.rt) (Session.load Category Sample.starters Sample.kitchen) 0 []
  = Ok Sample.starters_at_depth_0
  /\ exists js,
       dict_get "tags" Sample.starters_at_depth_0 = Some (JList js)
       /\ exists strs,
            sequence (map (py_str (float_of_str Sample.rt) (float_str Sample.rt)
                                  (str_repr Sample.rt) (set_iter Sample.rt))
                          [PObj Tag [("id", PInt 1); ("name", PStr "vegan")]])
            = Ok strs
            /\ js = map JStr strs.
Proof.
  split; [reflexivity|].
  apply (SerializationSpec.collection_field_by_depth
           (float_of_str Sample.rt) (float_str Sample.rt) (str_repr Sample.rt)
           (set_iter Sample.rt) Category Sample.starters_attrs 0 []
           Sample.starters_at_depth_0 "tags"
           [PObj Tag [("id", PInt 1); ("name", PStr "vegan")]]).
  - reflexivity.
  - simpl. auto.
  - reflexivity.
  - reflexivity.
Defined.

(** [is_liquid = False] of the ingredient tomato is serialized as 0.0. *)
Lemma boolean_field_is_float_witness :
  dictionary (float_of_str Sample.rt) (float_str Sample.rt) (str_repr Sample.rt)
    (set_iter Sample.rt) (Session.load Ingredient Sample.tomato Sample.kitchen)
  = Ok Sample.tomato_serialized
  /\ dict_get "is_liquid" Sample.tomato_serialized = Some (JFloat 0%float).
Proof.
  split; [reflexivity|].
  apply (SerializationSpec.boolean_field_is_float
           (float_of_str Sample.rt) (float_str Sample.rt) (str_repr Sample.rt)
           (set_iter Sample.rt) Ingredient Sample.tomato_attrs 99 []
           Sample.tomato_serialized "is_liquid" false).
  - reflexivity.
  - simpl. auto 12.
  - reflexivity.
  - reflexivity.
Defined.

End SerializationWitness.

Module ControllerWitness.
Import Session.

Lemma kitchen_units_ok : units_ok Sample.kitchen.
Proof.
  unfold units_ok. simpl. repeat split.
  - constructor; [|constructor]. split; eexists; reflexivity.
  - apply NoDup_singleton.
  - apply NoDup_singleton.
Defined.




Lemma soup_holds_tomato : attached Sample.kitchen 1 (PStr "Soup").
Proof.
  exists Sample.tomatoes, 1, 1, Sample.soup.
  repeat split; try (vm_compute; reflexivity); simpl; auto.
Defined.

Lemma only_soup_holds_tomato (title : value) :
  attached Sample.kitchen 1 title -> exists str, title = PStr str.
Proof.
  intros (item & k & rid & recipe & Hitem & _ & Hk & Hlink & Hfind & <-).
  destruct Hlink as [[= <- <-]|[]]. vm_compute in Hfind. injection Hfind as <-.
  exists "Soup". vm_compute. reflexivity.
Defined.

Lemma nothing_holds_basil (title : value) : ~ attached Sample.kitchen 2 title.
Proof.
  intros (item & k & rid & recipe & Hitem & Href & _).
  destruct Hitem as [<-|[]]. vm_compute in Href. discriminate.
Defined.

(** C5: in the kitchen, deleting tomato is refused with a detail that
    names "Soup" and deleting basil removes it. *)
Lemma ingredient_delete_guard_witness :
  (exists detail,
      IngredientsController.delete_single 1 Sample.kitchen
      = (Raise (HTTPException 400 detail), Sample.kitchen)
      /\ contains "Soup" detail)
  /\ (exists s',
        IngredientsController.delete_single 2 Sample.kitchen = (Ok tt, s')
        /\ get Ingredient (PInt 2) s' = None).
Proof.
  split.
  - destruct (proj1 (ControllerSpec.ingredient_delete_guard Sample.kitchen 1
                       ltac:(vm_compute; discriminate)))
      as (detail & Hraise & Hnames).
    + exists (PStr "Soup"). exact soup_holds_tomato.
    + exact only_soup_holds_tomato.
    + exists detail. split; [exact Hraise | exact (Hnames "Soup" soup_holds_tomato)].
  - exact (proj2 (ControllerSpec.ingredient_delete_guard Sample.kitchen 2
                    ltac:(vm_compute; discriminate))
                 nothing_holds_basil).
Defined.

(** C7: merging and committing [{grams: 5}] on the unit "g". *)
Lemma default_merge_partial_update_witness :
  exists before after r',
    unit_tbl Sample.kitchen = (before ++ Sample.gram :: after)%list
    /\ UnitsController.update Sample.rt 1 Sample.five_grams Sample.kitchen
       = Controller.get_single Sample.rt Unit 1
           (set_table Unit (before ++ r' :: after) Sample.kitchen)
    /\ find (has_id 1) (before ++ r' :: after) = Some r'
    /\ cell r' "name" = PStr "g"
    /\ cell r' "grams" = PInt 5.
Proof.
  apply (UnitSpec.default_merge_partial_update Sample.rt
           (Model (Instance Unit (Some 1) Sample.gram) []) Sample.five_grams
           Sample.kitchen 1 Sample.gram (PInt 5)).
  - apply (bool_decide_unpack _). vm_compute. exact I.
  - exact kitchen_units_ok.
  - reflexivity.
  - reflexivity.
Defined.

(** C8: a tag payload and a unit payload with the id 7, which finds
    nothing, raise and store nothing. *)
Lemma stale_id_creates_nothing :
  TagController.create_or_update Sample.rt Sample.stale_tag empty_store
  = (Raise (AttributeError "'NoneType' object has no attribute 'id'"), empty_store)
  /\ UnitsController.create_or_update Sample.rt Sample.stale_unit empty_store
     = (Raise (AttributeError "'NoneType' object has no attribute 'name'"), empty_store).
Proof. split; reflexivity. Qed.

Lemma create_or_update_unresolved_id_witness :
  (exists attr,
      TagController.create_or_update Sample.rt Sample.stale_tag Sample.kitchen
      = (Raise (AttributeError ("'NoneType' object has no attribute '" ++ attr ++ "'")),
         Sample.kitchen))
  /\ exists msg,
       UnitsController.create_or_update Sample.rt Sample.stale_unit Sample.kitchen
       = (Raise (AttributeError msg), Sample.kitchen)
       \/ UnitsController.create_or_update Sample.rt Sample.stale_unit Sample.kitchen
          = (Raise (UnmappedInstanceError msg), Sample.kitchen).
Proof.
  split.
  - exact (proj1 (ControllerSpec.create_or_update_unresolved_id Sample.rt
                    Sample.stale_tag Sample.kitchen eq_refl) Tag eq_refl).
  - exact (proj2 (ControllerSpec.create_or_update_unresolved_id Sample.rt
                    Sample.stale_unit Sample.kitchen eq_refl) eq_refl).
Defined.

(** C9: updating the category "Starters" with the tags 1 and 9. *)
Lemma category_update_unknown_tag_witness :
  get Category (PInt 1) Sample.kitchen <> None
  /\ CategoriesController.update Sample.rt 1 Sample.mains Sample.kitchen
     = (Raise (HTTPException 400 "Tag id=9 not found"), Sample.kitchen).
Proof.
  split; [vm_compute; discriminate|].
  apply (ControllerSpec.category_update_unknown_tag Sample.rt Sample.kitchen 1
           Sample.mains [Sample.vegan_tag] [("id", PInt 9); ("name", PStr "x")] [] 9).
  - vm_compute. discriminate.
  - reflexivity.
  - constructor; [|constructor]. exists (PInt 1). split; [reflexivity|].
    vm_compute. discriminate.
  - reflexivity.
  - reflexivity.
Defined.

End ControllerWitness.
(** ** More concrete instances *)

Module DepthWitness.
Import Models.

Local Abbreviation get_dictionary :=
  (get_dictionary (float_of_str Sample.rt) (float_str Sample.rt) (str_repr Sample.rt)
                  (set_iter Sample.rt)).
Local Abbreviation _dictify :=
  (_dictify (float_of_str Sample.rt) (float_str Sample.rt) (str_repr Sample.rt)
            (set_iter Sample.rt)).
Local Abbreviation dictionary :=
  (dictionary (float_of_str Sample.rt) (float_str Sample.rt) (str_repr Sample.rt)
              (set_iter Sample.rt)).

(** The serialized tomato has the keys of [Ingredient.__items__]:
    [approx_per_piece] is stored and not listed. *)
Lemma get_dictionary_keys_witness :
  get_dictionary (PObj Ingredient Sample.tomato_attrs) 99 [] = Ok Sample.tomato_serialized
  /\ map fst Sample.tomato_serialized = public_fields Ingredient Sample.tomato_attrs [].
Proof.
  split; [reflexivity|].
  apply (SerializationDepth.get_dictionary_keys
           (float_of_str Sample.rt) (float_str Sample.rt) (str_repr Sample.rt)
           (set_iter Sample.rt) Ingredient Sample.tomato_attrs 99 []).
  reflexivity.
Defined.

(** The tomato without its id and its name. *)
Lemma get_dictionary_exclude_witness :
  get_dictionary (PObj Ingredient Sample.tomato_attrs) 99 [] = Ok Sample.tomato_serialized
  /\ get_dictionary (PObj Ingredient Sample.tomato_attrs) 99 ["id"; "name"]
     = Ok (List.filter
             (fun e => negb (existsb (String.eqb (fst e)) ["id"; "name"]))
             Sample.tomato_serialized).
Proof.
  split; [reflexivity|].
  apply (SerializationDepth.get_dictionary_exclude
           (float_of_str Sample.rt) (float_str Sample.rt) (str_repr Sample.rt)
           (set_iter Sample.rt)).
  reflexivity.
Defined.

(** The category "Starters" at depth 1 is a dict that holds a list of
    display strings: two containers. *)
Lemma _dictify_height_witness :
  _dictify (PObj Category Sample.starters_attrs) 1 = Ok (JDict Sample.starters_at_depth_0)
  /\ (json_height (JDict Sample.starters_at_depth_0) <= Z.to_nat 1 + 1)%nat.
Proof.
  split; [reflexivity|].
  apply (SerializationDepth._dictify_height
           (float_of_str Sample.rt) (float_str Sample.rt) (str_repr Sample.rt)
           (set_iter Sample.rt) (PObj Category Sample.starters_attrs) 1).
  reflexivity.
Defined.

(** The tomato, one container deep, at depth 1. *)
Lemma dictionary_is_complete_witness :
  (value_height (PObj Ingredient Sample.tomato_attrs) <= 99)%nat
  /\ Z.of_nat (value_height (PObj Ingredient Sample.tomato_attrs)) <= 1
  /\ get_dictionary (PObj Ingredient Sample.tomato_attrs) 1 ["id"]
     = get_dictionary (PObj Ingredient Sample.tomato_attrs) 99 ["id"]
  /\ get_dictionary (PObj Ingredient Sample.tomato_attrs) 1 []
     = dictionary (PObj Ingredient Sample.tomato_attrs).
Proof.
  split; [vm_compute; lia|]. split; [vm_compute; discriminate|].
  apply (SerializationDepth.dictionary_is_complete
           (float_of_str Sample.rt) (float_str Sample.rt) (str_repr Sample.rt)
           (set_iter Sample.rt)).
  - vm_compute. lia.
  - vm_compute. discriminate.
Defined.

(** The recipe "Soup" of the kitchen at depth 4. *)
Lemma loaded_dictionary_is_complete_witness :
  scalar_store Sample.kitchen = true
  /\ scalar_row Sample.soup = true
  /\ 4 <= 4
  /\ get_dictionary (Session.load Recipe Sample.soup Sample.kitchen) 4 []
     = dictionary (Session.load Recipe Sample.soup Sample.kitchen).
Proof.
  split; [vm_compute; reflexivity|]. split; [vm_compute; reflexivity|].
  split; [lia|].
  apply (SerializationDepth.loaded_dictionary_is_complete
           (float_of_str Sample.rt) (float_str Sample.rt) (str_repr Sample.rt)
           (set_iter Sample.rt)).
  - vm_compute. reflexivity.
  - vm_compute. reflexivity.
  - lia.
Defined.


(** The dictionary of the recipe "Soup" of the kitchen. *)
Lemma loaded_dictionary_succeeds_witness :
  scalar_store Sample.kitchen = true
  /\ floatable_store Sample.kitchen = true
  /\ scalar_row Sample.soup = true
  /\ floatable_row Sample.soup = true
  /\ exists d, dictionary (Session.load Recipe Sample.soup Sample.kitchen) = Ok d.
Proof.
  split; [vm_compute; reflexivity|]. split; [vm_compute; reflexivity|].
  split; [vm_compute; reflexivity|]. split; [vm_compute; reflexivity|].
  apply (SerializationDepth.loaded_dictionary_succeeds
           (float_of_str Sample.rt) (float_str Sample.rt) (str_repr Sample.rt)
           (set_iter Sample.rt)).
  - vm_compute. reflexivity.
  - vm_compute. reflexivity.
  - vm_compute. reflexivity.
  - vm_compute. reflexivity.
Defined.

End DepthWitness.

Module MoreWitness.
Import Session.

(** Deleting the tag 1 of the kitchen. *)
Lemma delete_single_round_trip_witness :
  Controller.delete_single Tag 1 Sample.kitchen
  = (Ok tt, delete_commit Tag 1 Sample.kitchen)
  /\ Controller.get_single Sample.rt Tag 1 (delete_commit Tag 1 Sample.kitchen)
     = (Raise (not_found (pretty 1)), delete_commit Tag 1 Sample.kitchen)
  /\ Controller.delete_single Tag 1 (delete_commit Tag 1 Sample.kitchen)
     = (Raise (not_found (pretty 1)), delete_commit Tag 1 Sample.kitchen)
  /\ forall k, k <> 1 ->
               get Tag (PInt k) (delete_commit Tag 1 Sample.kitchen)
               = get Tag (PInt k) Sample.kitchen.
Proof.
  split; [reflexivity|].
  apply (ControllerMore.delete_single_round_trip Sample.rt Tag 1 Sample.kitchen).
  reflexivity.
Defined.

(** Deleting the recipe "Soup" of the kitchen. *)
Lemma recipe_delete_cascades_witness :
  RecipesController.delete_single 1 Sample.kitchen
  = (Ok tt, delete_commit Recipe 1 Sample.kitchen)
  /\ linked ingredients 1 (delete_commit Recipe 1 Sample.kitchen) = []
  /\ linked tags 1 (delete_commit Recipe 1 Sample.kitchen) = []
  /\ (forall k, In k (linked ingredients 1 Sample.kitchen) ->
                get IngredientItem (PInt k) (delete_commit Recipe 1 Sample.kitchen) = None
                /\ linked_to ingredients k (delete_commit Recipe 1 Sample.kitchen) = [])
  /\ (forall r, In r (ingredient_item_tbl Sample.kitchen) ->
                (forall k, In k (linked ingredients 1 Sample.kitchen) ->
                           has_id k r = false) ->
                In r (ingredient_item_tbl (delete_commit Recipe 1 Sample.kitchen)))
  /\ tag_tbl (delete_commit Recipe 1 Sample.kitchen) = tag_tbl Sample.kitchen
  /\ ingredient_tbl (delete_commit Recipe 1 Sample.kitchen)
     = ingredient_tbl Sample.kitchen
  /\ unit_tbl (delete_commit Recipe 1 Sample.kitchen) = unit_tbl Sample.kitchen.
Proof.
  split; [reflexivity|].
  apply (ControllerMore.recipe_delete_cascades 1 Sample.kitchen).
  reflexivity.
Defined.

(** Creating the tag "quick" in the kitchen. *)
Lemma create_appends_fresh_row_witness :
  TagController.create Sample.rt Sample.quick_tag Sample.kitchen
  = (Ok [("name", JStr "quick")], Pantry.kitchen_with_quick)
  /\ exists id r,
       Pantry.kitchen_with_quick
       = set_table Tag (table Tag Sample.kitchen ++ [r]) Sample.kitchen
       /\ row_id r = Some id
       /\ (forall x, In x (table Tag Sample.kitchen) -> has_id id x = false)
       /\ Controller.get_single Sample.rt Tag id Pantry.kitchen_with_quick
          = (Ok [("name", JStr "quick")], Pantry.kitchen_with_quick).
Proof.
  split; [vm_compute; reflexivity|].
  apply (ControllerMore.create_appends_fresh_row Sample.rt Tag Sample.quick_tag
           Sample.kitchen).
  vm_compute. reflexivity.
Defined.

(** The payload "quick" carries no id. *)
Lemma create_or_update_without_id_creates_witness :
  truthy (getattr_or_none Sample.quick_tag "id") = false
  /\ Controller.create_or_update Sample.rt Tag Controller._fill_model (fun d => d)
       Sample.quick_tag Sample.kitchen
     = Controller.create Sample.rt Tag Controller._fill_model Sample.quick_tag
         Sample.kitchen.
Proof.
  split; [reflexivity|].
  apply (ControllerMore.create_or_update_without_id_creates Sample.rt Tag
           Sample.quick_tag Sample.kitchen).
  reflexivity.
Defined.

(** The payload "vegan" carries the id of the stored tag. *)
Lemma create_or_update_with_id_updates_witness :
  getattr_or_none Sample.vegan_tag "id" = PInt 1
  /\ 1 <> 0
  /\ get Tag (PInt 1) Sample.kitchen <> None
  /\ Controller.create_or_update Sample.rt Tag Controller._fill_model (fun d => d)
       Sample.vegan_tag Sample.kitchen
     = Controller.update Sample.rt Tag Controller._fill_model (fun d => d) 1
         Sample.vegan_tag Sample.kitchen.
Proof.
  split; [reflexivity|]. split; [discriminate|]. split; [vm_compute; discriminate|].
  apply (ControllerMore.create_or_update_with_id_updates Sample.rt Tag
           Sample.vegan_tag 1 Sample.kitchen).
  - reflexivity.
  - discriminate.
  - vm_compute. discriminate.
Defined.

Lemma pantry_unit_keys :
  Forall (fun r => is_Some (row_id r)) (table Unit Pantry.pantry)
  /\ NoDup (map row_id (table Unit Pantry.pantry)).
Proof.
  split.
  - repeat constructor; eexists; reflexivity.
  - apply (bool_decide_unpack _). vm_compute. exact I.
Defined.

(** The units of the pantry, listed and read one by one. *)
Lemma get_all_reads_every_id_witness :
  Forall (fun r => is_Some (row_id r)) (table Unit Pantry.pantry)
  /\ NoDup (map row_id (table Unit Pantry.pantry))
  /\ Controller.get_all Sample.rt Unit Pantry.pantry
     = for_each (Controller.get_single Sample.rt Unit)
                (omap row_id (table Unit Pantry.pantry)) Pantry.pantry.
Proof.
  split; [exact (proj1 pantry_unit_keys)|]. split; [exact (proj2 pantry_unit_keys)|].
  apply (ControllerMore.get_all_reads_every_id Sample.rt Unit Pantry.pantry).
  - exact (proj1 pantry_unit_keys).
  - exact (proj2 pantry_unit_keys).
Defined.

(** Updating the category 1 of the kitchen with the payload "Salads". *)
Lemma category_write_links_payload_tags_witness :
  CategoriesController.update Sample.rt 1 Pantry.salads Sample.kitchen
  = (Ok Pantry.salads_shape, Pantry.kitchen_after_salads)
  /\ exists rid tag_ids,
       Controller.get_single Sample.rt Category rid Pantry.kitchen_after_salads
       = (Ok Pantry.salads_shape, Pantry.kitchen_after_salads)
       /\ Forall2 (fun tag id => attr_of tag "id" = Ok (PInt id)
                                 /\ get Tag (PInt id) Sample.kitchen <> None)
                  (category_tag_list Pantry.salads) tag_ids
       /\ (forall x, In x (linked category_tags rid Pantry.kitchen_after_salads)
                     <-> In x tag_ids)
       /\ tag_tbl Pantry.kitchen_after_salads = tag_tbl Sample.kitchen
       /\ tags_tbl Pantry.kitchen_after_salads = tags_tbl Sample.kitchen.
Proof.
  split; [vm_compute; reflexivity|].
  apply (ControllerMore.category_write_links_payload_tags Sample.rt Pantry.salads 1
           Sample.kitchen).
  left. vm_compute. reflexivity.
Defined.

(** Renaming the litre of the pantry to "g", and creating a second "g". *)
Lemma unit_name_stays_unique_witness :
  2 <> 0
  /\ find (has_id 2) (unit_tbl Pantry.pantry) = Some Pantry.litre
  /\ In Sample.gram (unit_tbl Pantry.pantry)
  /\ has_id 2 Sample.gram = false
  /\ cell Sample.gram "name" = PStr "g"
  /\ UnitsController.create_or_update Sample.rt
       [("id", PInt 2); ("name", PStr "g"); ("grams", PInt 1)] Pantry.pantry
     = (Raise (IntegrityError "UNIQUE constraint failed"), Pantry.pantry)
  /\ UnitsController.create Sample.rt
       [("id", PNone); ("name", PStr "g"); ("grams", PInt 1)] Pantry.pantry
     = (Raise (IntegrityError "UNIQUE constraint failed"), Pantry.pantry).
Proof.
  split; [discriminate|]. split; [reflexivity|]. split; [simpl; auto|].
  split; [reflexivity|]. split; [reflexivity|].
  apply (ControllerMore.unit_name_stays_unique Sample.rt Pantry.pantry 2
           Pantry.litre Sample.gram "g" (PInt 1)).
  - discriminate.
  - reflexivity.
  - simpl. auto.
  - reflexivity.
  - reflexivity.
Defined.

Lemma nameless_payload (v : value) :
  In ("name", v) [("id", PNone); ("name", PNone)] -> v = PNone.
Proof. intros [H|[H|[]]]; congruence. Defined.

(** Creating a tag without a name. *)
Lemma create_without_name_is_refused_witness :
  In Tag [Unit; Tag; Ingredient]
  /\ (forall v, In ("name", v) [("id", PNone); ("name", PNone)] -> v = PNone)
  /\ exists msg,
       Controller.create Sample.rt Tag Controller._fill_model
         [("id", PNone); ("name", PNone)] Sample.kitchen
       = (Raise (IntegrityError msg), Sample.kitchen).
Proof.
  split; [simpl; auto|]. split; [exact nameless_payload|].
  apply (ControllerMore.create_without_name_is_refused Sample.rt Tag
           [("id", PNone); ("name", PNone)] Sample.kitchen).
  - simpl. auto.
  - exact nameless_payload.
Defined.

(** Upserting and reading the unit "g" of the kitchen. *)
Lemma unit_shape_has_no_id_witness :
  (UnitsController.create_or_update Sample.rt
     [("id", PNone); ("name", PStr "g"); ("grams", PInt 1)] Sample.kitchen
   = (Ok Pantry.gram_shape, Sample.kitchen)
   \/ UnitsController.get_single Sample.rt 1 Sample.kitchen
      = (Ok Pantry.gram_shape, Sample.kitchen))
  /\ dict_get "id" Pantry.gram_shape = None.
Proof.
  split; [left; vm_compute; reflexivity|].
  apply (ControllerMore.unit_shape_has_no_id Sample.rt
           [("id", PNone); ("name", PStr "g"); ("grams", PInt 1)] 1
           Sample.kitchen Sample.kitchen).
  right. vm_compute. reflexivity.
Defined.

(** The item built for the pesto payload. *)
Lemma built_items_share_unit_id_witness :
  RecipesController._get_ingredients_and_tags Sample.rt Sample.pesto Sample.kitchen
  = (Ok (Pantry.pesto_items, Pantry.pesto_tags), Sample.kitchen)
  /\ Forall (fun m => exists i, m = Some i
                                /\ i_attrs i !! "unit_id"
                                   = Some (read_id Sample.rt None))
            Pantry.pesto_items.
Proof.
  split; [vm_compute; reflexivity|].
  apply (ControllerMore.built_items_share_unit_id Sample.rt Sample.pesto
           Sample.kitchen Sample.kitchen Pantry.pesto_items Pantry.pesto_tags).
  vm_compute. reflexivity.
Defined.

Lemma no_category_7 (k : Z) :
  PInt 7 = PInt k ->
  get Category (PInt k) Sample.kitchen = None
  \/ RecipeQueries.category_tag_rows k Sample.kitchen = [].
Proof. intros [= <-]. left. reflexivity. Defined.

(** The recipes of a category the kitchen does not have. *)
Lemma get_by_category_without_tags_witness :
  (forall k, PInt 7 = PInt k ->
             get Category (PInt k) Sample.kitchen = None
             \/ RecipeQueries.category_tag_rows k Sample.kitchen = [])
  /\ RecipeQueries.get_by_category Sample.rt Pantry.no_recipes (PInt 7) Sample.kitchen
     = (Ok [], Sample.kitchen).
Proof.
  split; [exact no_category_7|].
  apply (ControllerMore.get_by_category_without_tags Sample.rt Pantry.no_recipes
           (PInt 7) Sample.kitchen).
  exact no_category_7.
Defined.

(** The recipes of the kitchen titled "Soup", the database comparing
    the stored title with the keyword as strings. *)
Lemma get_all_and_filter_selects_witness :
  RecipeQueries.get_all_and_filter Sample.rt Pantry.sql_eq [("title", PStr "Soup")]
  = Some Pantry.soup_query
  /\ Controller.get_all Sample.rt Recipe Sample.kitchen
     = (Ok Pantry.recipe_shapes, Sample.kitchen)
  /\ Pantry.soup_query Sample.kitchen
     = (Ok (map snd (List.filter
                       (fun rb => RecipeQueries.row_matches Pantry.sql_eq
                                    [("title", PStr "Soup")] (fst rb))
                       (combine (recipe_tbl Sample.kitchen) Pantry.recipe_shapes))),
        Sample.kitchen).
Proof.
  split; [reflexivity|]. split; [vm_compute; reflexivity|].
  apply (ControllerMore.get_all_and_filter_selects Sample.rt Pantry.sql_eq
           [("title", PStr "Soup")] Pantry.soup_query Sample.kitchen Sample.kitchen
           Pantry.recipe_shapes).
  - reflexivity.
  - vm_compute. reflexivity.
Defined.

(** The unit 1 of the kitchen, upserted by id without a name and
    without grams. *)
Lemma unit_upsert_by_id_writes_none_witness :
  units_ok Sample.kitchen
  /\ 1 <> 0
  /\ find (has_id 1) (unit_tbl Sample.kitchen) = Some Sample.gram
  /\ name_of Sample.gram = Some "g"
  /\ (forall g,
         UnitsController.create_or_update Sample.rt
           [("id", PInt 1); ("name", PNone); ("grams", g)] Sample.kitchen
         = (Raise (IntegrityError "NOT NULL constraint failed"), Sample.kitchen))
  /\ exists d s' r',
       UnitsController.create_or_update Sample.rt
         [("id", PInt 1); ("name", PStr "g"); ("grams", PNone)] Sample.kitchen
       = (Ok d, s')
       /\ find (has_id 1) (unit_tbl s') = Some r'
       /\ cell r' "grams" = PNone
       /\ dict_get "grams" d = Some JNone
       /\ length (unit_tbl s') = length (unit_tbl Sample.kitchen).
Proof.
  split; [exact ControllerWitness.kitchen_units_ok|]. split; [discriminate|].
  split; [reflexivity|]. split; [reflexivity|].
  apply (ControllerMore.unit_upsert_by_id_writes_none Sample.rt Sample.kitchen 1
           Sample.gram "g").
  - exact ControllerWitness.kitchen_units_ok.
  - discriminate.
  - reflexivity.
  - reflexivity.
Defined.

End MoreWitness.
